(** * Attendance transfer: a shallow embedding of [attendance_transfer.py]

    The development follows the script function by function:
    [extract_student_id], [convert_date_format], [calculate_attendance],
    [read_template_file], [update_attendance_data] and
    [save_updated_template].  Spreadsheet cells are dynamically typed
    values, a data frame is a rectangular grid of cells addressed by
    position, the date-column dictionary is a finite map keyed by the date
    label, and printing is a log threaded next to the result. *)

From Stdlib Require Import ZArith QArith Ascii String List Lia.
From stdpp Require Import base decidable option list strings pretty gmap.

Local Open Scope string_scope.
Local Open Scope Z_scope.

(** ** Exceptions, results and the logging monad *)

Inductive exn : Type :=
| IndexError
| ValueError
| TypeError
| OverflowError.

Inductive result (A : Type) : Type :=
| Ok (a : A)
| Raise (e : exn).
Arguments Ok {A} a.
Arguments Raise {A} e.

Definition rbind {A B} (r : result A) (f : A -> result B) : result B :=
  match r with
  | Ok a => f a
  | Raise e => Raise e
  end.

(** ** Characters and strings, as Python sees them

    A character is a code point below 256.  The predicates below are
    Python's [str] predicates restricted to that range. *)

Definition code (c : ascii) : Z := Z.of_N (N_of_ascii c).

(** The value of an ASCII decimal digit ([0-9] in a regular expression,
    and the digits [int()] and [float()] accept in this range). *)
Definition digit_of (c : ascii) : option Z :=
  if (48 <=? code c) && (code c <=? 57) then Some (code c - 48) else None.

Definition is_ascii_digit (c : ascii) : bool :=
  (48 <=? code c) && (code c <=? 57).

(** [str.isspace] on one character. *)
Definition py_isspace (c : ascii) : bool :=
  let n := code c in
  ((9 <=? n) && (n <=? 13)) || ((28 <=? n) && (n <=? 32))
  || (n =? 133) || (n =? 160).

(** [str.isdigit] on one character: the ASCII digits and the superscript
    digits of the Latin-1 block. *)
Definition py_isdigit_char (c : ascii) : bool :=
  let n := code c in
  is_ascii_digit c || (n =? 178) || (n =? 179) || (n =? 185).

Fixpoint string_forall (p : ascii -> bool) (s : string) : bool :=
  match s with
  | EmptyString => true
  | String c r => p c && string_forall p r
  end.

(** [s.isdigit()]: non-empty and every character a digit. *)
Definition py_isdigit (s : string) : bool :=
  match s with
  | EmptyString => false
  | _ => string_forall py_isdigit_char s
  end.

Fixpoint lstrip (s : string) : string :=
  match s with
  | EmptyString => EmptyString
  | String c r => if py_isspace c then lstrip r else s
  end.

Fixpoint rstrip (s : string) : string :=
  match s with
  | EmptyString => EmptyString
  | String c r =>
      match rstrip r with
      | EmptyString => if py_isspace c then EmptyString else String c EmptyString
      | r' => String c r'
      end
  end.

(** [s.strip()] *)
Definition py_strip (s : string) : string := rstrip (lstrip s).

(** [s.split(sep)] for a one-character separator: never empty. *)
Fixpoint py_split (sep : ascii) (s : string) : list string :=
  match s with
  | EmptyString => [EmptyString]
  | String c r =>
      if Ascii.eqb c sep then EmptyString :: py_split sep r
      else match py_split sep r with
           | [] => [String c EmptyString]
           | p :: ps => String c p :: ps
           end
  end.

(** [sub in s] for a one-character [sub]. *)
Fixpoint contains_char (sub : ascii) (s : string) : bool :=
  match s with
  | EmptyString => false
  | String c r => Ascii.eqb c sub || contains_char sub r
  end.

(** The digits of [int(s)] after the sign: decimal digits, single
    underscores allowed between two digits. *)
Fixpoint int_digits (acc : Z) (after_digit : bool) (s : string) : option Z :=
  match s with
  | EmptyString => if after_digit then Some acc else None
  | String c r =>
      match digit_of c with
      | Some d => int_digits (acc * 10 + d) true r
      | None =>
          if (code c =? 95) && after_digit then int_digits acc false r
          else None
      end
  end.

(** The value of a digit string read in base ten. *)
Fixpoint digits_value (acc : Z) (s : string) : Z :=
  match s with
  | EmptyString => acc
  | String c r => digits_value (acc * 10 + (code c - 48)) r
  end.

(** [int(s)] on a string: surrounding whitespace, an optional sign,
    digits.  [ValueError] otherwise. *)
Definition py_int_of_str (s : string) : result Z :=
  let body := py_strip s in
  let parsed :=
    match body with
    | String c r =>
        if code c =? 45 then Z.opp <$> int_digits 0 false r
        else if code c =? 43 then int_digits 0 false r
        else int_digits 0 false body
    | EmptyString => None
    end in
  match parsed with
  | Some z => Ok z
  | None => Raise ValueError
  end.

(** ** Dates and times *)

Record datetime : Type := mk_datetime {
  year : Z;
  month : Z;
  day : Z;
  hour : Z;
  minute : Z;
  second : Z;
  microsecond : Z
}.

Definition is_leap (y : Z) : bool :=
  (y mod 4 =? 0) && (negb (y mod 100 =? 0) || (y mod 400 =? 0)).

Definition days_before_year (y : Z) : Z :=
  let p := y - 1 in p * 365 + p / 4 - p / 100 + p / 400.

Definition days_before_month (y m : Z) : Z :=
  let base :=
    match m with
    | 1 => 0 | 2 => 31 | 3 => 59 | 4 => 90 | 5 => 120 | 6 => 151
    | 7 => 181 | 8 => 212 | 9 => 243 | 10 => 273 | 11 => 304 | _ => 334
    end in
  if (2 <? m) && is_leap y then base + 1 else base.

(** [date.toordinal()] *)
Definition toordinal (t : datetime) : Z :=
  days_before_year (year t) + days_before_month (year t) (month t) + day t.

Definition micros_per_minute : Z := 60 * 1000000.

(** The position of a datetime on the time line, in microseconds.
    Comparison and subtraction of datetimes go through it. *)
Definition instant (t : datetime) : Z :=
  (((toordinal t * 24 + hour t) * 60 + minute t) * 60 + second t) * 1000000
  + microsecond t.

(** [t.replace(hour=h, minute=m, second=0, microsecond=0)] *)
Definition replace_time (t : datetime) (h m : Z) : result datetime :=
  if (0 <=? h) && (h <=? 23) && (0 <=? m) && (m <=? 59)
  then Ok (mk_datetime (year t) (month t) (day t) h m 0 0)
  else Raise ValueError.

(** [convert_date_format]: day and month without leading zeros. *)
Definition convert_date_format (date_obj : datetime) : string :=
  pretty (day date_obj) +:+ "/" +:+ pretty (month date_obj).

(** ** The command line: the accepted start-time strings

    [re.match(r'^([0-1]?[0-9]|2[0-3]):[0-5][0-9]$', s)]; [$] also matches
    before one trailing newline. *)

Definition in_range (lo hi : Z) (c : ascii) : bool :=
  (lo <=? code c) && (code c <=? hi).

Definition strip_final_newline (s : list ascii) : list ascii :=
  match reverse s with
  | c :: r => if code c =? 10 then reverse r else s
  | [] => s
  end.

Definition valid_start_time (s : string) : bool :=
  match strip_final_newline (list_ascii_of_string s) with
  | [h; colon; m1; m2] =>
      in_range 48 57 h && (code colon =? 58)
      && in_range 48 53 m1 && in_range 48 57 m2
  | [h1; h2; colon; m1; m2] =>
      ((in_range 48 49 h1 && in_range 48 57 h2)
       || ((code h1 =? 50) && in_range 48 51 h2))
      && (code colon =? 58)
      && in_range 48 53 m1 && in_range 48 57 m2
  | _ => false
  end.

(** [start_hour, start_minute = map(int, start_time_str.split(':'))] *)
Definition parse_start_time (start_time_str : string) : result (Z * Z) :=
  match py_split ":" start_time_str with
  | [a; b] =>
      rbind (py_int_of_str a) (fun h =>
      rbind (py_int_of_str b) (fun m => Ok (h, m)))
  | [a] => rbind (py_int_of_str a) (fun _ => Raise ValueError)
  | a :: b :: _ =>
      rbind (py_int_of_str a) (fun _ =>
      rbind (py_int_of_str b) (fun _ => Raise ValueError))
  | [] => Raise ValueError
  end.

(** ** The attendance calculator *)

Definition micros_per_day : Z := 86400 * 1000000.

(** [datetime.max.toordinal()]: the last day of year 9999. *)
Definition max_ordinal : Z := 3652059.

(** [timedelta(minutes=n)], in microseconds.  A timedelta holds at most
    999999999 days in either direction; beyond that the constructor raises
    [OverflowError]. *)
Definition timedelta_minutes (n : Z) : result Z :=
  let us := n * micros_per_minute in
  if (-999999999 <=? us / micros_per_day) && (us / micros_per_day <=? 999999999)
  then Ok us
  else Raise OverflowError.

(** [t + delta] for a datetime at instant [t]: the instant of the sum.
    The day of the sum has to be one of the days of the years 1 to 9999,
    otherwise the addition raises [OverflowError]. *)
Definition datetime_add (t delta : Z) : result Z :=
  let sum := t + delta in
  if (1 <=? sum / micros_per_day) && (sum / micros_per_day <=? max_ordinal)
  then Ok sum
  else Raise OverflowError.

Definition calculate_attendance
    (completion_time : datetime) (start_time_str : string)
    (duration_minutes : Z) : result (string * Z) :=
  rbind (parse_start_time start_time_str) (fun '(start_hour, start_minute) =>
  rbind (replace_time completion_time start_hour start_minute) (fun class_start =>
  rbind (timedelta_minutes duration_minutes) (fun delta =>
  rbind (datetime_add (instant class_start) delta) (fun class_end =>
  if instant completion_time <=? instant class_start then
    Ok ("Y", duration_minutes)
  else if class_end <=? instant completion_time then
    Ok ("N", 0)
  else
    (* int(total_seconds() / 60): the quotient is positive here and the
       elapsed time is a whole number of microseconds, so truncation of the
       float quotient is the integer quotient *)
    let minutes_late :=
      (instant completion_time - instant class_start) / micros_per_minute in
    Ok ("Y", duration_minutes - minutes_late))))).


(** The hour and minute digits of an accepted start-time string. *)
Inductive start_time_shape : string -> Z -> Z -> Prop :=
| shape_intro (hh mm nl : string) :
    string_forall is_ascii_digit hh = true -> hh <> EmptyString ->
    string_forall is_ascii_digit mm = true -> mm <> EmptyString ->
    nl = EmptyString \/ nl = String "010" EmptyString ->
    0 <= digits_value 0 hh <= 23 ->
    0 <= digits_value 0 mm <= 59 ->
    start_time_shape (hh +:+ String ":" (mm +:+ nl))
                     (digits_value 0 hh) (digits_value 0 mm).

(** The class start and end on the time line, for a completion time [t] and
    the hour and minute of the start time. *)
Definition class_start_instant (t : datetime) (h m : Z) : Z :=
  instant (mk_datetime (year t) (month t) (day t) h m 0 0).

(** The class end can be computed: the duration fits a timedelta and the
    day of class start plus duration is a day of the years 1 to 9999. *)
Definition class_end_in_range (t : datetime) (h m d : Z) : Prop :=
  -999999999 <= d * micros_per_minute / micros_per_day <= 999999999 /\
  1 <= (class_start_instant t h m + d * micros_per_minute) / micros_per_day
    <= max_ordinal.

(** The same for a start-time string: whatever hour and minute it reads
    as, the class end on the date of [t] can be computed. *)
Definition class_end_fits (start : string) (d : Z) (t : datetime) : Prop :=
  forall h m, parse_start_time start = Ok (h, m) -> class_end_in_range t h m d.

(** ** Cells and data frames *)

(** A cell of a data frame or of a sheet: missing ([NaN]), text, an
    integer, a float (by its exact rational value) or a boolean. *)
Inductive value : Type :=
| VNaN
| VStr (s : string)
| VInt (z : Z)
| VFloat (q : Q)
| VBool (b : bool).

#[global] Instance Q_eq_dec : EqDecision Q.
Proof. solve_decision. Defined.

#[global] Instance value_eq_dec : EqDecision value.
Proof. solve_decision. Defined.

(** [pd.isna] / [pd.notna] *)
Definition isna (v : value) : bool :=
  match v with VNaN => true | _ => false end.
Definition notna (v : value) : bool := negb (isna v).

(** [v == s] for a string literal [s] *)
Definition eq_str (v : value) (s : string) : bool :=
  match v with VStr s' => String.eqb s' s | _ => false end.

(** [int(v)] on a cell *)
Definition py_int (v : value) : result Z :=
  match v with
  | VNaN => Raise ValueError
  | VStr s => py_int_of_str s
  | VInt z => Ok z
  | VFloat q => Ok (Z.quot (Qnum q) (Zpos (Qden q)))
  | VBool b => Ok (if b then 1 else 0)
  end.

(** A data frame read without header: [ncols] columns and the rows in
    order, every row [ncols] cells wide. *)
Record DataFrame : Type := mk_df {
  ncols : nat;
  data : list (list value)
}.

Definition wf_df (df : DataFrame) : Prop :=
  Forall (fun row => length row = ncols df) (data df).

(** [len(df)] *)
Definition nrows (df : DataFrame) : nat := length (data df).

(** [df.iloc[r]] *)
Definition iloc_row (df : DataFrame) (r : nat) : result (list value) :=
  match data df !! r with
  | Some row => Ok row
  | None => Raise IndexError
  end.

(** [df.iloc[r, c]] *)
Definition iloc_get (df : DataFrame) (r c : nat) : result value :=
  match data df !! r with
  | Some row =>
      match row !! c with
      | Some v => Ok v
      | None => Raise IndexError
      end
  | None => Raise IndexError
  end.

(** [df.iloc[r, c] = v]: positional assignment never enlarges the frame. *)
Definition iloc_set (df : DataFrame) (r c : nat) (v : value) : result DataFrame :=
  match data df !! r with
  | Some row =>
      match row !! c with
      | Some _ => Ok (mk_df (ncols df) (<[r := <[c := v]> row]> (data df)))
      | None => Raise IndexError
      end
  | None => Raise IndexError
  end.

(** ** Console output

    The lines the script prints about a record or a failure; banners and
    totals are left out. *)

Inductive event : Type :=
| WarnNonNumericId (email : string)
| WarnDateNotFound (date student_id : string)
| WarnStudentNotFound (student_id : string)
| Updated (student_id date code : string) (minutes : Z)
| MarkedAbsent (student : value) (date : string)
| ErrorReadingTemplate (e : exn).

(** A computation that prints and then returns or raises. *)
Definition M (A : Type) : Type := list event * result A.

#[global] Instance M_ret : MRet M := fun A a => ([], Ok a).

#[global] Instance M_bind : MBind M := fun A B f m =>
  match m with
  | (l1, Ok a) => let '(l2, r) := f a in ((l1 ++ l2)%list, r)
  | (l1, Raise e) => (l1, Raise e)
  end.

#[global] Arguments M_ret : simpl never.
#[global] Arguments M_bind : simpl never.

Definition lift {A} (r : result A) : M A := ([], r).
Definition print (ev : event) : M unit := ([ev], Ok tt).

(** ** The identifier normalizer *)

(** [s.upper().startswith('S')]: the first character is S, s, or the
    sharp s, whose upper case is SS. *)
Definition upper_startswith_S (s : string) : bool :=
  match s with
  | String c _ => (code c =? 83) || (code c =? 115) || (code c =? 223)
  | EmptyString => false
  end.

Definition extract_student_id (email : value) : list event * option string :=
  match email with
  | VStr e =>
      let email_prefix := py_strip (hd EmptyString (py_split "@" e)) in
      let student_id :=
        if upper_startswith_S email_prefix
        then match email_prefix with
             | String _ r => r
             | EmptyString => EmptyString
             end
        else email_prefix in
      if py_isdigit student_id then ([], Some student_id)
      else ([WarnNonNumericId e], None)
  | _ => ([], None)
  end.

(** ** Reading the form export *)

(** A row of the form export: the columns the script uses. *)
Record FormRow : Type := mk_form_row {
  Email : value;
  Start_time : datetime;
  Completion_time : datetime
}.

Record FormRecord : Type := mk_form_record {
  student_id : string;
  date : string;
  completion_time : datetime
}.

(** The part of [read_forms_data] after the file is loaded: derive the two
    columns, keep three, drop the rows without a student id. *)
Fixpoint read_forms_data (rows : list FormRow) : list event * list FormRecord :=
  match rows with
  | [] => ([], [])
  | row :: rest =>
      let '(l1, sid) := extract_student_id (Email row) in
      let '(l2, recs) := read_forms_data rest in
      match sid with
      | Some s =>
          ((l1 ++ l2)%list,
           mk_form_record s (convert_date_format (Start_time row))
             (Completion_time row) :: recs)
      | None => ((l1 ++ l2)%list, recs)
      end
  end.

(** ** The roster indexer *)

Record date_cols : Type := mk_date_cols {
  code_col : nat;
  minutes_col : nat
}.

(** [isinstance(v, str) and '/' in v] on a header cell *)
Definition date_label (v : value) : option string :=
  match v with
  | VStr s => if contains_char "/" s then Some s else None
  | _ => None
  end.

(** The loop over [enumerate(date_row)], from column [col_idx] on. *)
Fixpoint index_dates (col_idx : nat) (date_row : list value)
    (date_columns : gmap string date_cols) : gmap string date_cols :=
  match date_row with
  | [] => date_columns
  | date_val :: rest =>
      index_dates (S col_idx) rest
        (match date_label date_val with
         | Some label =>
             <[label := mk_date_cols col_idx (S col_idx)]> date_columns
         | None => date_columns
         end)
  end.

(** [read_template_file] after the file is loaded.  Any exception is
    reported and raised again. *)
Definition read_template_file (df : DataFrame)
    : M (DataFrame * gmap string date_cols) :=
  let body :=
    rbind (iloc_row df 3) (fun date_row =>
    rbind (iloc_row df 4) (fun subheader_row =>
    Ok (df, index_dates 0 date_row ∅))) in
  match body with
  | Ok r => mret r
  | Raise e => _ ← print (ErrorReadingTemplate e); lift (Raise e)
  end.

(** ** The reconciler *)

(** The nearest double to a non-negative integer, ties to even; [None]
    when the result is infinite. *)
Definition round_to_double (n : Z) : option Z :=
  if n <? 2 ^ 53 then Some n
  else
    let e := Z.log2 n - 52 in
    let q := n / 2 ^ e in
    let r := n mod 2 ^ e in
    let half := 2 ^ (e - 1) in
    let q' :=
      if r <? half then q
      else if half <? r then q + 1
      else if Z.even q then q else q + 1 in
    let v := q' * 2 ^ e in
    if v <? 2 ^ 1024 then Some v else None.

(** [int(float(s))] on a student id of the form data.  The ids that reach
    this call passed [isdigit]: a string of decimal digits is read as a
    float and converted back; a superscript digit is no number for
    [float]. *)
Definition int_of_float_of_id (s : string) : result Z :=
  match s with
  | EmptyString => Raise ValueError
  | _ =>
      if string_forall is_ascii_digit s then
        match round_to_double (digits_value 0 s) with
        | Some v => Ok v
        | None => Raise OverflowError
        end
      else Raise ValueError
  end.

(** [str(int(cell)) if pd.notna(cell) else None] *)
Definition template_student_id (cell : value) : result (option string) :=
  if notna cell then rbind (py_int cell) (fun z => Ok (Some (pretty z)))
  else Ok None.

(** The inner loop of the first pass: the rows still to scan, the found
    flag as second result. *)
Fixpoint find_student (rows : list nat) (updated_df : DataFrame)
    (student_id date : string) (cols : date_cols)
    (completion_time : datetime) (start_time : string) (duration : Z)
    : M (DataFrame * bool) :=
  match rows with
  | [] => mret (updated_df, false)
  | row_idx :: rest =>
      cell ← lift (iloc_get updated_df row_idx 0%nat);
      tsid ← lift (template_student_id cell);
      if decide (tsid = Some student_id) then
        '(code, minutes) ← lift (calculate_attendance completion_time start_time duration);
        df1 ← lift (iloc_set updated_df row_idx (code_col cols) (VStr code));
        df2 ← lift (iloc_set df1 row_idx (minutes_col cols) (VInt minutes));
        _ ← print (Updated student_id date code minutes);
        mret (df2, true)
      else
        find_student rest updated_df student_id date cols
          completion_time start_time duration
  end.

(** [range(5, len(df))] *)
Definition student_rows (df : DataFrame) : list nat :=
  seq 5 (nrows df - 5).

(** The body of the first loop, for one form submission. *)
Definition apply_response (date_columns : gmap string date_cols)
    (start_time : string) (duration : Z)
    (updated_df : DataFrame) (form_row : FormRecord) : M DataFrame :=
  sid ← lift (int_of_float_of_id (student_id form_row));
  let student_id := pretty sid in
  match date_columns !! date form_row with
  | None =>
      _ ← print (WarnDateNotFound (date form_row) student_id);
      mret updated_df
  | Some cols =>
      '(df, student_found) ←
        find_student (student_rows updated_df) updated_df student_id
          (date form_row) cols (completion_time form_row) start_time duration;
      if student_found : bool then mret df
      else _ ← print (WarnStudentNotFound student_id); mret df
  end.

(** Phase A: every form submission in order. *)
Fixpoint apply_responses (date_columns : gmap string date_cols)
    (start_time : string) (duration : Z)
    (forms : list FormRecord) (updated_df : DataFrame) : M DataFrame :=
  match forms with
  | [] => mret updated_df
  | form_row :: rest =>
      df ← apply_response date_columns start_time duration updated_df form_row;
      apply_responses date_columns start_time duration rest df
  end.

(** The inner loop of the second pass, for one date. *)
Fixpoint mark_absent_rows (rows : list nat) (date : string) (cols : date_cols)
    (updated_df : DataFrame) : M DataFrame :=
  match rows with
  | [] => mret updated_df
  | row_idx :: rest =>
      current_code ← lift (iloc_get updated_df row_idx (code_col cols));
      if eq_str current_code "--" then
        df1 ← lift (iloc_set updated_df row_idx (code_col cols) (VStr "N"));
        df2 ← lift (iloc_set df1 row_idx (minutes_col cols) (VInt 0));
        student ← lift (iloc_get df2 row_idx 0%nat);
        _ ← print (MarkedAbsent student date);
        mark_absent_rows rest date cols df2
      else mark_absent_rows rest date cols updated_df
  end.

(** Phase B: every date of the form data that the template has. *)
Fixpoint mark_absent (dates : list string) (date_columns : gmap string date_cols)
    (updated_df : DataFrame) : M DataFrame :=
  match dates with
  | [] => mret updated_df
  | date :: rest =>
      match date_columns !! date with
      | None => mark_absent rest date_columns updated_df
      | Some cols =>
          df ← mark_absent_rows (student_rows updated_df) date cols updated_df;
          mark_absent rest date_columns df
      end
  end.

(** [Series.unique()]: the distinct values in order of first appearance. *)
Fixpoint unique_from (seen : list string) (l : list string) : list string :=
  match l with
  | [] => []
  | x :: rest =>
      if decide (x ∈ seen) then unique_from seen rest
      else x :: unique_from (x :: seen) rest
  end.

Definition dates_in_forms (forms : list FormRecord) : list string :=
  unique_from [] (map date forms).

Definition update_attendance_data (forms_df : list FormRecord)
    (template_df : DataFrame) (date_columns : gmap string date_cols)
    (start_time : string) (duration : Z) : M DataFrame :=
  updated_df ← apply_responses date_columns start_time duration forms_df template_df;
  mark_absent (dates_in_forms forms_df) date_columns updated_df.

(** ** The selective writer *)

Section Writer.

(** [str] of a float: the shortest decimal that reads back as the same
    double.  The writer only compares its results. *)
Variable float_repr : Q -> string.

(** The columns pandas stores with a numpy integer or boolean dtype (the
    ones it found to hold nothing but integers, or nothing but booleans).
    [df.iloc] returns numpy scalars from such a column; the cell grid does
    not record the dtype, so the writer receives it next to the frame. *)
Variable numpy_column : nat -> bool.

(** [str(v)] *)
Definition py_str (v : value) : string :=
  match v with
  | VNaN => "nan"
  | VStr s => s
  | VInt z => pretty z
  | VFloat q => float_repr q
  | VBool true => "True"
  | VBool false => "False"
  end.

(** [str(v) if v is not None and v != '' else ""] *)
Definition str_or_empty (v : value) : string :=
  if eq_str v "" then "" else py_str v.

(** [isinstance(v, (int, float))] for the cell of column [col_idx]:
    Python integers, booleans and floats (numpy's 64-bit float and the
    missing value are floats); a numpy integer or boolean is neither. *)
Definition is_number (col_idx : nat) (v : value) : bool :=
  match v with
  | VInt _ | VBool _ => negb (numpy_column col_idx)
  | VFloat _ | VNaN => true
  | VStr _ => false
  end.

(** What [ws.write] receives: numbers as they are, the rest as text. *)
Definition written_value (col_idx : nat) (v : value) : value :=
  if is_number col_idx v then v else VStr (py_str v).

(** The body of the double loop at one position: the cell to write, if
    any.  [rs] is the first sheet of the original file as [xlrd] reads
    it. *)
Definition cell_update (df rs : DataFrame) (row_idx col_idx : nat)
    : result (option value) :=
  rbind (iloc_get df row_idx col_idx) (fun updated_value =>
  if isna updated_value then Ok None
  else if (row_idx <? nrows rs)%nat && (col_idx <? ncols rs)%nat then
    rbind (iloc_get rs row_idx col_idx) (fun original_value =>
    let orig_str := str_or_empty original_value in
    let updated_str := str_or_empty updated_value in
    if negb (String.eqb orig_str updated_str)
    then Ok (Some (written_value col_idx updated_value))
    else Ok None)
  else Ok (Some (written_value col_idx updated_value))).

(** The positions in the order the loops visit them. *)
Definition positions (df : DataFrame) : list (nat * nat) :=
  r ← seq 0 (nrows df); c ← seq 0 (ncols df); [(r, c)].

(** The writes the loops perform, in order. *)
Fixpoint collect_writes (df rs : DataFrame) (ps : list (nat * nat))
    : result (list (nat * nat * value)) :=
  match ps with
  | [] => Ok []
  | (r, c) :: rest =>
      rbind (cell_update df rs r c) (fun w =>
      rbind (collect_writes df rs rest) (fun ws =>
      Ok match w with
         | Some v => (r, c, v) :: ws
         | None => ws
         end))
  end.

(** The cells of a sheet by position. *)
Definition sheet_cells (rs : DataFrame) : gmap (nat * nat) value :=
  list_to_map
    (p ← positions rs;
     match iloc_get rs p.1 p.2 with
     | Ok v => [(p, v)]
     | Raise _ => []
     end).

(** [ws.write(r, c, v)] for each write in turn. *)
Definition apply_writes (ws : list (nat * nat * value))
    (cells : gmap (nat * nat) value) : gmap (nat * nat) value :=
  foldl (fun m '(r, c, v) => <[(r, c) := v]> m) cells ws.

(** [save_updated_template] between opening the original and saving
    the copy: the cells of the saved sheet. *)
Definition save_updated_template (df rs : DataFrame)
    : result (gmap (nat * nat) value) :=
  rbind (collect_writes df rs (positions df)) (fun ws =>
  Ok (apply_writes ws (sheet_cells rs))).

(** The decision the loops take at a position holding [u] in the updated
    frame: the value is present, and the original cell reads differently
    or the position lies outside the original sheet. *)
Definition must_write (rs : DataFrame) (r c : nat) (u : value) : Prop :=
  isna u = false /\
  ((exists o, iloc_get rs r c = Ok o /\ py_str o <> py_str u)
   \/ ~ ((r < nrows rs)%nat /\ (c < ncols rs)%nat)).

End Writer.

(** ** The identifier normalizer as the specification words it

    Drop everything from the at sign on (the caller passes the part before
    it), strip one leading S or s, and accept the remainder when it is a
    non-empty string of decimal digits. *)

Definition spec_strip_S (s : string) : string :=
  match s with
  | String c r => if (code c =? 83) || (code c =? 115) then r else s
  | EmptyString => EmptyString
  end.

Definition spec_all_digit (s : string) : bool :=
  match s with
  | EmptyString => false
  | _ => string_forall is_ascii_digit s
  end.

Definition spec_normalize (prefix : string) : option string :=
  let remainder := spec_strip_S prefix in
  if spec_all_digit remainder then Some remainder else None.

Definition is_ascii (c : ascii) : bool := code c <? 128.

Fixpoint last_char (s : string) : option ascii :=
  match s with
  | EmptyString => None
  | String c EmptyString => Some c
  | String _ r => last_char r
  end.

(** No whitespace at either end. *)
Definition trimmed (s : string) : Prop :=
  match s with
  | EmptyString => True
  | String c _ =>
      py_isspace c = false /\
      exists l, last_char s = Some l /\ py_isspace l = false
  end.

(** ** Vocabulary for the reconciler's properties *)

(** What a computation guarantees about the value it returns, when it
    returns one. *)
Definition post {A} (m : M A) (Q : A -> Prop) : Prop :=
  forall l a, m = (l, Ok a) -> Q a.

(** The values the two passes write: a code or a number of minutes. *)
Definition written_kind (v : value) : Prop :=
  v = VStr "Y" \/ v = VStr "N" \/ exists z, v = VInt z.

(** The cell holds something other than the sentinel. *)
Definition evaluated (df : DataFrame) (r c : nat) : Prop :=
  exists v, iloc_get df r c = Ok v /\ eq_str v "--" = false.

(** [df'] has the shape of [df], and each of its cells is the cell of [df]
    or a written value. *)
Definition evolves (df df' : DataFrame) : Prop :=
  ncols df' = ncols df /\
  map length (data df') = map length (data df) /\
  forall r c v, iloc_get df' r c = Ok v ->
                iloc_get df r c = Ok v \/ written_kind v.

(** The column pairs of the map do not overlap: a code column is never a
    minutes column, and two different pairs share no column. *)
Definition disjoint_layout (date_columns : gmap string date_cols) : Prop :=
  forall d1 d2 c1 c2,
    date_columns !! d1 = Some c1 -> date_columns !! d2 = Some c2 ->
    code_col c1 <> minutes_col c2 /\
    (c1 = c2 \/ (code_col c1 <> code_col c2 /\ minutes_col c1 <> minutes_col c2)).

(** The state of one attendance cell pair of [df], against the template
    [df0]: untouched, present with some minutes, or absent with none. *)
Definition cell_state (df0 df : DataFrame) (r : nat) (cols : date_cols) : Prop :=
  (iloc_get df r (code_col cols) = iloc_get df0 r (code_col cols)
   /\ iloc_get df r (minutes_col cols) = iloc_get df0 r (minutes_col cols))
  \/ (iloc_get df r (code_col cols) = Ok (VStr "Y")
      /\ exists z, iloc_get df r (minutes_col cols) = Ok (VInt z))
  \/ (iloc_get df r (code_col cols) = Ok (VStr "N")
      /\ iloc_get df r (minutes_col cols) = Ok (VInt 0)).

Definition pairs_ok (date_columns : gmap string date_cols)
    (df0 df : DataFrame) : Prop :=
  forall d cols r, date_columns !! d = Some cols -> cell_state df0 df r cols.

(** Every date of [dates] that the template has is fully evaluated in
    [df]: no student row holds the sentinel in its code column. *)
Definition dates_evaluated (dates : list string)
    (date_columns : gmap string date_cols) (df : DataFrame) : Prop :=
  forall d cols r,
    d ∈ dates -> date_columns !! d = Some cols -> r ∈ student_rows df ->
    evaluated df r (code_col cols).

(** ** A small roster and form export, used in the examples *)

Definition sample_template : DataFrame :=
  mk_df 7
    [ [VStr "Attendance"; VNaN; VNaN; VNaN; VNaN; VNaN; VNaN];
      [VNaN; VNaN; VNaN; VNaN; VNaN; VNaN; VNaN];
      [VNaN; VNaN; VNaN; VNaN; VNaN; VNaN; VNaN];
      [VNaN; VNaN; VNaN; VNaN; VNaN; VStr "26/11"; VNaN];
      [VStr "ID"; VStr "Name"; VNaN; VNaN; VNaN; VStr "Code"; VStr "Minutes"];
      [VInt 4186054; VStr "An"; VNaN; VNaN; VNaN; VStr "--"; VStr "--"];
      [VInt 3992383; VStr "Binh"; VNaN; VNaN; VNaN; VStr "--"; VStr "--"];
      [VInt 123; VStr "Chi"; VNaN; VNaN; VNaN; VNaN; VNaN] ].

Definition sample_form_rows : list FormRow :=
  [ mk_form_row (VStr "S4186054@rmit.edu.vn")
      (mk_datetime 2024 11 26 13 14 0 0) (mk_datetime 2024 11 26 13 15 0 0);
    mk_form_row (VStr "abc@x.com")
      (mk_datetime 2024 11 26 13 14 0 0) (mk_datetime 2024 11 26 13 16 0 0);
    mk_form_row (VStr "s5550000@rmit.edu.vn")
      (mk_datetime 2024 11 26 13 1 0 0) (mk_datetime 2024 11 26 13 2 0 0);
    mk_form_row (VStr "4019025@rmit.edu.vn")
      (mk_datetime 2024 12 3 13 1 0 0) (mk_datetime 2024 12 3 13 2 0 0) ].

Definition sample_forms : list FormRecord := (read_forms_data sample_form_rows).2.

Definition sample_date_columns : gmap string date_cols :=
  {[ "26/11" := mk_date_cols 5 6 ]}.

(** [k] zeros. *)
Fixpoint zeros (k : nat) : string :=
  match k with
  | O => EmptyString
  | S k' => String "0" (zeros k')
  end.

(** The computation returns, and what it returns satisfies [Q]. *)
Definition total {A} (m : M A) (Q : A -> Prop) : Prop :=
  exists l a, m = (l, Ok a) /\ Q a.

(** The identifier cell of every student row is empty or converts to an
    integer. *)
Definition ids_convertible (df : DataFrame) : Prop :=
  forall r, r ∈ student_rows df ->
    exists v, iloc_get df r 0%nat = Ok v /\ (v = VNaN \/ exists z, py_int v = Ok z).

(** The column pairs lie inside the frame and to the right of the
    identifier column. *)
Definition cols_in_range (date_columns : gmap string date_cols) (df : DataFrame) : Prop :=
  forall d cols, date_columns !! d = Some cols ->
    (0 < code_col cols < ncols df)%nat /\ (0 < minutes_col cols < ncols df)%nat.

(** A form id made of ASCII decimal digits, small enough to be a float
    exactly. *)
Definition plain_id (s : string) : Prop :=
  string_forall is_ascii_digit s = true /\ s <> EmptyString
  /\ digits_value 0 s < 2 ^ 53.

(** [df] is the template after some writes to the right of the identifier
    column. *)
Definition in_progress (template df : DataFrame) : Prop :=
  evolves template df /\
  forall r, iloc_get df r 0%nat = iloc_get template r 0%nat.

(** ** The run

    [main] between finding the two files and reporting success: read the
    form export, read the template, reconcile, save.  [rs] is the template
    file as [xlrd] opens it for the copy. *)
Definition run (float_repr : Q -> string) (numpy_column : nat -> bool)
    (form_rows : list FormRow)
    (template rs : DataFrame) (start_time : string) (duration : Z)
    : M (gmap (nat * nat) value) :=
  forms_df ← ((read_forms_data form_rows).1, Ok (read_forms_data form_rows).2);
  '(template_df, date_columns) ← read_template_file template;
  updated_df ← update_attendance_data forms_df template_df date_columns
                 start_time duration;
  lift (save_updated_template float_repr numpy_column updated_df rs).

(** The first and the last cell of the header row hold no date label, so
    every column pair lies inside the frame, right of the identifiers. *)
Definition header_inside (df : DataFrame) : Prop :=
  forall date_row v,
    data df !! 3%nat = Some date_row ->
    date_row !! 0%nat = Some v \/ last date_row = Some v ->
    date_label v = None.

(** A roster cut off above its header rows. *)
Definition short_template : DataFrame :=
  mk_df 7
    [ [VStr "Attendance"; VNaN; VNaN; VNaN; VNaN; VNaN; VNaN];
      [VNaN; VNaN; VNaN; VNaN; VNaN; VNaN; VNaN];
      [VNaN; VNaN; VNaN; VNaN; VNaN; VNaN; VNaN] ].

(** [str] of a float that is a whole number below 10^16 in magnitude: its
    digits, a point and a zero.  The examples hold no other floats. *)
Definition whole_float_repr (q : Q) : string :=
  pretty (Qnum q / Zpos (Qden q)) +:+ ".0".

(** The sheet of the sample roster's file as [xlrd] returns it: a number is
    a float whatever its value, an empty cell is the empty string. *)
Definition sample_sheet : DataFrame :=
  mk_df 7
    [ [VStr "Attendance"; VStr ""; VStr ""; VStr ""; VStr ""; VStr ""; VStr ""];
      [VStr ""; VStr ""; VStr ""; VStr ""; VStr ""; VStr ""; VStr ""];
      [VStr ""; VStr ""; VStr ""; VStr ""; VStr ""; VStr ""; VStr ""];
      [VStr ""; VStr ""; VStr ""; VStr ""; VStr ""; VStr "26/11"; VStr ""];
      [VStr "ID"; VStr "Name"; VStr ""; VStr ""; VStr ""; VStr "Code"; VStr "Minutes"];
      [VFloat (4186054 # 1); VStr "An"; VStr ""; VStr ""; VStr ""; VStr "--"; VStr "--"];
      [VFloat (3992383 # 1); VStr "Binh"; VStr ""; VStr ""; VStr ""; VStr "--"; VStr "--"];
      [VFloat (123 # 1); VStr "Chi"; VStr ""; VStr ""; VStr ""; VStr ""; VStr ""] ].

(** No column of the sample roster is stored with a numpy dtype: each
    holds text next to its numbers, or nothing at all. *)
Definition object_columns (c : nat) : bool := false.

(** The sheet of a cut-off roster as [xlrd] returns it. *)
Definition short_sheet : DataFrame :=
  mk_df 7
    [ [VStr "Attendance"; VStr ""; VStr ""; VStr ""; VStr ""; VStr ""; VStr ""];
      [VStr ""; VStr ""; VStr ""; VStr ""; VStr ""; VStr ""; VStr ""];
      [VStr ""; VStr ""; VStr ""; VStr ""; VStr ""; VStr ""; VStr ""] ].

(** The last column of [date_row] holding [label] as a date label. *)
Definition last_label_at (date_row : list value) (label : string) (i : nat) : Prop :=
  date_row !! i = Some (VStr label) /\
  contains_char "/" label = true /\
  forall j, (i < j)%nat -> date_row !! j <> Some (VStr label).

Definition no_label (date_row : list value) (label : string) : Prop :=
  contains_char "/" label = true ->
  forall j, date_row !! j <> Some (VStr label).

(** ** The command line

    [parse_arguments] after [argparse] has found the two option values:
    the duration goes through [int], then the start time is checked
    against the pattern and the duration against zero.  Each failure ends
    the process with a usage message. *)

Inductive usage_error : Type :=
| InvalidIntValue
| InvalidStartTime
| NonPositiveDuration.

Definition parse_arguments (start_time duration : string)
    : usage_error + (string * Z) :=
  match py_int_of_str duration with
  | Raise _ => inl InvalidIntValue
  | Ok d =>
      if negb (valid_start_time start_time) then inl InvalidStartTime
      else if d <=? 0 then inl NonPositiveDuration
      else inr (start_time, d)
  end.

(** The time of day of a datetime, in microseconds since midnight. *)
Definition time_of_day (t : datetime) : Z :=
  ((hour t * 60 + minute t) * 60 + second t) * 1000000 + microsecond t.

(** ** Finding the input files and naming the output *)

(** [s.endswith(suffix)] *)
Fixpoint py_endswith (s suffix : string) : bool :=
  String.eqb s suffix
  || match s with
     | String _ r => py_endswith r suffix
     | EmptyString => false
     end.

(** What the file search prints. *)
Inductive discovery_msg : Type :=
| NoFileFound (extension : string)
| MultipleFilesFound (extension used : string).

(** [find_forms_file] on the listing of the current directory. *)
Definition find_forms_file (listing : list string)
    : list discovery_msg * option string :=
  let xlsx_files := List.filter (fun f => py_endswith f ".xlsx") listing in
  match xlsx_files with
  | [] => ([NoFileFound ".xlsx"], None)
  | [f] => ([], Some f)
  | f :: _ => ([MultipleFilesFound ".xlsx" f], Some f)
  end.

(** [find_template_file] on the listing of the current directory. *)
Definition find_template_file (listing : list string)
    : list discovery_msg * option string :=
  let xls_files :=
    List.filter (fun f => py_endswith f ".xls" && negb (py_endswith f ".xlsx"))
      listing in
  match xls_files with
  | [] => ([NoFileFound ".xls"], None)
  | [f] => ([], Some f)
  | f :: _ => ([MultipleFilesFound ".xls" f], Some f)
  end.

(** [s.rfind(c)], scanning from position [i] with [best] found so far. *)
Fixpoint rfind_from (c : ascii) (s : string) (i best : Z) : Z :=
  match s with
  | EmptyString => best
  | String x r => rfind_from c r (i + 1) (if Ascii.eqb x c then i else best)
  end.

Definition rfind (c : ascii) (s : string) : Z := rfind_from c s 0 (-1).

(** [s[:n]] and [s[n:]] *)
Fixpoint string_take (n : nat) (s : string) : string :=
  match n, s with
  | S n', String c r => String c (string_take n' r)
  | _, _ => EmptyString
  end.

Fixpoint string_drop (n : nat) (s : string) : string :=
  match n, s with
  | S n', String _ r => string_drop n' r
  | _, _ => s
  end.

(** The loop of [splitext] that skips leading dots: is there a character
    other than a dot among the first [n] characters of [s]? *)
Fixpoint has_non_dot (n : nat) (s : string) : bool :=
  match n, s with
  | S n', String c r => negb (Ascii.eqb c ".") || has_non_dot n' r
  | _, _ => false
  end.

(** [os.path.splitext] with the separator [/]. *)
Definition splitext (p : string) : string * string :=
  let sepIndex := rfind "/" p in
  let dotIndex := rfind "." p in
  if (sepIndex <? dotIndex)
     && has_non_dot (Z.to_nat (dotIndex - (sepIndex + 1)))
          (string_drop (Z.to_nat (sepIndex + 1)) p)
  then (string_take (Z.to_nat dotIndex) p, string_drop (Z.to_nat dotIndex) p)
  else (p, EmptyString).

(** The name [save_updated_template] saves under. *)
Definition output_filename (original_filename : string) : string :=
  (splitext original_filename).1 +:+ "_updated.xls".

(** The record [read_forms_data] keeps for a row of the export, if any. *)
Definition form_record_of (row : FormRow) : option FormRecord :=
  match (extract_student_id (Email row)).2 with
  | Some sid =>
      Some (mk_form_record sid (convert_date_format (Start_time row))
              (Completion_time row))
  | None => None
  end.

(** The days and months of the calendar, and their labels. *)
Definition calendar_days : list (Z * Z) :=
  d ← seqZ 1 31; m ← seqZ 1 12; [(d, m)].

Definition day_month_label (dm : Z * Z) : string :=
  pretty dm.1 +:+ "/" +:+ pretty dm.2.

(** ** Vocabulary for the further properties of the reconciler *)

(** [c] is the code or the minutes column of some date of the map. *)
Definition pair_column (date_columns : gmap string date_cols) (c : nat) : Prop :=
  exists d cols,
    date_columns !! d = Some cols /\ (c = code_col cols \/ c = minutes_col cols).

(** Each cell of [df] is the cell of [df0], unless it lies in a student row
    and in a column of the map. *)
Definition only_attendance_cells (date_columns : gmap string date_cols)
    (df0 df : DataFrame) : Prop :=
  forall r c,
    iloc_get df r c = iloc_get df0 r c
    \/ ((5 <= r)%nat /\ pair_column date_columns c).

(** The identifier of row [r] of [df] reads as [sid]. *)
Definition row_matches (df : DataFrame) (sid : string) (r : nat) : Prop :=
  exists v, iloc_get df r 0%nat = Ok v /\ template_student_id v = Ok (Some sid).

(** The cell holds the sentinel. *)
Definition holds_sentinel (df : DataFrame) (r c : nat) : bool :=
  match iloc_get df r c with
  | Ok v => eq_str v "--"
  | Raise _ => false
  end.

(** What Phase B makes of one cell when it goes through [rows] for the
    column pair [cols]: a scanned row that holds the sentinel in the code
    column gets minutes 0 and code ['N']; everything else stays. *)
Definition absent_cell (df : DataFrame) (cols : date_cols) (rows : list nat)
    (r c : nat) : result value :=
  if bool_decide (r ∈ rows) && holds_sentinel df r (code_col cols) then
    if decide (c = minutes_col cols) then Ok (VInt 0)
    else if decide (c = code_col cols) then Ok (VStr "N")
    else iloc_get df r c
  else iloc_get df r c.

(** A roster that lists one student twice. *)
Definition duplicate_template : DataFrame :=
  mk_df 7
    [ [VStr "Attendance"; VNaN; VNaN; VNaN; VNaN; VNaN; VNaN];
      [VNaN; VNaN; VNaN; VNaN; VNaN; VNaN; VNaN];
      [VNaN; VNaN; VNaN; VNaN; VNaN; VNaN; VNaN];
      [VNaN; VNaN; VNaN; VNaN; VNaN; VStr "26/11"; VNaN];
      [VStr "ID"; VStr "Name"; VNaN; VNaN; VNaN; VStr "Code"; VStr "Minutes"];
      [VInt 3992383; VStr "Binh"; VNaN; VNaN; VNaN; VStr "--"; VStr "--"];
      [VInt 4186054; VStr "An"; VNaN; VNaN; VNaN; VStr "--"; VStr "--"];
      [VInt 4186054; VStr "An"; VNaN; VNaN; VNaN; VStr "--"; VStr "--"] ].

(** A roster whose last header cell is a date label. *)
Definition narrow_template : DataFrame :=
  mk_df 3
    [ [VStr "Attendance"; VNaN; VNaN];
      [VNaN; VNaN; VNaN];
      [VNaN; VNaN; VNaN];
      [VNaN; VNaN; VStr "26/11"];
      [VStr "ID"; VStr "Name"; VStr "Code"];
      [VInt 4186054; VStr "An"; VStr "--"] ].

(** * Properties *)

(** ** Characters *)


Lemma code_inj (c1 c2 : ascii) : code c1 = code c2 -> c1 = c2.
Proof.
  unfold code. intros H. apply N2Z.inj in H.
  rewrite <- (ascii_N_embedding c1), <- (ascii_N_embedding c2). congruence.
Qed.

Lemma ascii_eqb_code (c1 c2 : ascii) : Ascii.eqb c1 c2 = (code c1 =? code c2).
Proof.
  destruct (Ascii.eqb_spec c1 c2) as [->|Hne].
  - symmetry. apply Z.eqb_refl.
  - symmetry. apply Z.eqb_neq. intros H. apply Hne, code_inj, H.
Qed.

Lemma digit_of_Some (c : ascii) (d : Z) :
  digit_of c = Some d <-> (48 <= code c <= 57 /\ d = code c - 48).
Proof.
  unfold digit_of.
  destruct (Z.leb_spec 48 (code c)) as [Hlo|Hlo],
           (Z.leb_spec (code c) 57) as [Hhi|Hhi]; simpl;
    (split; [intros Hd; try discriminate; injection Hd as <-; lia
            | intros [Hr ->]; try reflexivity; lia]).
Qed.

Lemma is_ascii_digit_spec (c : ascii) :
  is_ascii_digit c = true <-> 48 <= code c <= 57.
Proof. unfold is_ascii_digit. rewrite andb_true_iff, !Z.leb_le. tauto. Qed.

Lemma is_ascii_digit_not_space (c : ascii) :
  is_ascii_digit c = true -> py_isspace c = false.
Proof.
  rewrite is_ascii_digit_spec. intros H. unfold py_isspace.
  repeat match goal with
         | |- context [?a <=? ?b] => destruct (Z.leb_spec a b); try lia
         | |- context [?a =? ?b] => destruct (Z.eqb_spec a b); try lia
         end; reflexivity.
Qed.


(** ** Strings *)

Lemma py_split_no_sep (sep : ascii) (s : string) :
  contains_char sep s = false -> py_split sep s = [s].
Proof.
  induction s as [|c r IH]; simpl; [reflexivity|].
  intros H. apply orb_false_iff in H as [Hc Hr].
  rewrite Hc, (IH Hr). reflexivity.
Qed.

Lemma py_split_app (sep : ascii) (s1 s2 : string) :
  contains_char sep s1 = false ->
  py_split sep (s1 +:+ String sep s2) = s1 :: py_split sep s2.
Proof.
  induction s1 as [|c r IH]; simpl; intros H.
  - rewrite Ascii.eqb_refl. reflexivity.
  - apply orb_false_iff in H as [Hc Hr].
    change (String c r +:+ String sep s2) with (String c (r +:+ String sep s2)).
    simpl. rewrite Hc, (IH Hr). reflexivity.
Qed.

Lemma int_digits_all_digits (s : string) (acc : Z) (b : bool) :
  string_forall is_ascii_digit s = true ->
  s <> EmptyString \/ b = true ->
  int_digits acc b s = Some (digits_value acc s).
Proof.
  revert acc b. induction s as [|c r IH]; simpl; intros acc b Hd Hne.
  - destruct Hne as [Hne| ->]; [congruence | reflexivity].
  - apply andb_true_iff in Hd as [Hc Hr].
    assert (Hdc : digit_of c = Some (code c - 48)).
    { apply digit_of_Some. apply is_ascii_digit_spec in Hc. split; [exact Hc | reflexivity]. }
    rewrite Hdc. apply IH; [exact Hr | right; reflexivity].
Qed.

Lemma lstrip_nonspace (c : ascii) (s : string) :
  py_isspace c = false -> lstrip (String c s) = String c s.
Proof. intros H. simpl. rewrite H. reflexivity. Qed.

Lemma rstrip_digits (s : string) :
  string_forall is_ascii_digit s = true -> rstrip s = s.
Proof.
  induction s as [|c r IH]; simpl; [reflexivity|].
  intros H. apply andb_true_iff in H as [Hc Hr].
  rewrite (IH Hr). destruct r; [|reflexivity].
  rewrite (is_ascii_digit_not_space _ Hc). reflexivity.
Qed.

Lemma rstrip_digits_newline (s : string) :
  string_forall is_ascii_digit s = true ->
  rstrip (s +:+ String "010" EmptyString) = s.
Proof.
  induction s as [|c r IH]; [reflexivity|].
  intros H. simpl in H. apply andb_true_iff in H as [Hc Hr].
  change (String c r +:+ String "010" EmptyString)
    with (String c (r +:+ String "010" EmptyString)).
  simpl. rewrite (IH Hr). destruct r; [|reflexivity].
  rewrite (is_ascii_digit_not_space _ Hc). reflexivity.
Qed.

Lemma py_strip_digits (s : string) :
  string_forall is_ascii_digit s = true -> py_strip s = s.
Proof.
  intros H. unfold py_strip. destruct s as [|c r]; [reflexivity|].
  pose proof H as H'. simpl in H'. apply andb_true_iff in H' as [Hc _].
  rewrite (lstrip_nonspace _ _ (is_ascii_digit_not_space _ Hc)).
  apply rstrip_digits, H.
Qed.

Lemma py_strip_digits_newline (s : string) :
  string_forall is_ascii_digit s = true -> s <> EmptyString ->
  py_strip (s +:+ String "010" EmptyString) = s.
Proof.
  intros H Hne. unfold py_strip. destruct s as [|c r]; [congruence|].
  pose proof H as H'. simpl in H'. apply andb_true_iff in H' as [Hc _].
  change (String c r +:+ String "010" EmptyString)
    with (String c (r +:+ String "010" EmptyString)).
  rewrite (lstrip_nonspace _ _ (is_ascii_digit_not_space _ Hc)).
  apply (rstrip_digits_newline (String c r)), H.
Qed.

Lemma py_int_of_digits (s : string) :
  string_forall is_ascii_digit s = true -> s <> EmptyString ->
  py_int_of_str s = Ok (digits_value 0 s).
Proof.
  intros H Hne. unfold py_int_of_str. rewrite (py_strip_digits _ H).
  destruct s as [|c r]; [congruence|].
  pose proof H as H'. simpl in H'. apply andb_true_iff in H' as [Hc _].
  apply is_ascii_digit_spec in Hc.
  destruct (Z.eqb_spec (code c) 45); [lia|].
  destruct (Z.eqb_spec (code c) 43); [lia|].
  rewrite (int_digits_all_digits _ 0 false H); [reflexivity | left; congruence].
Qed.

Lemma py_int_of_digits_newline (s : string) :
  string_forall is_ascii_digit s = true -> s <> EmptyString ->
  py_int_of_str (s +:+ String "010" EmptyString) = Ok (digits_value 0 s).
Proof.
  intros H Hne. rewrite <- (py_int_of_digits s H Hne).
  unfold py_int_of_str. rewrite (py_strip_digits_newline _ H Hne), (py_strip_digits _ H).
  reflexivity.
Qed.

(** ** Start-time strings *)

Lemma strip_final_newline_length (l : list ascii) :
  (length l <= S (length (strip_final_newline l)))%nat.
Proof.
  unfold strip_final_newline.
  destruct (reverse l) as [|c r] eqn:E; [lia|].
  destruct (code c =? 10); [|lia].
  rewrite length_reverse.
  rewrite <- (length_reverse l), E. simpl. lia.
Qed.

Lemma valid_start_time_length (s : string) :
  valid_start_time s = true -> (String.length s <= 6)%nat.
Proof.
  unfold valid_start_time. intros H.
  pose proof (strip_final_newline_length (list_ascii_of_string s)) as Hl.
  assert (Hlen : length (list_ascii_of_string s) = String.length s).
  { clear. induction s; simpl; congruence. }
  rewrite Hlen in Hl.
  destruct (strip_final_newline (list_ascii_of_string s))
    as [|? [|? [|? [|? [|? [|? ?]]]]]]; try discriminate; simpl in Hl; lia.
Qed.

Ltac range_facts :=
  repeat match goal with
         | H : _ && _ = true |- _ => apply andb_true_iff in H; destruct H
         | H : _ || _ = true |- _ => apply orb_true_iff in H; destruct H
         | H : in_range _ _ _ = true |- _ =>
             unfold in_range in H
         | H : (_ <=? _) = true |- _ => apply Z.leb_le in H
         | H : (_ =? _) = true |- _ => apply Z.eqb_eq in H
         end.

Lemma is_ascii_digit_intro (c : ascii) :
  48 <= code c <= 57 -> is_ascii_digit c = true.
Proof. apply is_ascii_digit_spec. Qed.

Ltac shape_side :=
  simpl; rewrite ?is_ascii_digit_intro by lia;
  first [reflexivity | congruence | lia | (left; reflexivity) | (right; reflexivity)].

Lemma valid_start_time_shape (s : string) :
  valid_start_time s = true -> exists h m, start_time_shape s h m.
Proof.
  intros H. pose proof (valid_start_time_length s H) as Hlen.
  destruct s as [|c1 [|c2 [|c3 [|c4 [|c5 [|c6 [|c7 r]]]]]]];
    try (simpl in Hlen; lia); try discriminate H;
    unfold valid_start_time in H; cbn in H.
  all: repeat match type of H with
         | context [if ?a =? ?b then _ else _] =>
             destruct (Z.eqb_spec a b)
         end; try discriminate H.
  all: range_facts.
  all: try match goal with
        | Hc : code ?c = 58 |- _ =>
            assert (c = ":"%char) by (apply code_inj; rewrite Hc; reflexivity);
            subst c
        end.
  all: try match goal with
        | Hc : code ?c = 10 |- _ =>
            assert (c = "010"%char) by (apply code_inj; rewrite Hc; reflexivity);
            subst c
        end.
  all: eexists _, _.
  - apply (shape_intro (String c1 EmptyString)
             (String c3 (String c4 EmptyString)) EmptyString); shape_side.
  - apply (shape_intro (String c1 EmptyString)
             (String c3 (String c4 EmptyString)) (String "010" EmptyString));
      shape_side.
  - apply (shape_intro (String c1 (String c2 EmptyString))
             (String c4 (String c5 EmptyString)) EmptyString); shape_side.
  - apply (shape_intro (String c1 (String c2 EmptyString))
             (String c4 (String c5 EmptyString)) EmptyString); shape_side.
  - apply (shape_intro (String c1 (String c2 EmptyString))
             (String c4 (String c5 EmptyString)) (String "010" EmptyString));
      shape_side.
  - apply (shape_intro (String c1 (String c2 EmptyString))
             (String c4 (String c5 EmptyString)) (String "010" EmptyString));
      shape_side.
Qed.

Lemma digits_no_char (sep : ascii) (s : string) :
  ~ (48 <= code sep <= 57) ->
  string_forall is_ascii_digit s = true -> contains_char sep s = false.
Proof.
  intros Hsep. induction s as [|c r IH]; simpl; [reflexivity|].
  intros H. apply andb_true_iff in H as [Hc Hr].
  rewrite (IH Hr), ascii_eqb_code. apply is_ascii_digit_spec in Hc.
  destruct (Z.eqb_spec (code c) (code sep)); [lia | reflexivity].
Qed.

Lemma contains_char_app (sep : ascii) (s1 s2 : string) :
  contains_char sep (s1 +:+ s2) = contains_char sep s1 || contains_char sep s2.
Proof.
  induction s1 as [|c r IH]; [reflexivity|].
  change (String c r +:+ s2) with (String c (r +:+ s2)).
  simpl. rewrite IH, orb_assoc. reflexivity.
Qed.

Lemma string_app_empty_r (s : string) : s +:+ EmptyString = s.
Proof.
  induction s as [|c r IH]; [reflexivity|].
  change (String c r +:+ EmptyString) with (String c (r +:+ EmptyString)).
  rewrite IH. reflexivity.
Qed.

Lemma parse_start_time_shape (s : string) (h m : Z) :
  start_time_shape s h m -> parse_start_time s = Ok (h, m).
Proof.
  intros [hh mm nl Hh Hhne Hm Hmne Hnl _ _].
  unfold parse_start_time.
  assert (Hcolon : ~ (48 <= code ":" <= 57)) by (vm_compute; intros [_ Hc]; apply Hc; reflexivity).
  rewrite py_split_app by (apply digits_no_char; assumption).
  rewrite py_split_no_sep.
  2:{ rewrite contains_char_app, (digits_no_char _ _ Hcolon Hm).
      destruct Hnl as [-> | ->]; reflexivity. }
  rewrite (py_int_of_digits _ Hh Hhne). simpl.
  destruct Hnl as [-> | ->].
  - rewrite string_app_empty_r, (py_int_of_digits _ Hm Hmne). reflexivity.
  - rewrite (py_int_of_digits_newline _ Hm Hmne). reflexivity.
Qed.

(** The hour and minute of a start-time string given in full. *)
Ltac shape_values Hs :=
  let Hp := fresh "Hp" in
  let Hh := fresh "Hh" in
  let Hm := fresh "Hm" in
  pose proof (parse_start_time_shape _ _ _ Hs) as Hp;
  vm_compute in Hp; injection Hp as Hh Hm; subst.

Ltac range_by_compute :=
  unfold class_end_in_range; repeat split; apply Z.leb_le; vm_compute; reflexivity.

Ltac out_of_range_by_compute :=
  let H := fresh in
  unfold class_end_in_range; intros H;
  repeat match type of H with _ /\ _ => destruct H as [? H] end;
  repeat match goal with
         | Hle : _ <= _ |- _ => apply Z.leb_le in Hle; vm_compute in Hle
         end;
  discriminate.

Lemma class_end_in_range_dec (t : datetime) (h m d : Z) :
  {class_end_in_range t h m d} + {~ class_end_in_range t h m d}.
Proof.
  unfold class_end_in_range.
  destruct (Z_le_dec (-999999999) (d * micros_per_minute / micros_per_day));
    [|right; lia].
  destruct (Z_le_dec (d * micros_per_minute / micros_per_day) 999999999);
    [|right; lia].
  destruct (Z_le_dec 1
              ((class_start_instant t h m + d * micros_per_minute) / micros_per_day));
    [|right; lia].
  destruct (Z_le_dec
              ((class_start_instant t h m + d * micros_per_minute) / micros_per_day)
              max_ordinal);
    [left; lia | right; lia].
Qed.

Lemma replace_time_shape (t : datetime) (s : string) (h m : Z) :
  start_time_shape s h m ->
  replace_time t h m = Ok (mk_datetime (year t) (month t) (day t) h m 0 0).
Proof.
  intros Hs. inversion Hs as [hh mm nl _ _ _ _ _ Hhr Hmr]; subst.
  unfold replace_time.
  destruct (Z.leb_spec 0 (digits_value 0 hh)); [|lia].
  destruct (Z.leb_spec (digits_value 0 hh) 23); [|lia].
  destruct (Z.leb_spec 0 (digits_value 0 mm)); [|lia].
  destruct (Z.leb_spec (digits_value 0 mm) 59); [|lia].
  reflexivity.
Qed.

Lemma class_end_Ok (t : datetime) (h m d : Z) :
  class_end_in_range t h m d ->
  rbind (timedelta_minutes d)
    (fun delta =>
       datetime_add (instant (mk_datetime (year t) (month t) (day t) h m 0 0)) delta)
  = Ok (class_start_instant t h m + d * micros_per_minute).
Proof.
  intros [[H1 H2] [H3 H4]]. unfold timedelta_minutes.
  destruct (Z.leb_spec (-999999999) (d * micros_per_minute / micros_per_day)); [|lia].
  destruct (Z.leb_spec (d * micros_per_minute / micros_per_day) 999999999); [|lia].
  cbn [andb rbind]. unfold datetime_add.
  fold (class_start_instant t h m).
  destruct (Z.leb_spec 1
              ((class_start_instant t h m + d * micros_per_minute) / micros_per_day));
    [|lia].
  destruct (Z.leb_spec
              ((class_start_instant t h m + d * micros_per_minute) / micros_per_day)
              max_ordinal); [|lia].
  reflexivity.
Qed.

Lemma class_end_Raise (t : datetime) (h m d : Z) :
  ~ class_end_in_range t h m d ->
  rbind (timedelta_minutes d)
    (fun delta =>
       datetime_add (instant (mk_datetime (year t) (month t) (day t) h m 0 0)) delta)
  = Raise OverflowError.
Proof.
  intros Hn. unfold timedelta_minutes.
  destruct (Z.leb_spec (-999999999) (d * micros_per_minute / micros_per_day));
    [|reflexivity].
  destruct (Z.leb_spec (d * micros_per_minute / micros_per_day) 999999999);
    [|reflexivity].
  cbn [andb rbind]. unfold datetime_add.
  fold (class_start_instant t h m).
  destruct (Z.leb_spec 1
              ((class_start_instant t h m + d * micros_per_minute) / micros_per_day));
    [|reflexivity].
  destruct (Z.leb_spec
              ((class_start_instant t h m + d * micros_per_minute) / micros_per_day)
              max_ordinal); [|reflexivity].
  exfalso. apply Hn. unfold class_end_in_range. lia.
Qed.

(** The calculator after the two parsing steps: the class end is computed
    first, the comparisons follow. *)
Lemma calculate_attendance_parsed (t : datetime) (s : string) (d h m : Z) :
  parse_start_time s = Ok (h, m) ->
  replace_time t h m = Ok (mk_datetime (year t) (month t) (day t) h m 0 0) ->
  calculate_attendance t s d =
    rbind (rbind (timedelta_minutes d)
             (fun delta =>
                datetime_add
                  (instant (mk_datetime (year t) (month t) (day t) h m 0 0)) delta))
      (fun class_end =>
         if instant t <=? class_start_instant t h m then Ok ("Y", d)
         else if class_end <=? instant t then Ok ("N", 0)
         else Ok ("Y", d - (instant t - class_start_instant t h m) / micros_per_minute)).
Proof.
  intros Hp Hr. unfold calculate_attendance.
  rewrite Hp. cbn [rbind]. rewrite Hr. cbn [rbind].
  unfold class_start_instant.
  destruct (timedelta_minutes d) as [delta|e]; reflexivity.
Qed.

Lemma calculate_attendance_steps (t : datetime) (s : string) (d h m : Z) :
  start_time_shape s h m ->
  calculate_attendance t s d =
    rbind (rbind (timedelta_minutes d)
             (fun delta =>
                datetime_add
                  (instant (mk_datetime (year t) (month t) (day t) h m 0 0)) delta))
      (fun class_end =>
         if instant t <=? class_start_instant t h m then Ok ("Y", d)
         else if class_end <=? instant t then Ok ("N", 0)
         else Ok ("Y", d - (instant t - class_start_instant t h m) / micros_per_minute)).
Proof.
  intros Hs. apply calculate_attendance_parsed.
  - apply parse_start_time_shape, Hs.
  - apply (replace_time_shape t _ _ _ Hs).
Qed.

Lemma calculate_attendance_unfold (t : datetime) (s : string) (d h m : Z) :
  start_time_shape s h m ->
  class_end_in_range t h m d ->
  calculate_attendance t s d =
    if instant t <=? class_start_instant t h m then Ok ("Y", d)
    else if class_start_instant t h m + d * micros_per_minute <=? instant t
         then Ok ("N", 0)
         else Ok ("Y", d - (instant t - class_start_instant t h m) / micros_per_minute).
Proof.
  intros Hs Hr. rewrite (calculate_attendance_steps t s d h m Hs).
  rewrite (class_end_Ok t h m d Hr). reflexivity.
Qed.

Lemma calculate_attendance_overflow (t : datetime) (s : string) (d h m : Z) :
  start_time_shape s h m ->
  ~ class_end_in_range t h m d ->
  calculate_attendance t s d = Raise OverflowError.
Proof.
  intros Hs Hr. rewrite (calculate_attendance_steps t s d h m Hs).
  rewrite (class_end_Raise t h m d Hr). reflexivity.
Qed.

Example calculate_attendance_doc1 :
  calculate_attendance (mk_datetime 2024 11 26 13 0 0 0) "13:00" 180
  = Ok ("Y", 180).
Proof. vm_compute. reflexivity. Qed.

Example calculate_attendance_doc2 :
  calculate_attendance (mk_datetime 2024 11 26 13 15 0 0) "13:00" 180
  = Ok ("Y", 165).
Proof. vm_compute. reflexivity. Qed.

Example calculate_attendance_doc3 :
  calculate_attendance (mk_datetime 2024 11 26 16 30 0 0) "13:00" 180
  = Ok ("N", 0).
Proof. vm_compute. reflexivity. Qed.

Example calculate_attendance_last_day :
  calculate_attendance (mk_datetime 9999 12 31 21 0 0 0) "20:00" 180
  = Ok ("Y", 120).
Proof. vm_compute. reflexivity. Qed.

(** C1, as stated, fails on the last evening of the year 9999: the form is
    completed at 21:00, before the class start at 22:00, and the class end
    three hours later is no datetime, so the calculator raises instead of
    returning [('Y', 180)]. *)
Lemma calculate_attendance_overflows_before_start :
  valid_start_time "22:00" = true /\ 0 < 180 /\
  start_time_shape "22:00" 22 0 /\
  instant (mk_datetime 9999 12 31 21 0 0 0)
    <= class_start_instant (mk_datetime 9999 12 31 21 0 0 0) 22 0 /\
  calculate_attendance (mk_datetime 9999 12 31 21 0 0 0) "22:00" 180
    = Raise OverflowError /\
  calculate_attendance (mk_datetime 9999 12 31 21 0 0 0) "22:00" 180
    <> Ok ("Y", 180).
Proof.
  split; [reflexivity|]. split; [lia|].
  split; [apply (shape_intro "22" "00" ""); vm_compute; intuition congruence|].
  split; [vm_compute; discriminate|].
  split; [vm_compute; reflexivity | vm_compute; discriminate].
Qed.

(** C1: when the class end is a datetime, a completion time at or before
    the class start gives [('Y', duration)] and one at or after the class
    end gives [('N', 0)]; when it is not, the calculator raises
    [OverflowError] before it compares.  The class start is the completion
    date with the hour and minute read from the start-time string and zero
    seconds. *)
Theorem calculate_attendance_outside_window
    (t : datetime) (s : string) (d : Z) :
  valid_start_time s = true -> 0 < d ->
  exists h m,
    start_time_shape s h m /\
    (class_end_in_range t h m d ->
       (instant t <= class_start_instant t h m ->
          calculate_attendance t s d = Ok ("Y", d)) /\
       (class_start_instant t h m + d * micros_per_minute <= instant t ->
          calculate_attendance t s d = Ok ("N", 0))) /\
    (~ class_end_in_range t h m d ->
       calculate_attendance t s d = Raise OverflowError).
Proof.
  intros Hv Hd. destruct (valid_start_time_shape s Hv) as (h & m & Hs).
  exists h, m. split; [exact Hs|]. split.
  - intros Hr. rewrite (calculate_attendance_unfold t s d h m Hs Hr).
    unfold micros_per_minute.
    split; intros Ht.
    + destruct (Z.leb_spec (instant t) (class_start_instant t h m)); [reflexivity | lia].
    + destruct (Z.leb_spec (instant t) (class_start_instant t h m)); [lia|].
      destruct (Z.leb_spec (class_start_instant t h m + d * (60 * 1000000)) (instant t));
        [reflexivity | lia].
  - apply (calculate_attendance_overflow t s d h m Hs).
Qed.

Lemma calculate_attendance_outside_window_witness :
  class_end_in_range (mk_datetime 2024 11 26 12 59 59 0) 13 0 180 /\
  calculate_attendance (mk_datetime 2024 11 26 12 59 59 0) "13:00" 180
    = Ok ("Y", 180) /\
  calculate_attendance (mk_datetime 2024 11 26 16 0 0 0) "13:00" 180
    = Ok ("N", 0) /\
  ~ class_end_in_range (mk_datetime 9999 12 31 21 0 0 0) 22 0 180 /\
  calculate_attendance (mk_datetime 9999 12 31 21 0 0 0) "22:00" 180
    = Raise OverflowError.
Proof.
  split; [range_by_compute|]. split; [|split; [|split]].
  - destruct (calculate_attendance_outside_window
                (mk_datetime 2024 11 26 12 59 59 0) "13:00" 180
                eq_refl ltac:(lia)) as (h & m & Hs & Hin & _).
    shape_values Hs. apply Hin; [range_by_compute | vm_compute; discriminate].
  - destruct (calculate_attendance_outside_window
                (mk_datetime 2024 11 26 16 0 0 0) "13:00" 180
                eq_refl ltac:(lia)) as (h & m & Hs & Hin & _).
    shape_values Hs. apply Hin; [range_by_compute | vm_compute; discriminate].
  - out_of_range_by_compute.
  - destruct (calculate_attendance_outside_window
                (mk_datetime 9999 12 31 21 0 0 0) "22:00" 180
                eq_refl ltac:(lia)) as (h & m & Hs & _ & Hout).
    shape_values Hs. apply Hout. out_of_range_by_compute.
Defined.

(** C2, as stated, fails for a duration that carries the class end past
    the year 9999: fifteen minutes after class start the completion time is
    strictly inside the window on the time line, and the calculator raises
    instead of returning ['Y'] with the duration minus 15. *)
Lemma calculate_attendance_overflows_inside_window :
  valid_start_time "13:00" = true /\ 0 < 10 ^ 10 /\
  start_time_shape "13:00" 13 0 /\
  class_start_instant (mk_datetime 2024 11 26 13 15 0 0) 13 0
    < instant (mk_datetime 2024 11 26 13 15 0 0)
    < class_start_instant (mk_datetime 2024 11 26 13 15 0 0) 13 0
      + 10 ^ 10 * micros_per_minute /\
  calculate_attendance (mk_datetime 2024 11 26 13 15 0 0) "13:00" (10 ^ 10)
    = Raise OverflowError /\
  calculate_attendance (mk_datetime 2024 11 26 13 15 0 0) "13:00" (10 ^ 10)
    <> Ok ("Y", 10 ^ 10 - 15).
Proof.
  split; [reflexivity|]. split; [lia|].
  split; [apply (shape_intro "13" "00" ""); vm_compute; intuition congruence|].
  split; [vm_compute; split; reflexivity|].
  split; [vm_compute; reflexivity | vm_compute; discriminate].
Qed.

(** C2: when the class end is a datetime, strictly inside the class window
    the code is ['Y'] and the minutes are the duration minus the whole
    minutes elapsed since class start, rounded down; when it is not, the
    calculator raises [OverflowError]. *)
Theorem calculate_attendance_inside_window
    (t : datetime) (s : string) (d : Z) :
  valid_start_time s = true -> 0 < d ->
  exists h m late,
    start_time_shape s h m /\
    late = (instant t - class_start_instant t h m) / micros_per_minute /\
    (class_end_in_range t h m d ->
     class_start_instant t h m < instant t
       < class_start_instant t h m + d * micros_per_minute ->
     calculate_attendance t s d = Ok ("Y", d - late) /\
     late * micros_per_minute <= instant t - class_start_instant t h m
       < (late + 1) * micros_per_minute) /\
    (~ class_end_in_range t h m d ->
     calculate_attendance t s d = Raise OverflowError).
Proof.
  intros Hv Hd. destruct (valid_start_time_shape s Hv) as (h & m & Hs).
  exists h, m, ((instant t - class_start_instant t h m) / micros_per_minute).
  split; [exact Hs|]. split; [reflexivity|]. split.
  - intros Hr [Hlo Hhi].
    rewrite (calculate_attendance_unfold t s d h m Hs Hr).
    destruct (Z.leb_spec (instant t) (class_start_instant t h m)); [lia|].
    destruct (Z.leb_spec (class_start_instant t h m + d * micros_per_minute) (instant t));
      [lia|].
    split; [reflexivity|].
    unfold micros_per_minute in *.
    pose proof (Z.div_mod (instant t - class_start_instant t h m) (60 * 1000000)).
    pose proof (Z.mod_pos_bound (instant t - class_start_instant t h m) (60 * 1000000)).
    lia.
  - apply (calculate_attendance_overflow t s d h m Hs).
Qed.

Lemma calculate_attendance_inside_window_witness :
  class_end_in_range (mk_datetime 2024 12 3 9 44 59 999999) 9 30 120 /\
  class_start_instant (mk_datetime 2024 12 3 9 44 59 999999) 9 30
    < instant (mk_datetime 2024 12 3 9 44 59 999999)
    < class_start_instant (mk_datetime 2024 12 3 9 44 59 999999) 9 30
      + 120 * micros_per_minute /\
  calculate_attendance (mk_datetime 2024 12 3 9 44 59 999999) "9:30" 120
    = Ok ("Y", 120 - 14).
Proof.
  split; [range_by_compute|]. split; [vm_compute; split; reflexivity|].
  destruct (calculate_attendance_inside_window
              (mk_datetime 2024 12 3 9 44 59 999999) "9:30" 120
              eq_refl ltac:(lia)) as (h & m & late & Hs & Hlate & Hin & _).
  shape_values Hs.
  destruct Hin as [Hcalc _];
    [range_by_compute | vm_compute; split; reflexivity |].
  rewrite Hcalc. vm_compute. reflexivity.
Defined.

Example calculate_attendance_truncates :
  calculate_attendance (mk_datetime 2024 12 3 9 44 59 999999) "9:30" 120
  = Ok ("Y", 106).
Proof. vm_compute. reflexivity. Qed.

(** C9, as stated, fails for a duration no timedelta can hold: the
    calculator raises and returns no minutes at all. *)
Lemma calculate_attendance_overflows_timedelta :
  valid_start_time "13:00" = true /\ 0 < 10 ^ 13 /\
  calculate_attendance (mk_datetime 2024 11 26 12 0 0 0) "13:00" (10 ^ 13)
    = Raise OverflowError /\
  forall c mins,
    calculate_attendance (mk_datetime 2024 11 26 12 0 0 0) "13:00" (10 ^ 13)
      <> Ok (c, mins).
Proof.
  split; [reflexivity|]. split; [lia|].
  assert (H : calculate_attendance (mk_datetime 2024 11 26 12 0 0 0) "13:00" (10 ^ 13)
              = Raise OverflowError) by (vm_compute; reflexivity).
  split; [exact H|]. intros c mins. rewrite H. discriminate.
Qed.

(** C9: when the class end is a datetime, the minutes returned lie between
    0 and the duration, the code is ['Y'] or ['N'], it is ['N'] exactly
    when the minutes are 0, and strictly inside the class window the minutes
    are at least 1; when it is not, the calculator raises [OverflowError]
    and returns nothing. *)
Theorem calculate_attendance_range
    (t : datetime) (s : string) (d : Z) :
  valid_start_time s = true -> 0 < d ->
  exists h m,
    start_time_shape s h m /\
    (class_end_in_range t h m d ->
     exists c mins,
       calculate_attendance t s d = Ok (c, mins) /\
       0 <= mins <= d /\
       (c = "Y" \/ c = "N") /\
       (c = "N" <-> mins = 0) /\
       (class_start_instant t h m < instant t
          < class_start_instant t h m + d * micros_per_minute -> 1 <= mins)) /\
    (~ class_end_in_range t h m d ->
     calculate_attendance t s d = Raise OverflowError).
Proof.
  intros Hv Hd. destruct (valid_start_time_shape s Hv) as (h & m & Hs).
  exists h, m. split; [exact Hs|]. split.
  2:{ apply (calculate_attendance_overflow t s d h m Hs). }
  intros Hr.
  rewrite (calculate_attendance_unfold t s d h m Hs Hr).
  destruct (Z.leb_spec (instant t) (class_start_instant t h m)) as [Hle|Hlt].
  { exists "Y", d. repeat split; try lia; try discriminate; auto. }
  destruct (Z.leb_spec (class_start_instant t h m + d * micros_per_minute) (instant t))
    as [Hge|Hin].
  { exists "N", 0. repeat split; try lia; auto. }
  exists "Y", (d - (instant t - class_start_instant t h m) / micros_per_minute).
  unfold micros_per_minute in *.
  pose proof (Z.div_mod (instant t - class_start_instant t h m) (60 * 1000000)).
  pose proof (Z.mod_pos_bound (instant t - class_start_instant t h m) (60 * 1000000)).
  assert (0 <= (instant t - class_start_instant t h m) / (60 * 1000000) < d).
  { split; [apply Z.div_pos; lia | apply Z.div_lt_upper_bound; lia]. }
  repeat split; try lia; try discriminate; auto.
Qed.

Lemma calculate_attendance_range_witness :
  class_end_in_range (mk_datetime 2024 2 29 23 59 59 999999) 23 59 1 /\
  exists c mins,
    calculate_attendance (mk_datetime 2024 2 29 23 59 59 999999) "23:59" 1
      = Ok (c, mins) /\
    0 <= mins <= 1 /\
    (c = "Y" \/ c = "N") /\
    (c = "N" <-> mins = 0).
Proof.
  split; [range_by_compute|].
  destruct (calculate_attendance_range
              (mk_datetime 2024 2 29 23 59 59 999999) "23:59" 1
              eq_refl ltac:(lia)) as (h & m & Hs & Hin & _).
  shape_values Hs.
  destruct Hin as (c & mins & Hcalc & Hr & Hc & Hn & _); [range_by_compute|].
  exists c, mins. auto.
Defined.

(** ** The roster indexer *)

Lemma date_label_Some (v : value) (label : string) :
  date_label v = Some label <->
  v = VStr label /\ contains_char "/" label = true.
Proof.
  destruct v as [|s| | |]; simpl; try (split; [discriminate | intros [? _]; discriminate]).
  destruct (contains_char "/" s) eqn:E; split.
  - intros [= <-]. auto.
  - intros [[= <-] _]. reflexivity.
  - discriminate.
  - intros [[= <-] Hc]. congruence.
Qed.

Lemma contains_char_nonempty (c : ascii) (s : string) :
  contains_char c s = true -> s <> EmptyString.
Proof. destruct s; simpl; [discriminate | congruence]. Qed.

Lemma index_dates_lookup (date_row : list value) :
  forall (k : nat) (m0 : gmap string date_cols) (label : string) (cols : date_cols),
  index_dates k date_row m0 !! label = Some cols <->
  (exists i, last_label_at date_row label i
             /\ cols = mk_date_cols (k + i) (S (k + i)))
  \/ (no_label date_row label /\ m0 !! label = Some cols).
Proof.
  induction date_row as [|v rest IH]; intros k m0 label cols; simpl.
  - split.
    + intros H. right. split; [|exact H]. intros _ j. rewrite lookup_nil. discriminate.
    + intros [(i & (Hi & _) & _) | [_ H]]; [|exact H].
      rewrite lookup_nil in Hi. discriminate.
  - rewrite IH. clear IH. split.
    + intros [(i & (Hi & Hc & Hlast) & ->) | [Hno Hm]].
      * left. exists (S i). split.
        -- split; [exact Hi|]. split; [exact Hc|].
           intros [|j] Hj; [lia|]. simpl. apply Hlast. lia.
        -- f_equal; lia.
      * destruct (date_label v) as [l|] eqn:El.
        -- destruct (decide (l = label)) as [->|Hne].
           ++ rewrite lookup_insert_eq in Hm. injection Hm as <-.
              apply date_label_Some in El as [-> Hc].
              left. exists 0%nat. split.
              ** split; [reflexivity|]. split; [exact Hc|].
                 intros [|j] Hj; [lia|]. simpl. apply Hno, Hc.
              ** f_equal; lia.
           ++ rewrite lookup_insert_ne in Hm by exact Hne.
              right. split; [|exact Hm].
              intros Hc [|j]; simpl; [|apply Hno, Hc].
              intros [= ->]. apply Hne.
              apply date_label_Some in El as [[= ->] _]. reflexivity.
        -- right. split; [|exact Hm].
           intros Hc [|j]; simpl; [|apply Hno, Hc].
           intros [= ->]. simpl in El. rewrite Hc in El. discriminate.
    + intros [(i & (Hi & Hc & Hlast) & ->) | [Hno Hm]].
      * destruct i as [|i].
        -- simpl in Hi. injection Hi as ->. simpl. rewrite Hc.
           right. split.
           ++ intros _ j. apply (Hlast (S j)). lia.
           ++ rewrite lookup_insert_eq. f_equal. f_equal; lia.
        -- left. exists i. split.
           ++ split; [exact Hi|]. split; [exact Hc|].
              intros j Hj. apply (Hlast (S j)). lia.
           ++ f_equal; lia.
      * right. split.
        -- intros Hc j. apply (Hno Hc (S j)).
        -- destruct (date_label v) as [l|] eqn:El; [|exact Hm].
           destruct (decide (l = label)) as [->|Hne].
           ++ apply date_label_Some in El as [-> Hc].
              exfalso. apply (Hno Hc 0%nat). reflexivity.
           ++ rewrite lookup_insert_ne by exact Hne. exact Hm.
Qed.

Lemma last_occurrence (l : list value) (x : value) (i : nat) :
  l !! i = Some x ->
  exists j, (i <= j)%nat /\ l !! j = Some x /\
            forall j', (j < j')%nat -> l !! j' <> Some x.
Proof.
  revert i. induction l as [|v l IH] using rev_ind; intros i Hi.
  - rewrite lookup_nil in Hi. discriminate.
  - destruct (decide (v = x)) as [->|Hne].
    + exists (length l). split; [|split].
      * apply lookup_lt_Some in Hi. rewrite length_app in Hi. simpl in Hi. lia.
      * rewrite lookup_app_r by lia. rewrite Nat.sub_diag. reflexivity.
      * intros j' Hj'. rewrite lookup_ge_None_2; [discriminate|].
        rewrite length_app. simpl. lia.
    + assert (Hil : l !! i = Some x).
      { destruct (decide (i < length l)%nat) as [Hlt|Hge].
        - rewrite lookup_app_l in Hi by exact Hlt. exact Hi.
        - rewrite lookup_app_r in Hi by lia.
          destruct (i - length l)%nat; simpl in Hi; [congruence|].
          rewrite lookup_nil in Hi. discriminate. }
      destruct (IH i Hil) as (j & Hij & Hj & Hlast).
      exists j. split; [exact Hij|]. split.
      * rewrite lookup_app_l by (eapply lookup_lt_Some, Hj). exact Hj.
      * intros j' Hj' Hl'.
        destruct (decide (j' < length l)%nat) as [Hlt|Hge].
        -- rewrite lookup_app_l in Hl' by exact Hlt. exact (Hlast j' Hj' Hl').
        -- rewrite lookup_app_r in Hl' by lia.
           destruct (j' - length l)%nat; simpl in Hl'; [congruence|].
           rewrite lookup_nil in Hl'. discriminate.
Qed.

(** C5: with a header row at index 3 (and a sub-header row at index 4) the
    indexer returns the frame and a map whose entries are exactly the labels
    of row 3 that are strings containing a slash, each at the last column
    where it occurs, with the minutes column one to the right. *)
Theorem read_template_file_date_columns
    (df : DataFrame) (date_row subheader_row : list value) :
  data df !! 3%nat = Some date_row ->
  data df !! 4%nat = Some subheader_row ->
  exists date_columns,
    read_template_file df = ([], Ok (df, date_columns)) /\
    (forall label cols,
       date_columns !! label = Some cols <->
       exists i, last_label_at date_row label i
                 /\ cols = mk_date_cols i (S i)) /\
    (forall label cols,
       date_columns !! label = Some cols ->
       label <> EmptyString /\ minutes_col cols = S (code_col cols)) /\
    (forall label i,
       date_row !! i = Some (VStr label) -> contains_char "/" label = true ->
       exists j, (i <= j)%nat /\
                 date_columns !! label = Some (mk_date_cols j (S j))).
Proof.
  intros H3 H4. exists (index_dates 0 date_row ∅).
  assert (Hlk : forall label cols,
             index_dates 0 date_row ∅ !! label = Some cols <->
             exists i, last_label_at date_row label i
                       /\ cols = mk_date_cols i (S i)).
  { intros label cols. rewrite index_dates_lookup. split.
    - intros [H | [_ H]]; [exact H | rewrite lookup_empty in H; discriminate].
    - intros H. left. exact H. }
  split; [|split; [exact Hlk | split]].
  - unfold read_template_file, iloc_row. rewrite H3, H4. reflexivity.
  - intros label cols Hl. apply Hlk in Hl as (i & (_ & Hc & _) & ->).
    split; [eapply contains_char_nonempty, Hc | reflexivity].
  - intros label i Hi Hc.
    destruct (last_occurrence date_row (VStr label) i Hi) as (j & Hij & Hj & Hlast).
    exists j. split; [exact Hij|]. apply Hlk. exists j.
    split; [|reflexivity]. split; [exact Hj|]. split; [exact Hc | exact Hlast].
Qed.

(** ** The identifier normalizer *)

Lemma string_app_cons (c : ascii) (r s : string) :
  String c r +:+ s = String c (r +:+ s).
Proof. reflexivity. Qed.

Lemma lstrip_spaces_app (ws s : string) :
  string_forall py_isspace ws = true -> lstrip (ws +:+ s) = lstrip s.
Proof.
  induction ws as [|c r IH]; [reflexivity|].
  intros H. simpl in H. apply andb_true_iff in H as [Hc Hr].
  rewrite string_app_cons. simpl. rewrite Hc. apply IH, Hr.
Qed.

Lemma rstrip_spaces (ws : string) :
  string_forall py_isspace ws = true -> rstrip ws = EmptyString.
Proof.
  induction ws as [|c r IH]; [reflexivity|].
  simpl. intros H. apply andb_true_iff in H as [Hc Hr].
  rewrite (IH Hr), Hc. reflexivity.
Qed.

Lemma rstrip_app_spaces (s ws : string) :
  string_forall py_isspace ws = true -> rstrip (s +:+ ws) = rstrip s.
Proof.
  intros Hws. induction s as [|c r IH].
  - simpl. apply rstrip_spaces, Hws.
  - rewrite string_app_cons. simpl. rewrite IH. reflexivity.
Qed.

Lemma rstrip_last_nonspace (s : string) (l : ascii) :
  last_char s = Some l -> py_isspace l = false -> rstrip s = s.
Proof.
  induction s as [|c r IH]; [discriminate|].
  intros Hl Hsp. destruct r as [|c' r'].
  - simpl in *. injection Hl as ->. rewrite Hsp. reflexivity.
  - change (last_char (String c (String c' r'))) with (last_char (String c' r')) in Hl.
    specialize (IH Hl Hsp).
    change (rstrip (String c (String c' r')))
      with (match rstrip (String c' r') with
            | EmptyString => if py_isspace c then EmptyString else String c EmptyString
            | r'' => String c r''
            end).
    rewrite IH. reflexivity.
Qed.

Lemma py_strip_padded (ws1 core ws2 : string) :
  string_forall py_isspace ws1 = true ->
  string_forall py_isspace ws2 = true ->
  trimmed core ->
  py_strip (ws1 +:+ core +:+ ws2) = core.
Proof.
  intros H1 H2 Ht. unfold py_strip.
  rewrite (lstrip_spaces_app _ _ H1).
  destruct core as [|c r].
  - change (EmptyString +:+ ws2) with ws2.
    assert (Hl : lstrip ws2 = EmptyString).
    { clear -H2. induction ws2 as [|c r IH]; [reflexivity|].
      simpl in *. apply andb_true_iff in H2 as [Hc Hr]. rewrite Hc. apply IH, Hr. }
    rewrite Hl. reflexivity.
  - destruct Ht as [Hc (l & Hl & Hsp)].
    rewrite string_app_cons, (lstrip_nonspace _ _ Hc), <- string_app_cons.
    rewrite (rstrip_app_spaces _ _ H2).
    apply (rstrip_last_nonspace _ _ Hl Hsp).
Qed.

Lemma spaces_no_at (ws : string) :
  string_forall py_isspace ws = true -> contains_char "@" ws = false.
Proof.
  induction ws as [|c r IH]; [reflexivity|].
  simpl. intros H. apply andb_true_iff in H as [Hc Hr].
  rewrite (IH Hr), ascii_eqb_code.
  change (code "@") with 64.
  destruct (Z.eqb_spec (code c) 64) as [E|]; [|reflexivity].
  unfold py_isspace in Hc. rewrite E in Hc. discriminate.
Qed.

Lemma upper_startswith_S_ascii (s : string) :
  string_forall is_ascii s = true ->
  upper_startswith_S s =
    match s with
    | String c _ => (code c =? 83) || (code c =? 115)
    | EmptyString => false
    end.
Proof.
  destruct s as [|c r]; [reflexivity|].
  simpl. intros H. apply andb_true_iff in H as [Hc _].
  unfold is_ascii in Hc. apply Z.ltb_lt in Hc.
  destruct (Z.eqb_spec (code c) 223); [lia|].
  rewrite orb_false_r. reflexivity.
Qed.

Lemma py_isdigit_ascii (s : string) :
  string_forall is_ascii s = true -> py_isdigit s = spec_all_digit s.
Proof.
  intros H. unfold py_isdigit, spec_all_digit.
  destruct s as [|c0 r0]; [reflexivity|].
  generalize dependent (String c0 r0). clear. intros s.
  induction s as [|c r IH]; [reflexivity|].
  simpl. intros H. apply andb_true_iff in H as [Hc Hr].
  rewrite (IH Hr). f_equal.
  unfold is_ascii in Hc. apply Z.ltb_lt in Hc.
  unfold py_isdigit_char.
  destruct (Z.eqb_spec (code c) 178); [lia|].
  destruct (Z.eqb_spec (code c) 179); [lia|].
  destruct (Z.eqb_spec (code c) 185); [lia|].
  rewrite !orb_false_r. reflexivity.
Qed.

Lemma string_forall_tail (p : ascii -> bool) (c : ascii) (r : string) :
  string_forall p (String c r) = true -> string_forall p r = true.
Proof. simpl. intros H. apply andb_true_iff in H as [_ Hr]. exact Hr. Qed.

(** The specification's normalizer and the code disagree on a padded
    identifier: the code strips the blank, the specification's steps do
    not. *)
Lemma extract_student_id_strips_whitespace :
  extract_student_id (VStr " 4186054@rmit.edu.vn") = ([], Some "4186054")
  /\ spec_normalize " 4186054" = None.
Proof. split; vm_compute; reflexivity. Qed.

(** C6, amended: for an input [ws1 core ws2 @ rest] where [ws1] and [ws2]
    are whitespace and [core] is an ASCII string without at sign and without
    whitespace at its ends, the normalizer returns what the specification's
    steps give on [core]: one leading S or s stripped, and the remainder
    returned exactly when it is a non-empty digit string, with a warning
    otherwise.  An input that is not a string gives [None].  The four
    documented examples hold. *)
Theorem extract_student_id_normalizes :
  (forall ws1 core ws2 rest,
     string_forall py_isspace ws1 = true ->
     string_forall py_isspace ws2 = true ->
     trimmed core ->
     string_forall is_ascii core = true ->
     contains_char "@" core = false ->
     let email := ws1 +:+ core +:+ ws2 +:+ String "@" rest in
     extract_student_id (VStr email) =
       match spec_normalize core with
       | Some sid => ([], Some sid)
       | None => ([WarnNonNumericId email], None)
       end) /\
  (forall v, (forall s, v <> VStr s) -> extract_student_id v = ([], None)) /\
  extract_student_id (VStr "S4186054@rmit.edu.vn") = ([], Some "4186054") /\
  extract_student_id (VStr "s3992383@rmit.edu.vn") = ([], Some "3992383") /\
  extract_student_id (VStr "4019025@rmit.edu.vn") = ([], Some "4019025") /\
  extract_student_id (VStr "abc@x.com") = ([WarnNonNumericId "abc@x.com"], None).
Proof.
  split; [|split; [|repeat split; vm_compute; reflexivity]].
  - intros ws1 core ws2 rest H1 H2 Ht Ha Hat email.
    unfold extract_student_id.
    assert (Hsplit : py_split "@" email = (ws1 +:+ core +:+ ws2) :: py_split "@" rest).
    { unfold email.
      replace (ws1 +:+ core +:+ ws2 +:+ String "@" rest)
        with ((ws1 +:+ core +:+ ws2) +:+ String "@" rest).
      - apply py_split_app.
        rewrite !contains_char_app, Hat, (spaces_no_at _ H1), (spaces_no_at _ H2).
        reflexivity.
      - clear. induction ws1 as [|c r IH].
        + change (EmptyString +:+ ?x) with x.
          induction core as [|c r IH]; [reflexivity|].
          rewrite !string_app_cons. f_equal. exact IH.
        + rewrite !string_app_cons. f_equal. exact IH. }
    rewrite Hsplit. simpl hd.
    rewrite (py_strip_padded _ _ _ H1 H2 Ht).
    rewrite (upper_startswith_S_ascii _ Ha).
    unfold spec_normalize, spec_strip_S.
    destruct core as [|c r].
    + reflexivity.
    + destruct ((code c =? 83) || (code c =? 115)) eqn:ES.
      * rewrite (py_isdigit_ascii r (string_forall_tail _ _ _ Ha)).
        destruct (spec_all_digit r); reflexivity.
      * rewrite (py_isdigit_ascii _ Ha).
        destruct (spec_all_digit (String c r)); reflexivity.
  - intros v Hv. destruct v as [|s| | |]; try reflexivity.
    exfalso. apply (Hv s). reflexivity.
Qed.

Lemma extract_student_id_normalizes_witness :
  extract_student_id (VStr ("  " +:+ "s3992383" +:+ " " +:+ String "@" "rmit.edu.vn"))
  = ([], Some "3992383").
Proof.
  apply (proj1 extract_student_id_normalizes "  " "s3992383" " " "rmit.edu.vn");
    [reflexivity | reflexivity | | reflexivity | reflexivity].
  split; [reflexivity|]. exists "3"%char. split; reflexivity.
Defined.

(** ** Data frames *)

Lemma iloc_get_Ok (df : DataFrame) (r c : nat) (v : value) :
  iloc_get df r c = Ok v <->
  exists row, data df !! r = Some row /\ row !! c = Some v.
Proof.
  unfold iloc_get. destruct (data df !! r) as [row|]; [|split; [discriminate | intros (? & [=] & _)]].
  destruct (row !! c) as [v'|] eqn:E; split.
  - intros [= ->]. eauto.
  - intros (row' & [= <-] & Hv). congruence.
  - discriminate.
  - intros (row' & [= <-] & Hv). congruence.
Qed.

Lemma iloc_get_wf (df : DataFrame) (r c : nat) :
  wf_df df -> (r < nrows df)%nat -> (c < ncols df)%nat ->
  exists v, iloc_get df r c = Ok v.
Proof.
  intros Hwf Hr Hc. unfold nrows in Hr.
  destruct (lookup_lt_is_Some_2 _ _ Hr) as [row Hrow].
  assert (Hlen : length row = ncols df).
  { eapply (proj1 (Forall_lookup _ _) Hwf), Hrow. }
  destruct (lookup_lt_is_Some_2 row c ltac:(lia)) as [v Hv].
  exists v. apply iloc_get_Ok. eauto.
Qed.

Lemma iloc_get_in_bounds (df : DataFrame) (r c : nat) (v : value) :
  wf_df df -> iloc_get df r c = Ok v ->
  (r < nrows df)%nat /\ (c < ncols df)%nat.
Proof.
  intros Hwf H. apply iloc_get_Ok in H as (row & Hrow & Hv).
  split; [eapply lookup_lt_Some, Hrow|].
  rewrite <- (proj1 (Forall_lookup _ _) Hwf _ _ Hrow).
  eapply lookup_lt_Some, Hv.
Qed.

(** ** The selective writer *)

Section WriterProperties.

Variable float_repr : Q -> string.
Variable numpy_column : nat -> bool.

Lemma str_or_empty_py_str (v : value) :
  str_or_empty float_repr v = py_str float_repr v.
Proof.
  unfold str_or_empty. destruct v as [|s| | |]; try reflexivity.
  simpl. destruct (String.eqb_spec s ""); [subst|]; reflexivity.
Qed.

Lemma cell_update_spec (df rs : DataFrame) (r c : nat) (u : value) :
  wf_df rs -> iloc_get df r c = Ok u ->
  (must_write float_repr rs r c u
     /\ cell_update float_repr numpy_column df rs r c
        = Ok (Some (written_value float_repr numpy_column c u)))
  \/ (~ must_write float_repr rs r c u
      /\ cell_update float_repr numpy_column df rs r c = Ok None).
Proof.
  intros Hwf Hu. unfold cell_update, must_write. rewrite Hu. simpl.
  destruct (isna u) eqn:Ena.
  { right. split; [intros [? _]; discriminate | reflexivity]. }
  destruct (Nat.ltb_spec r (nrows rs)) as [Hr|Hr];
    destruct (Nat.ltb_spec c (ncols rs)) as [Hc|Hc]; simpl;
    try (left;
         split; [split; [reflexivity | right; intros [? ?]; lia] | reflexivity]).
  destruct (iloc_get_wf rs r c Hwf Hr Hc) as [o Ho]. rewrite Ho. simpl.
  rewrite !str_or_empty_py_str.
  destruct (String.eqb_spec (py_str float_repr o) (py_str float_repr u)) as [E|E]; simpl.
  - right. split; [|reflexivity].
    intros [_ [(o' & Ho' & Hne) | Hout]]; [congruence | apply Hout; auto].
  - left. split; [|reflexivity].
    split; [reflexivity|]. left. exists o. auto.
Qed.

Lemma collect_writes_spec (df rs : DataFrame) (ps : list (nat * nat)) :
  wf_df rs ->
  (forall r c, (r, c) ∈ ps -> exists u, iloc_get df r c = Ok u) ->
  exists ws,
    collect_writes float_repr numpy_column df rs ps = Ok ws /\
    forall r c v,
      (r, c, v) ∈ ws <->
      (r, c) ∈ ps /\
      exists u, iloc_get df r c = Ok u /\ must_write float_repr rs r c u /\
                v = written_value float_repr numpy_column c u.
Proof.
  intros Hwf. induction ps as [|[r0 c0] ps IH]; intros Hps.
  - exists []. split; [reflexivity|]. intros r c v. split.
    + intros H. inversion H.
    + intros [H _]. inversion H.
  - destruct IH as (ws & Hws & Hspec).
    { intros r c H. apply Hps. right. exact H. }
    destruct (Hps r0 c0 ltac:(left)) as [u Hu].
    simpl. rewrite Hws.
    destruct (cell_update_spec df rs r0 c0 u Hwf Hu) as [[Hm ->] | [Hm ->]]; simpl.
    + eexists. split; [reflexivity|]. intros r c v.
      rewrite elem_of_cons, Hspec, elem_of_cons. split.
      * intros [[= -> -> ->] | (Hin & u' & Hv & Hw & ->)]; [eauto 8 | eauto 8].
      * intros ([[= -> ->] | Hin] & u' & Hv & Hw & ->).
        -- left. congruence.
        -- right. eauto 8.
    + exists ws. split; [reflexivity|]. intros r c v.
      rewrite Hspec, elem_of_cons. split.
      * intros (Hin & Hv). auto.
      * intros ([[= -> ->] | Hin] & u' & Hv & Hw & ->); [|eauto 8].
        exfalso. apply Hm. congruence.
Qed.

Lemma elem_of_positions (df : DataFrame) (r c : nat) :
  (r, c) ∈ positions df <-> (r < nrows df)%nat /\ (c < ncols df)%nat.
Proof.
  unfold positions. rewrite list_elem_of_bind. split.
  - intros (r' & Hc & Hr). apply list_elem_of_bind in Hc as (c' & Hrc & Hc).
    apply list_elem_of_singleton in Hrc. injection Hrc as -> ->.
    apply elem_of_seq in Hr, Hc. lia.
  - intros [Hr Hc]. exists r. split; [|apply elem_of_seq; lia].
    apply list_elem_of_bind. exists c. split; [|apply elem_of_seq; lia].
    apply list_elem_of_singleton. reflexivity.
Qed.

Lemma list_elem_of_dec_or_not (ws : list (nat * nat * value)) (r c : nat) :
  (exists v, (r, c, v) ∈ ws) \/ (forall v, (r, c, v) ∉ ws).
Proof.
  induction ws as [|[[r0 c0] v0] ws IH].
  - right. intros v H. inversion H.
  - destruct IH as [(v & Hv) | Hn].
    + left. exists v. right. exact Hv.
    + destruct (decide ((r0, c0) = (r, c))) as [[= -> ->]|Hne].
      * left. exists v0. left.
      * right. intros v Hv. apply elem_of_cons in Hv as [[= <- <- _]|Hv].
        -- apply Hne. reflexivity.
        -- exact (Hn v Hv).
Qed.

Lemma apply_writes_cons (r c : nat) (v : value)
    (ws : list (nat * nat * value)) (cells : gmap (nat * nat) value) :
  apply_writes ((r, c, v) :: ws) cells = apply_writes ws (<[(r, c) := v]> cells).
Proof. reflexivity. Qed.

Lemma apply_writes_untouched (ws : list (nat * nat * value))
    (cells : gmap (nat * nat) value) (r c : nat) :
  (forall v, (r, c, v) ∉ ws) ->
  apply_writes ws cells !! (r, c) = cells !! (r, c).
Proof.
  revert cells. induction ws as [|[[r0 c0] v0] ws IH]; intros cells Hn.
  - reflexivity.
  - rewrite apply_writes_cons, IH.
    + apply lookup_insert_ne. intros [= -> ->]. apply (Hn v0). left.
    + intros v Hv. apply (Hn v). right. exact Hv.
Qed.

Lemma apply_writes_written (ws : list (nat * nat * value))
    (cells : gmap (nat * nat) value) (r c : nat) (u : value) :
  (forall v, (r, c, v) ∈ ws -> v = u) ->
  (exists v, (r, c, v) ∈ ws) ->
  apply_writes ws cells !! (r, c) = Some u.
Proof.
  revert cells. induction ws as [|[[r0 c0] v0] ws IH]; intros cells Hf (v & Hv).
  - inversion Hv.
  - rewrite apply_writes_cons.
    destruct (list_elem_of_dec_or_not ws r c) as [(v' & Hv') | Hnone].
    + apply IH; [|eauto]. intros v1 H1. apply Hf. right. exact H1.
    + rewrite apply_writes_untouched by exact Hnone.
      apply elem_of_cons in Hv as [[= <- <- <-]|Hv]; [|exfalso; eapply Hnone, Hv].
      rewrite lookup_insert_eq. f_equal. apply Hf. left.
Qed.

Lemma written_value_kind (c : nat) (u : value) :
  isna u = false ->
  (is_number numpy_column c u = true
     /\ written_value float_repr numpy_column c u = u
     /\ exists z q b, u = VInt z \/ u = VFloat q \/ u = VBool b)
  \/ (is_number numpy_column c u = false
      /\ written_value float_repr numpy_column c u = VStr (py_str float_repr u)).
Proof.
  intros Hna. unfold written_value.
  destruct (is_number numpy_column c u) eqn:E; [left | right; auto].
  split; [reflexivity|]. split; [reflexivity|].
  destruct u as [|s|z|q|b]; try discriminate.
  - exists z, (0 # 1)%Q, true. auto.
  - exists 0, q, true. auto.
  - exists 0, (0 # 1)%Q, b. auto.
Qed.

(** X18: the writer, position by position: for rectangular frames it
    returns a sheet; a position is written exactly when the updated value is present
    and either reads differently from the original cell or lies outside
    the original sheet; what is written is the updated value itself when
    it is an instance of [int] or [float] and its [str] otherwise; a
    written position holds what was written, every other position holds
    what the original sheet held; and when every present cell of the frame
    reads like the sheet's cell, nothing is written and the saved cells are
    the original cells. *)
Theorem save_updated_template_selective (df rs : DataFrame) :
  wf_df df -> wf_df rs ->
  exists ws out,
    collect_writes float_repr numpy_column df rs (positions df) = Ok ws /\
    save_updated_template float_repr numpy_column df rs = Ok out /\
    (forall r c v,
       (r, c, v) ∈ ws <->
       exists u, iloc_get df r c = Ok u /\ must_write float_repr rs r c u /\
                 v = written_value float_repr numpy_column c u) /\
    (forall r c u, iloc_get df r c = Ok u -> must_write float_repr rs r c u ->
       (is_number numpy_column c u = true /\ out !! (r, c) = Some u) \/
       (is_number numpy_column c u = false /\
        out !! (r, c) = Some (VStr (py_str float_repr u)))) /\
    (forall r c, (forall v, (r, c, v) ∉ ws) ->
                 out !! (r, c) = sheet_cells rs !! (r, c)) /\
    ((forall r c u, iloc_get df r c = Ok u -> isna u = false ->
        exists o, iloc_get rs r c = Ok o /\ py_str float_repr o = py_str float_repr u) ->
     ws = [] /\ out = sheet_cells rs).
Proof.
  intros Hdf Hrs.
  destruct (collect_writes_spec df rs (positions df) Hrs) as (ws & Hws & Hspec).
  { intros r c H. apply elem_of_positions in H as [Hr Hc].
    apply (iloc_get_wf df r c Hdf Hr Hc). }
  assert (Hiff : forall r c v,
             (r, c, v) ∈ ws <->
             exists u, iloc_get df r c = Ok u /\ must_write float_repr rs r c u /\
                       v = written_value float_repr numpy_column c u).
  { intros r c v. rewrite Hspec. split; [tauto|].
    intros (u & Hv & Hm & ->). split; [|eauto].
    apply elem_of_positions. eapply iloc_get_in_bounds; eauto. }
  assert (Hout : forall r c v, (r, c, v) ∈ ws ->
             apply_writes ws (sheet_cells rs) !! (r, c) = Some v).
  { intros r c v Hv. apply apply_writes_written; [|eauto].
    intros v' Hv'. apply Hiff in Hv as (u & Hu & _ & ->).
    apply Hiff in Hv' as (u' & Hu' & _ & ->). congruence. }
  exists ws, (apply_writes ws (sheet_cells rs)).
  split; [exact Hws|]. split.
  { unfold save_updated_template. rewrite Hws. reflexivity. }
  split; [exact Hiff|]. split; [|split].
  - intros r c u Hu Hm.
    assert (Hin : (r, c, written_value float_repr numpy_column c u) ∈ ws)
      by (apply Hiff; eauto).
    apply Hout in Hin. destruct Hm as [Hna _].
    destruct (written_value_kind c u Hna) as [(Hn & Hw & _) | (Hn & Hw)];
      rewrite Hw in Hin; auto.
  - intros r c Hn. apply apply_writes_untouched, Hn.
  - intros Hsame.
    assert (Hnil : ws = []).
    { destruct ws as [|[[r c] v] ws']; [reflexivity|]. exfalso.
      destruct (proj1 (Hiff r c v) ltac:(left))
        as (u & Hu & [Hna [(o & Ho & Hne) | Hbeyond]] & _).
      - destruct (Hsame r c u Hu Hna) as (o' & Ho' & Heq). congruence.
      - destruct (Hsame r c u Hu Hna) as (o' & Ho' & _).
        apply Hbeyond. eapply iloc_get_in_bounds; eauto. }
    split; [exact Hnil|]. rewrite Hnil. reflexivity.
Qed.

End WriterProperties.

(** ** The logging monad *)





Lemma M_bind_nil_Ok {A B} (a : A) (f : A -> M B) :
  M_bind A B f ([], Ok a) = f a.
Proof. unfold M_bind. destruct (f a). reflexivity. Qed.



Lemma bind_Ok_inv {A B} (m : M A) (f : A -> M B) (l : list event) (b : B) :
  m ≫= f = (l, Ok b) ->
  exists l1 a l2, m = (l1, Ok a) /\ f a = (l2, Ok b) /\ l = (l1 ++ l2)%list.
Proof.
  unfold mbind, M_bind. destruct m as [l1 [a|e]]; [|discriminate].
  destruct (f a) as [l2 r] eqn:E. intros [= <- ->].
  exists l1, a, l2. auto.
Qed.

Lemma post_bind {A B} (m : M A) (f : A -> M B) (P : A -> Prop) (Q : B -> Prop) :
  post m P -> (forall a, P a -> post (f a) Q) -> post (m ≫= f) Q.
Proof.
  intros Hm Hf l b H. apply bind_Ok_inv in H as (l1 & a & l2 & Hma & Hfa & _).
  eapply Hf; [eapply Hm, Hma | exact Hfa].
Qed.

Ltac pbind :=
  lazymatch goal with
  | |- post (?m ≫= ?f) ?Q => refine (post_bind m f _ Q _ _)
  | |- post (M_bind _ _ ?f ?m) ?Q => refine (post_bind m f _ Q _ _)
  end.

Lemma post_ret {A} (a : A) (Q : A -> Prop) : Q a -> post (mret a) Q.
Proof. intros H l a' [= _ <-]. exact H. Qed.

Lemma post_lift {A} (r : result A) (Q : A -> Prop) :
  (forall a, r = Ok a -> Q a) -> post (lift r) Q.
Proof. intros H l a [= _ ->]. apply H. reflexivity. Qed.


Lemma post_trivial {A} (m : M A) : post m (fun _ => True).
Proof. intros l a _. exact I. Qed.

Lemma post_weaken {A} (m : M A) (P Q : A -> Prop) :
  post m P -> (forall a, P a -> Q a) -> post m Q.
Proof. intros Hm HPQ l a H. apply HPQ, (Hm l a H). Qed.

Lemma post_and {A} (m : M A) (P Q : A -> Prop) :
  post m P -> post m Q -> post m (fun a => P a /\ Q a).
Proof. intros HP HQ l a H. split; [eapply HP | eapply HQ]; exact H. Qed.

(** ** Frames under assignment *)

Lemma iloc_set_Ok (df : DataFrame) (r c : nat) (v : value) (df' : DataFrame) :
  iloc_set df r c v = Ok df' ->
  exists row, data df !! r = Some row /\ (c < length row)%nat /\
              df' = mk_df (ncols df) (<[r := <[c := v]> row]> (data df)).
Proof.
  unfold iloc_set. destruct (data df !! r) as [row|] eqn:Er; [|discriminate].
  destruct (row !! c) as [v0|] eqn:Ec; [|discriminate].
  intros [= <-]. exists row. split; [reflexivity|].
  split; [eapply lookup_lt_Some, Ec | reflexivity].
Qed.

Lemma iloc_get_set (df : DataFrame) (r c : nat) (v : value) (df' : DataFrame)
    (r' c' : nat) :
  iloc_set df r c v = Ok df' ->
  iloc_get df' r' c' =
    if decide (r' = r /\ c' = c) then Ok v else iloc_get df r' c'.
Proof.
  intros H. apply iloc_set_Ok in H as (row & Hrow & Hc & ->).
  unfold iloc_get. simpl.
  destruct (decide (r' = r)) as [->|Hr].
  - rewrite list_lookup_insert_eq by (eapply lookup_lt_Some, Hrow). rewrite Hrow.
    destruct (decide (c' = c)) as [->|Hne].
    + rewrite list_lookup_insert_eq by exact Hc.
      rewrite decide_True by auto. reflexivity.
    + rewrite list_lookup_insert_ne by auto.
      rewrite decide_False by tauto. reflexivity.
  - rewrite list_lookup_insert_ne by auto.
    rewrite decide_False by tauto. reflexivity.
Qed.

Lemma iloc_set_shape (df : DataFrame) (r c : nat) (v : value) (df' : DataFrame) :
  iloc_set df r c v = Ok df' ->
  ncols df' = ncols df /\ map length (data df') = map length (data df).
Proof.
  intros H. apply iloc_set_Ok in H as (row & Hrow & Hc & ->). simpl.
  split; [reflexivity|].
  rewrite list_fmap_insert, length_insert.
  apply list_insert_id. rewrite list_lookup_fmap, Hrow. reflexivity.
Qed.

Lemma evolves_refl (df : DataFrame) : evolves df df.
Proof. repeat split; auto. Qed.

Lemma evolves_trans (df1 df2 df3 : DataFrame) :
  evolves df1 df2 -> evolves df2 df3 -> evolves df1 df3.
Proof.
  intros (Hn1 & Hs1 & Hc1) (Hn2 & Hs2 & Hc2).
  split; [congruence|]. split; [congruence|].
  intros r c v H. destruct (Hc2 r c v H) as [H2|Hw]; [|right; exact Hw].
  apply Hc1, H2.
Qed.

Lemma evolves_set (df : DataFrame) (r c : nat) (v : value) (df' : DataFrame) :
  written_kind v -> iloc_set df r c v = Ok df' -> evolves df df'.
Proof.
  intros Hw H. destruct (iloc_set_shape _ _ _ _ _ H) as [Hn Hs].
  split; [exact Hn|]. split; [exact Hs|].
  intros r' c' v' Hv'. rewrite (iloc_get_set _ _ _ _ _ r' c' H) in Hv'.
  destruct (decide (r' = r /\ c' = c)); [|left; exact Hv'].
  injection Hv' as <-. right. exact Hw.
Qed.

Lemma evolves_nrows (df df' : DataFrame) : evolves df df' -> nrows df' = nrows df.
Proof.
  intros (_ & Hs & _). unfold nrows.
  rewrite <- (length_map length (data df')), Hs. apply length_map.
Qed.

Lemma evolves_student_rows (df df' : DataFrame) :
  evolves df df' -> student_rows df' = student_rows df.
Proof. intros H. unfold student_rows. rewrite (evolves_nrows _ _ H). reflexivity. Qed.

Lemma iloc_get_is_Ok (df : DataFrame) (r c : nat) :
  (exists v, iloc_get df r c = Ok v) <->
  exists n, map length (data df) !! r = Some n /\ (c < n)%nat.
Proof.
  rewrite list_lookup_fmap. split.
  - intros (v & Hv). apply iloc_get_Ok in Hv as (row & Hrow & Hc).
    exists (length row). rewrite Hrow. split; [reflexivity|].
    eapply lookup_lt_Some, Hc.
  - intros (n & Hn & Hc). destruct (data df !! r) as [row|] eqn:Er; [|discriminate].
    injection Hn as <-. destruct (lookup_lt_is_Some_2 row c Hc) as [v Hv].
    exists v. apply iloc_get_Ok. eauto.
Qed.

Lemma evolves_defined (df df' : DataFrame) (r c : nat) :
  evolves df df' ->
  (exists v, iloc_get df r c = Ok v) -> exists v, iloc_get df' r c = Ok v.
Proof.
  intros (_ & Hs & _) H. apply iloc_get_is_Ok. rewrite Hs.
  apply iloc_get_is_Ok, H.
Qed.

Lemma written_kind_not_sentinel (v : value) : written_kind v -> eq_str v "--" = false.
Proof. intros [-> | [-> | [z ->]]]; reflexivity. Qed.

Lemma evolves_evaluated (df df' : DataFrame) (r c : nat) :
  evolves df df' -> evaluated df r c -> evaluated df' r c.
Proof.
  intros He (v & Hv & Hns).
  destruct (evolves_defined df df' r c He) as [v' Hv']; [eauto|].
  exists v'. split; [exact Hv'|].
  destruct He as (_ & _ & Hc). destruct (Hc r c v' Hv') as [H|Hw].
  - congruence.
  - apply written_kind_not_sentinel, Hw.
Qed.

(** ** Phase B: marking absences *)

Lemma mark_absent_rows_evolves (rows : list nat) (date : string) (cols : date_cols) :
  forall df, post (mark_absent_rows rows date cols df) (evolves df).
Proof.
  induction rows as [|r rows IH]; intros df; simpl.
  - apply post_ret, evolves_refl.
  - pbind; [apply post_lift; intros a Ha; exact Ha|].
    intros cur Hcur. simpl in Hcur.
    destruct (eq_str cur "--"); [|apply IH].
    pbind; [apply post_lift; intros a Ha; exact Ha|].
    intros df1 H1. simpl in H1.
    pbind; [apply post_lift; intros a Ha; exact Ha|].
    intros df2 H2. simpl in H2.
    pbind; [apply post_trivial|]. intros st _.
    pbind; [apply post_trivial|]. intros _ _.
    eapply post_weaken; [apply IH|]. intros df' He.
    eapply evolves_trans; [|exact He].
    eapply evolves_trans.
    + eapply evolves_set; [|exact H1]. right. left. reflexivity.
    + eapply evolves_set; [|exact H2]. right. right. eauto.
Qed.

Lemma mark_absent_rows_clears (rows : list nat) (date : string) (cols : date_cols) :
  forall df,
    post (mark_absent_rows rows date cols df)
         (fun df' => forall r, r ∈ rows -> evaluated df' r (code_col cols)).
Proof.
  induction rows as [|r rows IH]; intros df; simpl.
  - apply post_ret. intros r H. inversion H.
  - pbind; [apply post_lift; intros a Ha; exact Ha|].
    intros cur Hcur. simpl in Hcur.
    destruct (eq_str cur "--") eqn:Ecur.
    + pbind; [apply post_lift; intros a Ha; exact Ha|].
      intros df1 H1. simpl in H1.
      pbind; [apply post_lift; intros a Ha; exact Ha|].
      intros df2 H2. simpl in H2.
      pbind; [apply post_trivial|]. intros st _.
      pbind; [apply post_trivial|]. intros _ _.
      eapply post_weaken;
        [apply post_and; [apply IH | apply mark_absent_rows_evolves]|].
      intros df' [Hrest He] r' Hr'. simpl in Hrest, He.
      apply elem_of_cons in Hr' as [->|Hr']; [|apply Hrest, Hr'].
      apply (evolves_evaluated df2 df' _ _ He).
      unfold evaluated. rewrite (iloc_get_set _ _ _ _ _ r (code_col cols) H2).
      destruct (decide _); [eexists; split; reflexivity|].
      rewrite (iloc_get_set _ _ _ _ _ r (code_col cols) H1).
      rewrite decide_True by auto. eexists; split; reflexivity.
    + eapply post_weaken;
        [apply post_and; [apply IH | apply mark_absent_rows_evolves]|].
      intros df' [Hrest He] r' Hr'. simpl in Hrest, He.
      apply elem_of_cons in Hr' as [->|Hr']; [|apply Hrest, Hr'].
      apply (evolves_evaluated df df' _ _ He). exists cur. auto.
Qed.

Lemma mark_absent_evolves (dates : list string) (date_columns : gmap string date_cols) :
  forall df, post (mark_absent dates date_columns df) (evolves df).
Proof.
  induction dates as [|d dates IH]; intros df; simpl.
  - apply post_ret, evolves_refl.
  - destruct (date_columns !! d) as [cols|]; [|apply IH].
    pbind; [apply mark_absent_rows_evolves|].
    intros df1 H1. simpl in H1.
    eapply post_weaken; [apply IH|]. intros df' He.
    eapply evolves_trans; eassumption.
Qed.

Lemma mark_absent_clears (dates : list string) (date_columns : gmap string date_cols) :
  forall df,
    post (mark_absent dates date_columns df) (dates_evaluated dates date_columns).
Proof.
  induction dates as [|d dates IH]; intros df; simpl.
  - apply post_ret. intros d cols r H. inversion H.
  - destruct (date_columns !! d) as [cols|] eqn:Ed.
    + pbind;
        [apply post_and; [apply mark_absent_rows_clears | apply mark_absent_rows_evolves]|].
      intros df1 [Hc1 He1]. simpl in Hc1, He1.
      eapply post_weaken;
        [apply post_and; [apply IH | apply mark_absent_evolves]|].
      intros df' [Hrest He] d' cols' r Hd' Hcols' Hr. simpl in Hrest, He.
      apply elem_of_cons in Hd' as [->|Hd']; [|eapply Hrest; eassumption].
      assert (cols' = cols) by congruence. subst cols'.
      apply (evolves_evaluated df1 df' _ _ He), Hc1.
      rewrite <- (evolves_student_rows _ _ He1), <- (evolves_student_rows _ _ He).
      exact Hr.
    + eapply post_weaken; [apply IH|].
      intros df' Hrest d' cols' r Hd' Hcols' Hr.
      apply elem_of_cons in Hd' as [->|Hd']; [congruence|].
      eapply Hrest; eassumption.
Qed.

Lemma mark_absent_rows_noop (rows : list nat) (date : string) (cols : date_cols)
    (df : DataFrame) :
  (forall r, r ∈ rows -> evaluated df r (code_col cols)) ->
  mark_absent_rows rows date cols df = ([], Ok df).
Proof.
  induction rows as [|r rows IH]; intros H; simpl; [reflexivity|].
  destruct (H r ltac:(left)) as (v & Hv & Hns).
  rewrite Hv, M_bind_nil_Ok, Hns. apply IH.
  intros r' Hr'. apply H. right. exact Hr'.
Qed.

Lemma mark_absent_noop (dates : list string) (date_columns : gmap string date_cols)
    (df : DataFrame) :
  dates_evaluated dates date_columns df ->
  mark_absent dates date_columns df = ([], Ok df).
Proof.
  induction dates as [|d dates IH]; intros H; simpl; [reflexivity|].
  assert (Hrest : mark_absent dates date_columns df = ([], Ok df)).
  { apply IH. intros d' cols r Hd'. apply H. right. exact Hd'. }
  destruct (date_columns !! d) as [cols|] eqn:Ed; [|exact Hrest].
  rewrite (mark_absent_rows_noop _ d cols df).
  - rewrite M_bind_nil_Ok. exact Hrest.
  - intros r Hr. eapply H; [left | exact Ed | exact Hr].
Qed.

(** C8: Phase B run on its own result changes nothing and prints nothing:
    two passes are one pass, also when the first pass raises. *)
Theorem mark_absent_idempotent
    (dates : list string) (date_columns : gmap string date_cols) (df : DataFrame) :
  (df1 ← mark_absent dates date_columns df; mark_absent dates date_columns df1)
  = mark_absent dates date_columns df.
Proof.
  destruct (mark_absent dates date_columns df) as [l [df1|e]] eqn:E; [|reflexivity].
  pose proof (mark_absent_clears dates date_columns df l df1 E) as Hc.
  unfold mbind, M_bind. rewrite (mark_absent_noop _ _ _ Hc), app_nil_r.
  reflexivity.
Qed.

(** ** Phase A: applying the responses *)

Lemma calculate_attendance_code (t : datetime) (s : string) (d : Z) (c : string) (m : Z) :
  calculate_attendance t s d = Ok (c, m) ->
  c = "Y" \/ (c = "N" /\ m = 0).
Proof.
  unfold calculate_attendance.
  destruct (parse_start_time s) as [[h mi]|]; [|discriminate]. simpl.
  destruct (replace_time t h mi) as [cs|]; [|discriminate]. simpl.
  destruct (timedelta_minutes d) as [delta|]; [|discriminate]. simpl.
  destruct (datetime_add (instant cs) delta) as [class_end|]; [|discriminate]. simpl.
  destruct (_ <=? _); [intros [= <- <-]; auto|].
  destruct (_ <=? _); intros [= <- <-]; auto.
Qed.

Lemma find_student_evolves (rows : list nat) (sid date : string) (cols : date_cols)
    (t : datetime) (start : string) (d : Z) :
  forall df,
    post (find_student rows df sid date cols t start d)
         (fun res => evolves df res.1).
Proof.
  induction rows as [|r rows IH]; intros df; simpl.
  - apply post_ret, evolves_refl.
  - pbind; [apply post_trivial|]. intros cell _.
    pbind; [apply post_trivial|]. intros tsid _.
    destruct (decide (tsid = Some sid)); [|apply IH].
    pbind; [apply post_lift; intros a Ha; exact Ha|].
    intros [c m] Hcalc. simpl in Hcalc.
    pbind; [apply post_lift; intros a Ha; exact Ha|].
    intros df1 H1. simpl in H1.
    pbind; [apply post_lift; intros a Ha; exact Ha|].
    intros df2 H2. simpl in H2.
    pbind; [apply post_trivial|]. intros _ _.
    apply post_ret. simpl.
    eapply evolves_trans.
    + eapply evolves_set; [|exact H1].
      destruct (calculate_attendance_code _ _ _ _ _ Hcalc) as [->|[-> _]];
        [left | right; left]; reflexivity.
    + eapply evolves_set; [|exact H2]. right. right. eauto.
Qed.

Lemma apply_response_evolves (date_columns : gmap string date_cols)
    (start : string) (d : Z) (df : DataFrame) (f : FormRecord) :
  post (apply_response date_columns start d df f) (evolves df).
Proof.
  unfold apply_response.
  pbind; [apply post_trivial|]. intros sid _.
  destruct (date_columns !! date f) as [cols|].
  - pbind; [apply find_student_evolves|]. intros [df' found] He. simpl in He.
    destruct found.
    + apply post_ret, He.
    + pbind; [apply post_trivial|]. intros _ _. apply post_ret, He.
  - pbind; [apply post_trivial|]. intros _ _. apply post_ret, evolves_refl.
Qed.

Lemma apply_responses_evolves (date_columns : gmap string date_cols)
    (start : string) (d : Z) (forms : list FormRecord) :
  forall df, post (apply_responses date_columns start d forms df) (evolves df).
Proof.
  induction forms as [|f forms IH]; intros df; simpl.
  - apply post_ret, evolves_refl.
  - pbind; [apply apply_response_evolves|]. intros df1 H1. simpl in H1.
    eapply post_weaken; [apply IH|]. intros df' He.
    eapply evolves_trans; eassumption.
Qed.

Lemma elem_of_unique_from (seen l : list string) (x : string) :
  x ∈ unique_from seen l <-> x ∈ l /\ x ∉ seen.
Proof.
  revert seen. induction l as [|y l IH]; intros seen; simpl.
  - split; [intros H; inversion H | intros [H _]; inversion H].
  - destruct (decide (y ∈ seen)) as [Hy|Hy].
    + rewrite IH, elem_of_cons. split; [tauto|].
      intros [[->|H] Hn]; [contradiction | auto].
    + rewrite !elem_of_cons, IH, elem_of_cons. split.
      * intros [->|[H Hn]]; [auto|]. split; [auto|]. intros Hs. apply Hn. auto.
      * intros [[->|H] Hn]; [auto|].
        destruct (decide (x = y)) as [->|Hne]; [auto|].
        right. split; [exact H|]. intros [?|?]; [contradiction | contradiction].
Qed.

Lemma elem_of_dates_in_forms (forms : list FormRecord) (d : string) :
  d ∈ dates_in_forms forms <-> exists f, f ∈ forms /\ date f = d.
Proof.
  unfold dates_in_forms. rewrite elem_of_unique_from. split.
  - intros [H _]. apply list_elem_of_fmap in H as (f & -> & Hf). eauto.
  - intros (f & Hf & <-). split; [|intros H; inversion H].
    apply list_elem_of_fmap. eauto.
Qed.

Lemma elem_of_student_rows (df : DataFrame) (r : nat) :
  r ∈ student_rows df <-> (5 <= r < nrows df)%nat.
Proof. unfold student_rows. rewrite elem_of_seq. lia. Qed.

Lemma update_attendance_data_evolves (forms : list FormRecord) (df : DataFrame)
    (date_columns : gmap string date_cols) (start : string) (d : Z) :
  post (update_attendance_data forms df date_columns start d)
       (fun df' => evolves df df'
                   /\ dates_evaluated (dates_in_forms forms) date_columns df').
Proof.
  unfold update_attendance_data.
  pbind; [apply apply_responses_evolves|]. intros df1 H1. simpl in H1.
  eapply post_weaken;
    [apply post_and; [apply mark_absent_evolves | apply mark_absent_clears]|].
  intros df' [He Hc]. split; [eapply evolves_trans; eassumption | exact Hc].
Qed.

(** ** The attendance cell pairs *)

Lemma pairs_ok_refl (date_columns : gmap string date_cols) (df : DataFrame) :
  pairs_ok date_columns df df.
Proof. intros d cols r _. left. auto. Qed.

Lemma pair_write_ok (date_columns : gmap string date_cols) (df0 df df1 df2 : DataFrame)
    (d0 : string) (cols0 : date_cols) (r0 : nat) (c : string) (m : Z) :
  disjoint_layout date_columns ->
  date_columns !! d0 = Some cols0 ->
  pairs_ok date_columns df0 df ->
  iloc_set df r0 (code_col cols0) (VStr c) = Ok df1 ->
  iloc_set df1 r0 (minutes_col cols0) (VInt m) = Ok df2 ->
  c = "Y" \/ (c = "N" /\ m = 0) ->
  pairs_ok date_columns df0 df2.
Proof.
  intros HL Hd0 Hok H1 H2 Hc d cols r Hd.
  unfold cell_state.
  rewrite !(iloc_get_set _ _ _ _ _ r _ H2), !(iloc_get_set _ _ _ _ _ r _ H1).
  destruct (decide (r = r0)) as [->|Hr].
  2:{ rewrite !decide_False by tauto. apply (Hok d cols r Hd). }
  destruct (HL _ _ _ _ Hd Hd0) as [Hcm [->|[Hcc Hmm]]].
  - rewrite (decide_False (P := r0 = r0 /\ code_col cols0 = minutes_col cols0)) by tauto.
    rewrite !decide_True by auto.
    destruct Hc as [->|[-> ->]]; [right; left; eauto | right; right; auto].
  - destruct (HL _ _ _ _ Hd0 Hd) as [Hcm' _].
    rewrite !decide_False by (intros [_ E]; congruence).
    apply (Hok d cols r0 Hd).
Qed.

Lemma find_student_pairs_ok (date_columns : gmap string date_cols) (df0 : DataFrame)
    (rows : list nat) (sid date : string) (cols : date_cols)
    (t : datetime) (start : string) (d : Z) :
  disjoint_layout date_columns -> date_columns !! date = Some cols ->
  forall df, pairs_ok date_columns df0 df ->
    post (find_student rows df sid date cols t start d)
         (fun res => pairs_ok date_columns df0 res.1).
Proof.
  intros HL Hd. induction rows as [|r rows IH]; intros df Hok; simpl.
  - apply post_ret, Hok.
  - pbind; [apply post_trivial|]. intros cell _.
    pbind; [apply post_trivial|]. intros tsid _.
    destruct (decide (tsid = Some sid)); [|apply IH, Hok].
    pbind; [apply post_lift; intros a Ha; exact Ha|].
    intros [c m] Hcalc. simpl in Hcalc.
    pbind; [apply post_lift; intros a Ha; exact Ha|].
    intros df1 H1. simpl in H1.
    pbind; [apply post_lift; intros a Ha; exact Ha|].
    intros df2 H2. simpl in H2.
    pbind; [apply post_trivial|]. intros _ _.
    apply post_ret. simpl.
    eapply pair_write_ok; try eassumption.
    eapply calculate_attendance_code, Hcalc.
Qed.

Lemma apply_responses_pairs_ok (date_columns : gmap string date_cols) (df0 : DataFrame)
    (start : string) (d : Z) (forms : list FormRecord) :
  disjoint_layout date_columns ->
  forall df, pairs_ok date_columns df0 df ->
    post (apply_responses date_columns start d forms df)
         (pairs_ok date_columns df0).
Proof.
  intros HL. induction forms as [|f forms IH]; intros df Hok; simpl.
  - apply post_ret, Hok.
  - pbind; [|intros df1 H1; apply IH, H1].
    unfold apply_response.
    pbind; [apply post_trivial|]. intros sid _.
    destruct (date_columns !! date f) as [cols|] eqn:Ed.
    + pbind; [apply (find_student_pairs_ok date_columns df0); eassumption|].
      intros [df' found] H'. simpl in H'.
      destruct found.
      * apply post_ret, H'.
      * pbind; [apply post_trivial|]. intros _ _. apply post_ret, H'.
    + pbind; [apply post_trivial|]. intros _ _. apply post_ret, Hok.
Qed.

Lemma mark_absent_rows_pairs_ok (date_columns : gmap string date_cols) (df0 : DataFrame)
    (rows : list nat) (date : string) (cols : date_cols) :
  disjoint_layout date_columns -> date_columns !! date = Some cols ->
  forall df, pairs_ok date_columns df0 df ->
    post (mark_absent_rows rows date cols df) (pairs_ok date_columns df0).
Proof.
  intros HL Hd. induction rows as [|r rows IH]; intros df Hok; simpl.
  - apply post_ret, Hok.
  - pbind; [apply post_trivial|]. intros cur _.
    destruct (eq_str cur "--"); [|apply IH, Hok].
    pbind; [apply post_lift; intros a Ha; exact Ha|].
    intros df1 H1. simpl in H1.
    pbind; [apply post_lift; intros a Ha; exact Ha|].
    intros df2 H2. simpl in H2.
    pbind; [apply post_trivial|]. intros st _.
    pbind; [apply post_trivial|]. intros _ _.
    apply IH. eapply pair_write_ok; try eassumption. right. auto.
Qed.

Lemma mark_absent_pairs_ok (date_columns : gmap string date_cols) (df0 : DataFrame)
    (dates : list string) :
  disjoint_layout date_columns ->
  forall df, pairs_ok date_columns df0 df ->
    post (mark_absent dates date_columns df) (pairs_ok date_columns df0).
Proof.
  intros HL. induction dates as [|d dates IH]; intros df Hok; simpl.
  - apply post_ret, Hok.
  - destruct (date_columns !! d) as [cols|] eqn:Ed; [|apply IH, Hok].
    pbind; [eapply mark_absent_rows_pairs_ok; eassumption|].
    intros df1 H1. apply IH, H1.
Qed.

Lemma eq_str_false (v : value) (s : string) : eq_str v s = false <-> v <> VStr s.
Proof.
  destruct v as [|s'| | |]; simpl; try (split; [discriminate | reflexivity]).
  destruct (String.eqb_spec s' s); split; congruence.
Qed.

(** ** The reconciler: both passes *)

(** The student row with a blank cell in the code column of a processed
    date still holds the blank after both passes: neither a computed code
    nor ['N']. *)
Lemma update_attendance_data_keeps_blank_cell :
  (exists f, f ∈ sample_forms /\ date f = "26/11") /\
  sample_date_columns !! "26/11" = Some (mk_date_cols 5 6) /\
  match (update_attendance_data sample_forms sample_template
           sample_date_columns "13:00" 180).2 with
  | Ok df' => iloc_get df' 7 5 = Ok VNaN /\ iloc_get df' 7 6 = Ok VNaN
  | Raise _ => False
  end.
Proof.
  split; [|split; [reflexivity | vm_compute; auto]].
  eexists. split; [left | reflexivity].
Qed.

(** C3, amended: when the two passes return, no student row holds the
    sentinel in the code column of a date that occurs in the form data and
    in the map; and when the column pairs of the map do not overlap, each of
    these cells is either as the template had it, with its minutes cell, or
    ['Y'] with an integer number of minutes, or ['N'] with minutes 0. *)
Theorem update_attendance_data_evaluates
    (forms : list FormRecord) (template : DataFrame)
    (date_columns : gmap string date_cols) (start : string) (duration : Z)
    (l : list event) (df' : DataFrame) :
  update_attendance_data forms template date_columns start duration = (l, Ok df') ->
  nrows df' = nrows template /\
  (forall f cols r,
     f ∈ forms -> date_columns !! date f = Some cols ->
     (5 <= r < nrows template)%nat ->
     exists v, iloc_get df' r (code_col cols) = Ok v /\ v <> VStr "--") /\
  (disjoint_layout date_columns ->
   forall f cols r,
     f ∈ forms -> date_columns !! date f = Some cols ->
     (5 <= r < nrows template)%nat ->
     cell_state template df' r cols).
Proof.
  intros H.
  destruct (update_attendance_data_evolves _ _ _ _ _ _ _ H) as [He Hc].
  split; [apply evolves_nrows, He|]. split.
  - intros f cols r Hf Hd Hr.
    destruct (Hc (date f) cols r) as (v & Hv & Hns).
    + apply elem_of_dates_in_forms. eauto.
    + exact Hd.
    + apply elem_of_student_rows. rewrite (evolves_nrows _ _ He). exact Hr.
    + exists v. split; [exact Hv | apply eq_str_false, Hns].
  - intros HL f cols r _ Hd _.
    assert (Hpost : post (update_attendance_data forms template date_columns start duration)
                         (pairs_ok date_columns template)).
    { unfold update_attendance_data.
      pbind; [apply (apply_responses_pairs_ok _ template _ _ _ HL), pairs_ok_refl|].
      intros df1 H1. apply (mark_absent_pairs_ok _ template _ HL), H1. }
    exact (Hpost _ _ H _ _ r Hd).
Qed.

Lemma sample_layout_disjoint : disjoint_layout sample_date_columns.
Proof.
  intros d1 d2 c1 c2 H1 H2. unfold sample_date_columns in *.
  apply lookup_singleton_Some in H1 as [_ <-].
  apply lookup_singleton_Some in H2 as [_ <-].
  simpl. split; [lia | left; reflexivity].
Qed.

Lemma update_attendance_data_evaluates_witness :
  exists l df',
    update_attendance_data sample_forms sample_template sample_date_columns
      "13:00" 180 = (l, Ok df') /\
    nrows df' = nrows sample_template /\
    (forall f cols r,
       f ∈ sample_forms -> sample_date_columns !! date f = Some cols ->
       (5 <= r < nrows sample_template)%nat ->
       exists v, iloc_get df' r (code_col cols) = Ok v /\ v <> VStr "--") /\
    (forall f cols r,
       f ∈ sample_forms -> sample_date_columns !! date f = Some cols ->
       (5 <= r < nrows sample_template)%nat ->
       cell_state sample_template df' r cols).
Proof.
  eexists _, _. split; [vm_compute; reflexivity|].
  edestruct (update_attendance_data_evaluates sample_forms sample_template
               sample_date_columns "13:00" 180) as (Hn & Hs & Hc);
    [vm_compute; reflexivity|].
  split; [exact Hn|]. split; [exact Hs|].
  exact (Hc sample_layout_disjoint).
Defined.

Example update_attendance_data_sample :
  update_attendance_data sample_forms sample_template sample_date_columns "13:00" 180
  = ([Updated "4186054" "26/11" "Y" 165; WarnStudentNotFound "5550000";
      WarnDateNotFound "3/12" "4019025"; MarkedAbsent (VInt 3992383) "26/11"],
     Ok (mk_df 7
       [ [VStr "Attendance"; VNaN; VNaN; VNaN; VNaN; VNaN; VNaN];
         [VNaN; VNaN; VNaN; VNaN; VNaN; VNaN; VNaN];
         [VNaN; VNaN; VNaN; VNaN; VNaN; VNaN; VNaN];
         [VNaN; VNaN; VNaN; VNaN; VNaN; VStr "26/11"; VNaN];
         [VStr "ID"; VStr "Name"; VNaN; VNaN; VNaN; VStr "Code"; VStr "Minutes"];
         [VInt 4186054; VStr "An"; VNaN; VNaN; VNaN; VStr "Y"; VInt 165];
         [VInt 3992383; VStr "Binh"; VNaN; VNaN; VNaN; VStr "N"; VInt 0];
         [VInt 123; VStr "Chi"; VNaN; VNaN; VNaN; VNaN; VNaN] ])).
Proof. vm_compute. reflexivity. Qed.


(** ** Matching identifiers *)

Lemma zeros_digits (k : nat) (s : string) :
  string_forall is_ascii_digit (zeros k +:+ s) = string_forall is_ascii_digit s
  /\ digits_value 0 (zeros k +:+ s) = digits_value 0 s.
Proof.
  induction k as [|k [IH1 IH2]]; [split; reflexivity|].
  simpl zeros. rewrite string_app_cons. simpl. rewrite IH1.
  split; [reflexivity|]. exact IH2.
Qed.

Lemma int_of_float_of_id_zeros (k : nat) (s : string) :
  s <> EmptyString ->
  int_of_float_of_id (zeros k +:+ s) = int_of_float_of_id s.
Proof.
  intros Hne. unfold int_of_float_of_id.
  destruct (zeros_digits k s) as [H1 H2]. rewrite H1, H2.
  destruct s as [|c r]; [congruence|].
  destruct k; [reflexivity|]. simpl zeros. rewrite string_app_cons. reflexivity.
Qed.

Lemma int_of_float_of_id_exact (s : string) :
  string_forall is_ascii_digit s = true -> s <> EmptyString ->
  digits_value 0 s < 2 ^ 53 ->
  int_of_float_of_id s = Ok (digits_value 0 s).
Proof.
  intros Hd Hne Hlt. unfold int_of_float_of_id, round_to_double.
  destruct s as [|c r]; [congruence|]. rewrite Hd.
  destruct (Z.ltb_spec (digits_value 0 (String c r)) (2 ^ 53)); [reflexivity | lia].
Qed.

Lemma template_student_id_match (cell : value) (n z : Z) :
  notna cell = true -> py_int cell = Ok z ->
  (template_student_id cell = Ok (Some (pretty n)) <-> z = n).
Proof.
  intros Hna Hz. unfold template_student_id. rewrite Hna, Hz. simpl. split.
  - intros [= H]. apply (inj pretty) in H. exact H.
  - intros ->. reflexivity.
Qed.

(** C10: the reconciler compares the integer read from the form id (through
    float and int) with the integer read from the roster cell, not the
    texts: a roster cell matches exactly when the two integers are equal;
    the form id "0123" matches the roster value 123 and the row is updated;
    leading zeros never change the integer read from a form id; and below
    2^53 that integer is the decimal value of the id. *)
Theorem reconciler_matches_integers :
  (forall sid cell n z,
     int_of_float_of_id sid = Ok n -> notna cell = true -> py_int cell = Ok z ->
     (template_student_id cell = Ok (Some (pretty n)) <-> z = n)) /\
  (forall k s, s <> EmptyString ->
     int_of_float_of_id (zeros k +:+ s) = int_of_float_of_id s) /\
  (forall s, string_forall is_ascii_digit s = true -> s <> EmptyString ->
     digits_value 0 s < 2 ^ 53 ->
     int_of_float_of_id s = Ok (digits_value 0 s)) /\
  "0123" <> "123" /\
  (let form := mk_form_record "0123" "26/11" (mk_datetime 2024 11 26 13 15 0 0) in
   exists df',
     update_attendance_data [form] sample_template sample_date_columns "13:00" 180
     = ([Updated "123" "26/11" "Y" 165;
         MarkedAbsent (VInt 4186054) "26/11";
         MarkedAbsent (VInt 3992383) "26/11"], Ok df')
     /\ iloc_get sample_template 7 0 = Ok (VInt 123)
     /\ iloc_get df' 7 5 = Ok (VStr "Y")
     /\ iloc_get df' 7 6 = Ok (VInt 165)).
Proof.
  split; [|split; [|split; [|split]]].
  - intros sid cell n z _. apply template_student_id_match.
  - apply int_of_float_of_id_zeros.
  - apply int_of_float_of_id_exact.
  - discriminate.
  - eexists. split; [vm_compute; reflexivity|].
    repeat split; vm_compute; reflexivity.
Qed.

Example int_of_float_of_id_rounds :
  int_of_float_of_id "9007199254740993" = Ok 9007199254740992.
Proof. vm_compute. reflexivity. Qed.

(** ** Computations that return *)

Lemma total_bind {A B} (m : M A) (f : A -> M B) (P : A -> Prop) (Q : B -> Prop) :
  total m P -> (forall a, P a -> total (f a) Q) -> total (m ≫= f) Q.
Proof.
  intros (l1 & a & -> & Ha) Hf. destruct (Hf a Ha) as (l2 & b & Hb & HQ).
  exists (l1 ++ l2)%list, b. split; [|exact HQ].
  unfold mbind, M_bind. rewrite Hb. reflexivity.
Qed.

Lemma total_ret {A} (a : A) (Q : A -> Prop) : Q a -> total (mret a) Q.
Proof. intros H. exists [], a. auto. Qed.

Lemma total_lift {A} (r : result A) (a : A) (Q : A -> Prop) :
  r = Ok a -> Q a -> total (lift r) Q.
Proof. intros -> H. exists [], a. auto. Qed.

Lemma total_print (ev : event) (Q : unit -> Prop) : Q tt -> total (print ev) Q.
Proof. intros H. exists [ev], tt. auto. Qed.


Ltac tbind :=
  lazymatch goal with
  | |- total (?m ≫= ?f) ?Q => refine (total_bind m f _ Q _ _)
  | |- total (M_bind _ _ ?f ?m) ?Q => refine (total_bind m f _ Q _ _)
  end.

Lemma calculate_attendance_total (t : datetime) (s : string) (d : Z) :
  valid_start_time s = true -> class_end_fits s d t ->
  exists c m, calculate_attendance t s d = Ok (c, m).
Proof.
  intros Hv Hfit. destruct (valid_start_time_shape s Hv) as (h & mi & Hs).
  rewrite (calculate_attendance_unfold t s d h mi Hs
             (Hfit h mi (parse_start_time_shape _ _ _ Hs))).
  destruct (_ <=? _); [eauto|]. destruct (_ <=? _); eauto.
Qed.

Lemma iloc_set_defined (df : DataFrame) (r c : nat) (v : value) :
  (exists v0, iloc_get df r c = Ok v0) -> exists df', iloc_set df r c v = Ok df'.
Proof.
  intros (v0 & H). apply iloc_get_Ok in H as (row & Hrow & Hc).
  unfold iloc_set. rewrite Hrow, Hc. eauto.
Qed.

Lemma in_progress_refl (df : DataFrame) : in_progress df df.
Proof. split; [apply evolves_refl | reflexivity]. Qed.

Lemma in_progress_set (template df df' : DataFrame) (r c : nat) (v : value) :
  in_progress template df -> written_kind v -> c <> 0%nat ->
  iloc_set df r c v = Ok df' -> in_progress template df'.
Proof.
  intros [He H0] Hw Hc Hset. split.
  - eapply evolves_trans; [exact He | eapply evolves_set; eassumption].
  - intros r'. rewrite (iloc_get_set _ _ _ _ _ r' 0%nat Hset).
    rewrite decide_False by (intros [_ E]; congruence). apply H0.
Qed.

(** What the template gives a frame in progress: the cells the passes
    touch exist, and the identifier cells convert. *)
Lemma in_progress_ready (date_columns : gmap string date_cols)
    (template df : DataFrame) :
  wf_df template -> cols_in_range date_columns template ->
  ids_convertible template -> in_progress template df ->
  student_rows df = student_rows template /\
  (forall r, r ∈ student_rows template ->
     exists v, iloc_get df r 0%nat = Ok v /\ (v = VNaN \/ exists z, py_int v = Ok z)) /\
  (forall d cols r, date_columns !! d = Some cols -> r ∈ student_rows template ->
     (exists v, iloc_get df r (code_col cols) = Ok v) /\
     (exists v, iloc_get df r (minutes_col cols) = Ok v)).
Proof.
  intros Hwf Hcols Hids [He H0].
  split; [apply evolves_student_rows, He|]. split.
  - intros r Hr. rewrite H0. apply Hids, Hr.
  - intros d cols r Hd Hr. destruct (Hcols d cols Hd) as [Hc Hm].
    apply elem_of_student_rows in Hr.
    split; apply (evolves_defined template df _ _ He), iloc_get_wf; auto; lia.
Qed.

Ltac tlift H :=
  lazymatch type of H with
  | _ = Ok ?v =>
      tbind; [exact (total_lift _ v (fun a => a = v) H eq_refl) | intros ? ->]
  end.

Ltac tprint :=
  tbind; [apply (total_print _ (fun _ => True)); exact I | intros _ _].

Section RunReturns.

Variable date_columns : gmap string date_cols.
Variable template : DataFrame.
Variable start : string.
Variable duration : Z.

Hypothesis template_wf : wf_df template.
Hypothesis columns_ok : cols_in_range date_columns template.
Hypothesis ids_ok : ids_convertible template.
Hypothesis start_ok : valid_start_time start = true.

Lemma template_student_id_total (v : value) :
  v = VNaN \/ (exists z, py_int v = Ok z) ->
  exists o, template_student_id v = Ok o.
Proof.
  unfold template_student_id. intros [->|(z & Hz)]; [simpl; eauto|].
  destruct (notna v); [rewrite Hz; simpl|]; eauto.
Qed.

Lemma find_student_total (rows : list nat) (sid date : string) (cols : date_cols)
    (t : datetime) :
  class_end_fits start duration t ->
  date_columns !! date = Some cols ->
  (forall r, r ∈ rows -> r ∈ student_rows template) ->
  forall df, in_progress template df ->
    total (find_student rows df sid date cols t start duration)
          (fun res => in_progress template res.1).
Proof.
  intros Hfit Hd. induction rows as [|r rows IH]; intros Hrows df Hp; simpl.
  - apply total_ret, Hp.
  - destruct (in_progress_ready _ _ _ template_wf columns_ok ids_ok Hp)
      as (_ & Hid & Hcells).
    assert (Hr : r ∈ student_rows template) by (apply Hrows; left).
    destruct (Hid r Hr) as (v & Hv & Hconv).
    destruct (template_student_id_total v Hconv) as [o Ho].
    tlift Hv. tlift Ho.
    destruct (decide (o = Some sid)).
    2:{ apply IH; [|exact Hp]. intros r' Hr'. apply Hrows. right. exact Hr'. }
    destruct (calculate_attendance_total t start duration start_ok Hfit)
      as (c & m & Hcalc).
    tlift Hcalc.
    destruct (columns_ok _ _ Hd) as [Hcc Hmc].
    destruct (iloc_set_defined df r (code_col cols) (VStr c)) as [df1 H1];
      [apply (Hcells _ _ _ Hd Hr)|].
    assert (Hp1 : in_progress template df1).
    { refine (in_progress_set _ _ _ _ _ _ Hp _ _ H1); [|lia].
      destruct (calculate_attendance_code _ _ _ _ _ Hcalc) as [->|[-> _]];
        [left | right; left]; reflexivity. }
    destruct (in_progress_ready _ _ _ template_wf columns_ok ids_ok Hp1)
      as (_ & _ & Hcells1).
    destruct (iloc_set_defined df1 r (minutes_col cols) (VInt m)) as [df2 H2];
      [apply (Hcells1 _ _ _ Hd Hr)|].
    tlift H1. tlift H2. tprint.
    apply total_ret. simpl.
    refine (in_progress_set _ _ _ _ _ _ Hp1 _ _ H2); [|lia].
    right. right. eauto.
Qed.

Lemma student_rows_in_progress (df : DataFrame) :
  in_progress template df -> student_rows df = student_rows template.
Proof. intros [He _]. apply evolves_student_rows, He. Qed.

Lemma apply_response_total (df : DataFrame) (f : FormRecord) :
  plain_id (student_id f) -> class_end_fits start duration (completion_time f) ->
  in_progress template df ->
  total (apply_response date_columns start duration df f) (in_progress template).
Proof.
  intros (Hd & Hne & Hlt) Hfit Hp. unfold apply_response.
  tlift (int_of_float_of_id_exact _ Hd Hne Hlt).
  destruct (date_columns !! date f) as [cols|] eqn:Ed.
  - tbind.
    + apply (find_student_total _ _ _ _ _ Hfit Ed); [|exact Hp].
      intros r Hr. rewrite <- (student_rows_in_progress df Hp). exact Hr.
    + intros [df' found] Hp'. simpl in Hp'. destruct found.
      * apply total_ret, Hp'.
      * tprint. apply total_ret, Hp'.
  - tprint. apply total_ret, Hp.
Qed.

Lemma apply_responses_total (forms : list FormRecord) :
  (forall f, f ∈ forms ->
     plain_id (student_id f) /\ class_end_fits start duration (completion_time f)) ->
  forall df, in_progress template df ->
    total (apply_responses date_columns start duration forms df)
          (in_progress template).
Proof.
  induction forms as [|f forms IH]; intros Hids df Hp; simpl.
  - apply total_ret, Hp.
  - destruct (Hids f ltac:(left)) as [Hid Hfit].
    tbind; [apply apply_response_total; assumption|].
    intros df1 Hp1. apply IH; [|exact Hp1].
    intros f' Hf'. apply Hids. right. exact Hf'.
Qed.

Lemma mark_absent_rows_total (rows : list nat) (date : string) (cols : date_cols) :
  date_columns !! date = Some cols ->
  (forall r, r ∈ rows -> r ∈ student_rows template) ->
  forall df, in_progress template df ->
    total (mark_absent_rows rows date cols df) (in_progress template).
Proof.
  intros Hd. induction rows as [|r rows IH]; intros Hrows df Hp; simpl.
  - apply total_ret, Hp.
  - destruct (in_progress_ready _ _ _ template_wf columns_ok ids_ok Hp)
      as (_ & Hid & Hcells).
    assert (Hr : r ∈ student_rows template) by (apply Hrows; left).
    assert (Hrest : forall r', r' ∈ rows -> r' ∈ student_rows template)
      by (intros r' Hr'; apply Hrows; right; exact Hr').
    destruct (Hcells _ _ _ Hd Hr) as [(cur & Hcur) _].
    tlift Hcur.
    destruct (eq_str cur "--"); [|apply IH; assumption].
    destruct (columns_ok _ _ Hd) as [Hcc Hmc].
    destruct (iloc_set_defined df r (code_col cols) (VStr "N")) as [df1 H1];
      [apply (Hcells _ _ _ Hd Hr)|].
    assert (Hp1 : in_progress template df1).
    { refine (in_progress_set _ _ _ _ _ _ Hp _ _ H1); [|lia].
      right. left. reflexivity. }
    destruct (in_progress_ready _ _ _ template_wf columns_ok ids_ok Hp1)
      as (_ & _ & Hcells1).
    destruct (iloc_set_defined df1 r (minutes_col cols) (VInt 0)) as [df2 H2];
      [apply (Hcells1 _ _ _ Hd Hr)|].
    assert (Hp2 : in_progress template df2).
    { refine (in_progress_set _ _ _ _ _ _ Hp1 _ _ H2); [|lia].
      right. right. eauto. }
    destruct (in_progress_ready _ _ _ template_wf columns_ok ids_ok Hp2)
      as (_ & Hid2 & _).
    destruct (Hid2 r Hr) as (st & Hst & _).
    tlift H1. tlift H2. tlift Hst. tprint.
    apply IH; assumption.
Qed.

Lemma mark_absent_total (dates : list string) :
  forall df, in_progress template df ->
    total (mark_absent dates date_columns df) (in_progress template).
Proof.
  induction dates as [|d dates IH]; intros df Hp; simpl.
  - apply total_ret, Hp.
  - destruct (date_columns !! d) as [cols|] eqn:Ed; [|apply IH, Hp].
    tbind; [|intros df1 Hp1; apply IH, Hp1].
    apply (mark_absent_rows_total _ _ _ Ed); [|exact Hp].
    intros r Hr. rewrite <- (student_rows_in_progress df Hp). exact Hr.
Qed.

Lemma update_attendance_data_total (forms : list FormRecord) :
  (forall f, f ∈ forms ->
     plain_id (student_id f) /\ class_end_fits start duration (completion_time f)) ->
  total (update_attendance_data forms template date_columns start duration)
        (in_progress template).
Proof.
  intros Hids. unfold update_attendance_data.
  tbind; [apply apply_responses_total; [exact Hids | apply in_progress_refl]|].
  intros df1 Hp1. apply mark_absent_total, Hp1.
Qed.

End RunReturns.

(** ** Recoverable conditions *)

Lemma index_dates_no_labels (date_row : list value) :
  (forall v, v ∈ date_row -> date_label v = None) ->
  forall k m, index_dates k date_row m = m.
Proof.
  induction date_row as [|v rest IH]; intros H k m; simpl; [reflexivity|].
  rewrite (H v) by left. apply IH. intros v' Hv'. apply H. right. exact Hv'.
Qed.

Lemma read_template_file_no_labels (df : DataFrame) (date_row subheader_row : list value) :
  data df !! 3%nat = Some date_row ->
  data df !! 4%nat = Some subheader_row ->
  (forall v, v ∈ date_row -> date_label v = None) ->
  read_template_file df = ([], Ok (df, ∅)).
Proof.
  intros H3 H4 Hn. unfold read_template_file, iloc_row.
  rewrite H3, H4. simpl. rewrite (index_dates_no_labels _ Hn). reflexivity.
Qed.

Lemma read_template_file_short (df : DataFrame) :
  (nrows df < 5)%nat ->
  read_template_file df = ([ErrorReadingTemplate IndexError], Raise IndexError).
Proof.
  intros H. unfold read_template_file, iloc_row, nrows in *.
  destruct (data df !! 3%nat) as [r3|] eqn:E3; [|reflexivity].
  rewrite (lookup_ge_None_2 (data df) 4) by lia. reflexivity.
Qed.

Lemma read_forms_data_skips (row : FormRow) (rest : list FormRow) :
  (extract_student_id (Email row)).2 = None ->
  read_forms_data (row :: rest)
  = (((extract_student_id (Email row)).1 ++ (read_forms_data rest).1)%list,
     (read_forms_data rest).2).
Proof.
  intros H. simpl. destruct (extract_student_id (Email row)) as [l1 sid].
  simpl in H. subst sid. destruct (read_forms_data rest). reflexivity.
Qed.

Lemma apply_response_unmatched_date (date_columns : gmap string date_cols)
    (start : string) (d : Z) (df : DataFrame) (f : FormRecord) (n : Z) :
  int_of_float_of_id (student_id f) = Ok n ->
  date_columns !! date f = None ->
  apply_response date_columns start d df f
  = ([WarnDateNotFound (date f) (pretty n)], Ok df).
Proof. intros Hn Hd. unfold apply_response. rewrite Hn, Hd. reflexivity. Qed.

Lemma find_student_unmatched (rows : list nat) (df : DataFrame)
    (n : Z) (date : string) (cols : date_cols)
    (t : datetime) (start : string) (d : Z) :
  (forall r, r ∈ rows ->
     exists v, iloc_get df r 0%nat = Ok v /\
               (v = VNaN \/ exists z, py_int v = Ok z /\ z <> n)) ->
  find_student rows df (pretty n) date cols t start d = ([], Ok (df, false)).
Proof.
  induction rows as [|r rows IH]; intros H; simpl; [reflexivity|].
  destruct (H r ltac:(left)) as (v & Hv & Hcase).
  rewrite Hv, M_bind_nil_Ok.
  assert (Ht : exists o, template_student_id v = Ok o /\ o <> Some (pretty n)).
  { unfold template_student_id. destruct Hcase as [->|(z & Hz & Hne)].
    - simpl. eexists. split; [reflexivity | discriminate].
    - destruct (notna v).
      + rewrite Hz. simpl. eexists. split; [reflexivity|].
        intros [= E]. apply (inj pretty) in E. contradiction.
      + eexists. split; [reflexivity | discriminate]. }
  destruct Ht as (o & -> & Hne). rewrite M_bind_nil_Ok.
  rewrite decide_False by exact Hne.
  apply IH. intros r' Hr'. apply H. right. exact Hr'.
Qed.

Lemma apply_response_unmatched_student (date_columns : gmap string date_cols)
    (start : string) (d : Z) (df : DataFrame) (f : FormRecord) (n : Z)
    (cols : date_cols) :
  int_of_float_of_id (student_id f) = Ok n ->
  date_columns !! date f = Some cols ->
  (forall r, r ∈ student_rows df ->
     exists v, iloc_get df r 0%nat = Ok v /\
               (v = VNaN \/ exists z, py_int v = Ok z /\ z <> n)) ->
  apply_response date_columns start d df f
  = ([WarnStudentNotFound (pretty n)], Ok df).
Proof.
  intros Hn Hd Hrows. unfold apply_response. rewrite Hn, Hd. simpl.
  rewrite M_bind_nil_Ok, (find_student_unmatched _ _ _ _ _ _ _ _ Hrows).
  reflexivity.
Qed.

Lemma wf_df_evolves (df df' : DataFrame) : wf_df df -> evolves df df' -> wf_df df'.
Proof.
  unfold wf_df. intros Hwf (Hn & Hs & _). rewrite Hn.
  assert (H : forall l : list (list value),
             Forall (fun row => length row = ncols df) l
             <-> Forall (fun n => n = ncols df) (map length l)).
  { intros l. symmetry. apply (Forall_fmap length (fun n => n = ncols df)). }
  apply H. rewrite Hs. apply H, Hwf.
Qed.

Lemma read_forms_data_plain (form_rows : list FormRow) :
  (forall row sid, row ∈ form_rows ->
     (extract_student_id (Email row)).2 = Some sid -> plain_id sid) ->
  forall f, f ∈ (read_forms_data form_rows).2 -> plain_id (student_id f).
Proof.
  induction form_rows as [|row rest IH]; intros H f Hf; simpl in Hf.
  - inversion Hf.
  - destruct (extract_student_id (Email row)) as [l1 sid] eqn:E.
    destruct (read_forms_data rest) as [l2 recs] eqn:Er.
    assert (Hrest : forall f, f ∈ recs -> plain_id (student_id f)).
    { intros f' Hf'. apply IH; [|exact Hf'].
      intros row' sid' Hrow'. apply H. right. exact Hrow'. }
    destruct sid as [s|]; simpl in Hf; [|apply Hrest, Hf].
    apply elem_of_cons in Hf as [->|Hf]; [|apply Hrest, Hf].
    simpl. apply (H row s); [left | rewrite E; reflexivity].
Qed.

Lemma read_forms_data_completion (P : datetime -> Prop) (form_rows : list FormRow) :
  (forall row, row ∈ form_rows -> P (Completion_time row)) ->
  forall f, f ∈ (read_forms_data form_rows).2 -> P (completion_time f).
Proof.
  induction form_rows as [|row rest IH]; intros H f Hf; simpl in Hf.
  - inversion Hf.
  - destruct (extract_student_id (Email row)) as [l1 sid] eqn:E.
    destruct (read_forms_data rest) as [l2 recs] eqn:Er.
    assert (Hrest : forall f, f ∈ recs -> P (completion_time f)).
    { intros f' Hf'. apply IH; [|exact Hf'].
      intros row' Hrow'. apply H. right. exact Hrow'. }
    destruct sid as [s|]; simpl in Hf; [|apply Hrest, Hf].
    apply elem_of_cons in Hf as [->|Hf]; [|apply Hrest, Hf].
    simpl. apply H. left.
Qed.

Lemma header_inside_cols_in_range (df : DataFrame) (date_row : list value) :
  wf_df df -> header_inside df -> data df !! 3%nat = Some date_row ->
  cols_in_range (index_dates 0 date_row ∅) df.
Proof.
  intros Hwf Hh H3 d cols Hd.
  apply index_dates_lookup in Hd as [(i & (Hi & Hc & _) & ->) | [_ Hd]];
    [|rewrite lookup_empty in Hd; discriminate].
  simpl.
  assert (Hlen : length date_row = ncols df).
  { eapply (proj1 (Forall_lookup _ _) Hwf), H3. }
  assert (Hlab : date_label (VStr d) = Some d) by (simpl; rewrite Hc; reflexivity).
  assert (Hi0 : i <> 0%nat).
  { intros ->. rewrite (Hh date_row (VStr d) H3) in Hlab; [discriminate | auto]. }
  assert (Hil : S i <> length date_row).
  { intros E. rewrite (Hh date_row (VStr d) H3) in Hlab; [discriminate|].
    right. rewrite last_lookup, <- E. exact Hi. }
  apply lookup_lt_Some in Hi. lia.
Qed.

Lemma save_updated_template_returns (float_repr : Q -> string)
    (numpy_column : nat -> bool) (df rs : DataFrame) :
  wf_df df -> wf_df rs ->
  exists out, save_updated_template float_repr numpy_column df rs = Ok out.
Proof.
  intros Hdf Hrs.
  destruct (collect_writes_spec float_repr numpy_column df rs (positions df) Hrs)
    as (ws & Hws & _).
  { intros r c H. apply elem_of_positions in H as [Hr Hc].
    apply (iloc_get_wf df r c Hdf Hr Hc). }
  unfold save_updated_template. rewrite Hws. simpl. eauto.
Qed.

Lemma extract_student_id_warns (e : string) :
  (extract_student_id (VStr e)).2 = None ->
  (extract_student_id (VStr e)).1 = [WarnNonNumericId e].
Proof.
  unfold extract_student_id.
  destruct (py_isdigit _); simpl; [discriminate | reflexivity].
Qed.

Lemma run_returns (float_repr : Q -> string) (numpy_column : nat -> bool)
    (form_rows : list FormRow)
    (template rs : DataFrame) (start : string) (duration : Z) :
  wf_df template -> wf_df rs -> (5 <= nrows template)%nat ->
  header_inside template -> ids_convertible template ->
  (forall row sid, row ∈ form_rows ->
     (extract_student_id (Email row)).2 = Some sid -> plain_id sid) ->
  valid_start_time start = true ->
  (forall row, row ∈ form_rows ->
     class_end_fits start duration (Completion_time row)) ->
  exists l out,
    run float_repr numpy_column form_rows template rs start duration = (l, Ok out).
Proof.
  intros Hwf Hrs Hn Hh Hids Hforms Hstart Hfits.
  destruct (lookup_lt_is_Some_2 (data template) 3 ltac:(unfold nrows in Hn; lia))
    as [r3 H3].
  destruct (lookup_lt_is_Some_2 (data template) 4 ltac:(unfold nrows in Hn; lia))
    as [r4 H4].
  assert (Hread : read_template_file template
                  = ([], Ok (template, index_dates 0 r3 ∅))).
  { unfold read_template_file, iloc_row. rewrite H3, H4. reflexivity. }
  assert (Ht : total (run float_repr numpy_column form_rows template rs start duration)
                     (fun _ => True)).
  { unfold run.
    refine (total_bind _ _ (fun a => a = (read_forms_data form_rows).2) _ _ _);
      [eexists _, _; split; reflexivity|].
    intros forms ->.
    rewrite Hread.
    refine (total_bind _ _ (fun a => a = (template, index_dates 0 r3 ∅)) _ _ _);
      [eexists _, _; split; reflexivity|].
    intros res ->.
    tbind.
    - apply (update_attendance_data_total (index_dates 0 r3 ∅) template start duration
               Hwf (header_inside_cols_in_range _ _ Hwf Hh H3) Hids Hstart).
      intros f Hf. split; [exact (read_forms_data_plain _ Hforms f Hf)|].
      exact (read_forms_data_completion _ _ Hfits f Hf).
    - intros df' [He _].
      destruct (save_updated_template_returns float_repr numpy_column df' rs
                  (wf_df_evolves _ _ Hwf He) Hrs) as [out Hout].
      exists [], out. split; [|exact I]. unfold lift. rewrite Hout. reflexivity. }
  destruct Ht as (l & out & Hrun & _). eauto.
Qed.

(** With fewer than five rows in the roster the run stops at the indexer:
    the form export has been read, the error is reported, and the
    exception leaves the run. *)
Lemma run_raises_on_short_roster (float_repr : Q -> string)
    (numpy_column : nat -> bool) (form_rows : list FormRow)
    (template rs : DataFrame) (start : string) (duration : Z) :
  (nrows template < 5)%nat ->
  run float_repr numpy_column form_rows template rs start duration
  = (((read_forms_data form_rows).1 ++ [ErrorReadingTemplate IndexError])%list,
     Raise IndexError).
Proof.
  intros Hn. unfold run. rewrite (read_template_file_short template Hn).
  reflexivity.
Qed.

(** The roster lacks its header rows: the indexer reports the error and
    raises, and the run raises with it instead of going on with an empty
    map. *)
Lemma run_aborts_without_header_rows :
  read_template_file short_template
    = ([ErrorReadingTemplate IndexError], Raise IndexError) /\
  run whole_float_repr object_columns sample_form_rows short_template short_sheet
      "13:00" 180
    = ([WarnNonNumericId "abc@x.com"; ErrorReadingTemplate IndexError],
       Raise IndexError).
Proof. split; vm_compute; reflexivity. Qed.

(** C4, amended: header rows that are present but hold no date label give
    an empty map without raising, while a roster with fewer than five rows
    makes the indexer raise, and the run raises with it whatever the other
    inputs are; an identifier that does not normalize drops its form row,
    with a warning when the input is a string; for a form record whose
    identifier reads as an integer, a date that the map lacks and a
    student that no roster row matches each leave the frame as it is and
    log one warning; and the run returns the saved sheet when the roster is
    rectangular with at least five rows, no date label sits in the first or
    last header cell, every student row's identifier cell is empty or an
    integer, every normalized form id is a digit string below 2^53, the
    start time is valid, and for every form row the class end on the
    completion date can be computed. *)
Theorem recoverable_conditions_skip :
  (forall df date_row subheader_row,
     data df !! 3%nat = Some date_row -> data df !! 4%nat = Some subheader_row ->
     (forall v, v ∈ date_row -> date_label v = None) ->
     read_template_file df = ([], Ok (df, ∅))) /\
  (forall df, (nrows df < 5)%nat ->
     read_template_file df = ([ErrorReadingTemplate IndexError], Raise IndexError)) /\
  (forall float_repr numpy_column form_rows template rs start duration,
     (nrows template < 5)%nat ->
     run float_repr numpy_column form_rows template rs start duration
     = (((read_forms_data form_rows).1 ++ [ErrorReadingTemplate IndexError])%list,
        Raise IndexError)) /\
  (forall row rest,
     (extract_student_id (Email row)).2 = None ->
     (read_forms_data (row :: rest)).2 = (read_forms_data rest).2 /\
     forall e, Email row = VStr e ->
       (read_forms_data (row :: rest)).1
       = WarnNonNumericId e :: (read_forms_data rest).1) /\
  (forall date_columns start duration df f n,
     int_of_float_of_id (student_id f) = Ok n ->
     date_columns !! date f = None ->
     apply_response date_columns start duration df f
     = ([WarnDateNotFound (date f) (pretty n)], Ok df)) /\
  (forall date_columns start duration df f n cols,
     int_of_float_of_id (student_id f) = Ok n ->
     date_columns !! date f = Some cols ->
     (forall r, r ∈ student_rows df ->
        exists v, iloc_get df r 0%nat = Ok v /\
                  (v = VNaN \/ exists z, py_int v = Ok z /\ z <> n)) ->
     apply_response date_columns start duration df f
     = ([WarnStudentNotFound (pretty n)], Ok df)) /\
  (forall float_repr numpy_column form_rows template rs start duration,
     wf_df template -> wf_df rs -> (5 <= nrows template)%nat ->
     header_inside template -> ids_convertible template ->
     (forall row sid, row ∈ form_rows ->
        (extract_student_id (Email row)).2 = Some sid -> plain_id sid) ->
     valid_start_time start = true ->
     (forall row, row ∈ form_rows ->
        class_end_fits start duration (Completion_time row)) ->
     exists l out,
       run float_repr numpy_column form_rows template rs start duration
       = (l, Ok out)).
Proof.
  split; [exact read_template_file_no_labels|].
  split; [exact read_template_file_short|].
  split; [exact run_raises_on_short_roster|].
  split; [|split; [|split]].
  - intros row rest Hnone. rewrite (read_forms_data_skips row rest Hnone). simpl.
    split; [reflexivity|]. intros e He. rewrite He in *.
    rewrite (extract_student_id_warns e Hnone). reflexivity.
  - intros. apply apply_response_unmatched_date; assumption.
  - intros. eapply apply_response_unmatched_student; eassumption.
  - exact run_returns.
Qed.

(** ** The properties on the sample roster *)

Lemma read_template_file_date_columns_witness :
  exists date_columns,
    read_template_file sample_template = ([], Ok (sample_template, date_columns)) /\
    (forall label cols,
       date_columns !! label = Some cols <->
       exists i, last_label_at
                   [VNaN; VNaN; VNaN; VNaN; VNaN; VStr "26/11"; VNaN] label i
                 /\ cols = mk_date_cols i (S i)) /\
    (forall label cols,
       date_columns !! label = Some cols ->
       label <> EmptyString /\ minutes_col cols = S (code_col cols)) /\
    (forall label i,
       [VNaN; VNaN; VNaN; VNaN; VNaN; VStr "26/11"; VNaN] !! i = Some (VStr label) ->
       contains_char "/" label = true ->
       exists j, (i <= j)%nat /\
                 date_columns !! label = Some (mk_date_cols j (S j))).
Proof.
  apply (read_template_file_date_columns sample_template
           [VNaN; VNaN; VNaN; VNaN; VNaN; VStr "26/11"; VNaN]
           [VStr "ID"; VStr "Name"; VNaN; VNaN; VNaN; VStr "Code"; VStr "Minutes"]);
    reflexivity.
Defined.

Example read_template_file_sample :
  read_template_file sample_template = ([], Ok (sample_template, sample_date_columns)).
Proof. vm_compute. reflexivity. Qed.

Lemma sample_template_wf : wf_df sample_template.
Proof. repeat constructor. Qed.

Lemma sample_sheet_wf : wf_df sample_sheet.
Proof. repeat constructor. Qed.

(** The reconciled sample roster against the sheet of its file. *)
Lemma save_updated_template_selective_witness :
  exists updated ws out,
    (update_attendance_data sample_forms sample_template
       sample_date_columns "13:00" 180).2 = Ok updated /\
    collect_writes whole_float_repr object_columns updated sample_sheet
      (positions updated) = Ok ws /\
    save_updated_template whole_float_repr object_columns updated sample_sheet
      = Ok out /\
    (forall r c v,
       (r, c, v) ∈ ws <->
       exists u, iloc_get updated r c = Ok u /\
                 must_write whole_float_repr sample_sheet r c u /\
                 v = written_value whole_float_repr object_columns c u) /\
    (forall r c u, iloc_get updated r c = Ok u ->
       must_write whole_float_repr sample_sheet r c u ->
       (is_number object_columns c u = true /\ out !! (r, c) = Some u) \/
       (is_number object_columns c u = false /\
        out !! (r, c) = Some (VStr (py_str whole_float_repr u)))) /\
    (forall r c, (forall v, (r, c, v) ∉ ws) ->
                 out !! (r, c) = sheet_cells sample_sheet !! (r, c)) /\
    ((forall r c u, iloc_get updated r c = Ok u -> isna u = false ->
        exists o, iloc_get sample_sheet r c = Ok o /\
                  py_str whole_float_repr o = py_str whole_float_repr u) ->
     ws = [] /\ out = sheet_cells sample_sheet).
Proof.
  assert (Hu : exists updated,
             (update_attendance_data sample_forms sample_template
                sample_date_columns "13:00" 180).2 = Ok updated /\
             wf_df updated).
  { eexists. split; [vm_compute; reflexivity | repeat constructor]. }
  destruct Hu as (updated & Hu & Hwf).
  destruct (save_updated_template_selective whole_float_repr object_columns
              updated sample_sheet Hwf sample_sheet_wf) as (ws & out & H).
  exists updated, ws, out. split; [exact Hu | exact H].
Defined.

(** The writes for the reconciled sample roster against the sheet of its
    file: the four attendance cells, and the three identifier cells, which
    the frame holds as integers and the sheet as floats. *)
Example collect_writes_sample :
  match (update_attendance_data sample_forms sample_template
           sample_date_columns "13:00" 180).2 with
  | Ok updated =>
      collect_writes whole_float_repr object_columns updated sample_sheet
        (positions updated)
      = Ok [(5, 0, VInt 4186054); (5, 5, VStr "Y"); (5, 6, VInt 165);
            (6, 0, VInt 3992383); (6, 5, VStr "N"); (6, 6, VInt 0);
            (7, 0, VInt 123)]%nat
  | Raise _ => False
  end.
Proof. vm_compute. reflexivity. Qed.

(** A frame whose integers sit in a column pandas stores as 64-bit
    integers: the cell that reads differently is written as text. *)
Example collect_writes_numpy_integer :
  collect_writes whole_float_repr (fun c => Nat.eqb c 0)
    (mk_df 2 [ [VInt 7; VStr "a"]; [VInt 8; VStr "b"] ])
    (mk_df 2 [ [VFloat (7 # 1); VStr "a"]; [VStr "8"; VStr "c"] ])
    [(0, 0); (0, 1); (1, 0); (1, 1)]%nat
  = Ok [(0, 0, VStr "7"); (1, 1, VStr "b")]%nat.
Proof. vm_compute. reflexivity. Qed.

(** C7 on an untouched roster: the frame is the sample roster as pandas
    reads its file, the sheet is the same file as [xlrd] reads it, and
    nothing has been reconciled.  The selective writer still writes the
    three identifier cells, because [str] of the integer 4186054 is not
    [str] of the float 4186054.0; the set of written cells is not empty. *)
Lemma save_updated_template_rewrites_unchanged_ids :
  py_str whole_float_repr (VInt 4186054) = "4186054" /\
  py_str whole_float_repr (VFloat (4186054 # 1)) = "4186054.0" /\
  collect_writes whole_float_repr object_columns sample_template sample_sheet
    (positions sample_template)
  = Ok [(5, 0, VInt 4186054); (6, 0, VInt 3992383); (7, 0, VInt 123)]%nat /\
  exists out,
    save_updated_template whole_float_repr object_columns sample_template sample_sheet
      = Ok out /\
    sheet_cells sample_sheet !! (5, 0)%nat = Some (VFloat (4186054 # 1)) /\
    out !! (5, 0)%nat = Some (VInt 4186054) /\
    out <> sheet_cells sample_sheet.
Proof.
  assert (Hws : collect_writes whole_float_repr object_columns sample_template
                  sample_sheet (positions sample_template)
                = Ok [(5, 0, VInt 4186054); (6, 0, VInt 3992383);
                      (7, 0, VInt 123)]%nat)
    by (vm_compute; reflexivity).
  split; [vm_compute; reflexivity|]. split; [vm_compute; reflexivity|].
  split; [exact Hws|].
  exists (apply_writes
            [(5, 0, VInt 4186054); (6, 0, VInt 3992383); (7, 0, VInt 123)]%nat
            (sheet_cells sample_sheet)).
  split; [unfold save_updated_template; rewrite Hws; reflexivity|].
  assert (H1 : sheet_cells sample_sheet !! (5, 0)%nat = Some (VFloat (4186054 # 1)))
    by (vm_compute; reflexivity).
  assert (H2 : apply_writes
                 [(5, 0, VInt 4186054); (6, 0, VInt 3992383); (7, 0, VInt 123)]%nat
                 (sheet_cells sample_sheet) !! (5, 0)%nat = Some (VInt 4186054)).
  { apply apply_writes_written; [|eexists; left].
    intros v Hv. repeat (apply elem_of_cons in Hv as [Hv|Hv]);
      try (injection Hv as <-; reflexivity); try discriminate Hv.
    inversion Hv. }
  split; [exact H1|]. split; [exact H2|].
  intros E. rewrite E in H2. rewrite H1 in H2. discriminate.
Qed.

(** Phase B on the sample roster marks the two student rows that hold the
    sentinel, and a second pass is silent. *)
Example mark_absent_sample :
  exists df1,
    mark_absent ["26/11"] sample_date_columns sample_template
    = ([MarkedAbsent (VInt 4186054) "26/11"; MarkedAbsent (VInt 3992383) "26/11"],
       Ok df1)
    /\ mark_absent ["26/11"] sample_date_columns df1 = ([], Ok df1).
Proof. eexists. split; vm_compute; reflexivity. Qed.

Lemma reconciler_matches_integers_witness :
  template_student_id (VInt 123) = Ok (Some (pretty 123)) <-> 123 = 123.
Proof.
  apply (proj1 reconciler_matches_integers "0123" (VInt 123) 123 123);
    reflexivity.
Defined.

Lemma sample_header_inside : header_inside sample_template.
Proof.
  intros date_row v H3 Hv. injection H3 as <-.
  destruct Hv as [Hv|Hv]; injection Hv as <-; reflexivity.
Qed.

Lemma sample_ids_convertible : ids_convertible sample_template.
Proof.
  intros r Hr. apply elem_of_student_rows in Hr.
  change (nrows sample_template) with 8%nat in Hr.
  assert (Hcases : r = 5%nat \/ r = 6%nat \/ r = 7%nat) by lia.
  destruct Hcases as [-> | [-> | ->]]; eexists; (split; [reflexivity|]);
    right; eexists; reflexivity.
Qed.

Lemma sample_forms_plain :
  forall row sid, row ∈ sample_form_rows ->
    (extract_student_id (Email row)).2 = Some sid -> plain_id sid.
Proof.
  intros row sid Hrow. unfold sample_form_rows in Hrow.
  repeat (apply elem_of_cons in Hrow as [->|Hrow]); [| | | |inversion Hrow].
  all: simpl Email; intros H; vm_compute in H;
    first [discriminate H | injection H as <-].
  all: split; [reflexivity | split; [discriminate | reflexivity]].
Qed.

Lemma sample_forms_fit :
  forall row, row ∈ sample_form_rows ->
    class_end_fits "13:00" 180 (Completion_time row).
Proof.
  intros row Hrow h m Hp. vm_compute in Hp. injection Hp as <- <-.
  unfold sample_form_rows in Hrow.
  repeat (apply elem_of_cons in Hrow as [->|Hrow]); [| | | |inversion Hrow].
  all: range_by_compute.
Qed.

Lemma recoverable_conditions_skip_witness :
  run whole_float_repr object_columns sample_form_rows short_template
      short_sheet "13:00" 180
  = (((read_forms_data sample_form_rows).1
      ++ [ErrorReadingTemplate IndexError])%list, Raise IndexError) /\
  exists l out,
    run whole_float_repr object_columns sample_form_rows sample_template
        sample_sheet "13:00" 180
    = (l, Ok out).
Proof.
  destruct recoverable_conditions_skip
    as (_ & _ & Hshort & _ & _ & _ & Hrun).
  split; [apply Hshort; vm_compute; lia|].
  apply (Hrun whole_float_repr object_columns sample_form_rows sample_template
           sample_sheet "13:00" 180).
  - exact sample_template_wf.
  - exact sample_sheet_wf.
  - vm_compute. lia.
  - exact sample_header_inside.
  - exact sample_ids_convertible.
  - exact sample_forms_plain.
  - reflexivity.
  - exact sample_forms_fit.
Defined.

(** A roster whose identifier column holds text in a student row makes the
    scan raise. *)
Example find_student_text_identifier :
  update_attendance_data sample_forms
    (mk_df 7
       [ [VNaN; VNaN; VNaN; VNaN; VNaN; VNaN; VNaN];
         [VNaN; VNaN; VNaN; VNaN; VNaN; VNaN; VNaN];
         [VNaN; VNaN; VNaN; VNaN; VNaN; VNaN; VNaN];
         [VNaN; VNaN; VNaN; VNaN; VNaN; VStr "26/11"; VNaN];
         [VStr "ID"; VStr "Name"; VNaN; VNaN; VNaN; VStr "Code"; VStr "Minutes"];
         [VStr "Total"; VNaN; VNaN; VNaN; VNaN; VStr "--"; VStr "--"] ])
    sample_date_columns "13:00" 180
  = ([], Raise ValueError).
Proof. vm_compute. reflexivity. Qed.

(** * Further properties of the script *)

(** ** Arguments and the calculator *)

Lemma start_time_shape_range (s : string) (h m : Z) :
  start_time_shape s h m -> 0 <= h <= 23 /\ 0 <= m <= 59.
Proof. intros [hh mm nl _ _ _ _ _ Hh Hm]. split; assumption. Qed.

Lemma elapsed_time_of_day (t : datetime) (h m : Z) :
  instant t - class_start_instant t h m
  = time_of_day t - (h * 60 + m) * 60 * 1000000.
Proof.
  unfold class_start_instant, instant, time_of_day, toordinal. simpl. lia.
Qed.

(** X1: the arguments are accepted exactly when the duration reads as a
    positive integer and the start time matches the pattern; and for
    accepted arguments the start time reads as an hour below 24 and a
    minute below 60, and for every completion time the calculator returns
    minutes between 0 and the duration when the class end is a datetime
    and raises [OverflowError] when it is not. *)
Theorem parse_arguments_accepts (start_time duration : string) :
  (forall d,
     parse_arguments start_time duration = inr (start_time, d) <->
     py_int_of_str duration = Ok d /\ valid_start_time start_time = true /\ 0 < d) /\
  (forall s d,
     parse_arguments start_time duration = inr (s, d) ->
     s = start_time /\ 0 < d /\
     exists h m,
       parse_start_time s = Ok (h, m) /\ 0 <= h <= 23 /\ 0 <= m <= 59 /\
       forall t,
         (class_end_in_range t h m d ->
          exists c mins,
            calculate_attendance t s d = Ok (c, mins) /\ 0 <= mins <= d) /\
         (~ class_end_in_range t h m d ->
          calculate_attendance t s d = Raise OverflowError)).
Proof.
  assert (Hiff : forall s d,
             parse_arguments start_time duration = inr (s, d) <->
             s = start_time /\ py_int_of_str duration = Ok d
             /\ valid_start_time start_time = true /\ 0 < d).
  { intros s d. unfold parse_arguments.
    destruct (py_int_of_str duration) as [d'|e].
    - destruct (valid_start_time start_time); simpl.
      + destruct (Z.leb_spec d' 0); split.
        * discriminate.
        * intros (_ & [= ->] & _ & Hd). lia.
        * intros [= <- <-]. auto.
        * intros (-> & [= ->] & _). reflexivity.
      + split; [discriminate | intros (_ & _ & [=] & _)].
    - split; [discriminate | intros (_ & [=] & _)]. }
  split.
  - intros d. rewrite Hiff. tauto.
  - intros s d H. apply Hiff in H as (-> & _ & Hv & Hd).
    split; [reflexivity|]. split; [exact Hd|].
    destruct (valid_start_time_shape _ Hv) as (h & m & Hs).
    exists h, m. split; [apply parse_start_time_shape, Hs|].
    destruct (start_time_shape_range _ _ _ Hs) as [Hh Hm].
    split; [exact Hh|]. split; [exact Hm|].
    intros t. split; [|apply (calculate_attendance_overflow t _ d h m Hs)].
    intros Hr. rewrite (calculate_attendance_unfold t _ d h m Hs Hr).
    destruct (Z.leb_spec (instant t) (class_start_instant t h m)).
    { eexists _, _. split; [reflexivity | lia]. }
    destruct (Z.leb_spec (class_start_instant t h m + d * micros_per_minute) (instant t)).
    { eexists _, _. split; [reflexivity | lia]. }
    eexists _, _. split; [reflexivity|].
    unfold micros_per_minute in *.
    assert (0 <= (instant t - class_start_instant t h m) / (60 * 1000000) < d).
    { split; [apply Z.div_pos; lia | apply Z.div_lt_upper_bound; lia]. }
    lia.
Qed.

Lemma parse_arguments_accepts_witness :
  exists c mins,
    calculate_attendance (mk_datetime 2024 11 26 13 15 0 0) "13:00" 180
      = Ok (c, mins) /\ 0 <= mins <= 180.
Proof.
  destruct (proj2 (parse_arguments_accepts "13:00" "180") "13:00" 180 eq_refl)
    as (_ & _ & h & m & Hp & _ & _ & Hcalc).
  vm_compute in Hp. injection Hp as <- <-.
  apply (Hcalc (mk_datetime 2024 11 26 13 15 0 0)). range_by_compute.
Defined.

Example parse_arguments_examples :
  parse_arguments "13:00" "180" = inr ("13:00", 180)
  /\ parse_arguments "24:00" "180" = inl InvalidStartTime
  /\ parse_arguments "13:00" "0" = inl NonPositiveDuration
  /\ parse_arguments "13:00" "-5" = inl NonPositiveDuration
  /\ parse_arguments "13:00" "3h" = inl InvalidIntValue
  /\ parse_arguments "1:5" "180" = inl InvalidStartTime.
Proof. repeat split; vm_compute; reflexivity. Qed.

(** X2: as long as the class end can be computed, the result of the
    calculator depends on the completion time only through its time of
    day: two completion times with the same hour, minute, second and
    microsecond get the same result on any two dates on which the class end
    is a datetime, for every start-time string and duration. *)
Theorem calculate_attendance_ignores_date
    (t1 t2 : datetime) (s : string) (d : Z) :
  hour t1 = hour t2 -> minute t1 = minute t2 ->
  second t1 = second t2 -> microsecond t1 = microsecond t2 ->
  class_end_fits s d t1 -> class_end_fits s d t2 ->
  calculate_attendance t1 s d = calculate_attendance t2 s d.
Proof.
  intros Hh Hm Hs Hu Hf1 Hf2.
  destruct (parse_start_time s) as [[h m]|e] eqn:Hp.
  2:{ unfold calculate_attendance. rewrite Hp. reflexivity. }
  specialize (Hf1 h m Hp). specialize (Hf2 h m Hp).
  destruct ((0 <=? h) && (h <=? 23) && (0 <=? m) && (m <=? 59)) eqn:Hr.
  2:{ unfold calculate_attendance. rewrite Hp. cbn [rbind].
      unfold replace_time. rewrite Hr. reflexivity. }
  rewrite (calculate_attendance_parsed t1 s d h m Hp)
    by (unfold replace_time; rewrite Hr; reflexivity).
  rewrite (calculate_attendance_parsed t2 s d h m Hp)
    by (unfold replace_time; rewrite Hr; reflexivity).
  rewrite (class_end_Ok t1 h m d Hf1), (class_end_Ok t2 h m d Hf2).
  cbn [rbind].
  pose proof (elapsed_time_of_day t1 h m) as E1.
  pose proof (elapsed_time_of_day t2 h m) as E2.
  assert (Ht : time_of_day t1 = time_of_day t2).
  { unfold time_of_day. rewrite Hh, Hm, Hs, Hu. reflexivity. }
  assert (E : instant t1 - class_start_instant t1 h m
              = instant t2 - class_start_instant t2 h m) by lia.
  rewrite E.
  destruct (Z.leb_spec (instant t1) (class_start_instant t1 h m)),
           (Z.leb_spec (instant t2) (class_start_instant t2 h m)); try lia;
    [reflexivity|].
  destruct (Z.leb_spec (class_start_instant t1 h m + d * micros_per_minute) (instant t1)),
           (Z.leb_spec (class_start_instant t2 h m + d * micros_per_minute) (instant t2));
    try lia; reflexivity.
Qed.

Lemma calculate_attendance_ignores_date_witness :
  calculate_attendance (mk_datetime 2024 11 26 13 15 30 0) "13:00" 180
  = calculate_attendance (mk_datetime 2025 2 28 13 15 30 0) "13:00" 180.
Proof.
  apply (calculate_attendance_ignores_date
           (mk_datetime 2024 11 26 13 15 30 0) (mk_datetime 2025 2 28 13 15 30 0));
    try reflexivity.
  all: intros h m Hp; vm_compute in Hp; injection Hp as <- <-; range_by_compute.
Defined.

(** The dates do matter at the end of the calendar: the same time of day
    gives a result in 2024 and an exception on the last day of 9999. *)
Example calculate_attendance_date_matters_at_the_end :
  calculate_attendance (mk_datetime 2024 11 26 21 0 0 0) "22:00" 180
    = Ok ("Y", 180) /\
  calculate_attendance (mk_datetime 9999 12 31 21 0 0 0) "22:00" 180
    = Raise OverflowError.
Proof. split; vm_compute; reflexivity. Qed.

(** X3: on one date a later submission never earns more minutes: for an
    accepted start time and a positive duration, if [t1] is not after [t2]
    on the same day then either the class end of that day is no datetime
    and both calls raise [OverflowError], or both return and the minutes
    for [t2] are at most those for [t1]. *)
Theorem calculate_attendance_monotone
    (t1 t2 : datetime) (s : string) (d : Z) :
  valid_start_time s = true -> 0 < d ->
  year t1 = year t2 -> month t1 = month t2 -> day t1 = day t2 ->
  instant t1 <= instant t2 ->
  (calculate_attendance t1 s d = Raise OverflowError /\
   calculate_attendance t2 s d = Raise OverflowError) \/
  (exists c1 m1 c2 m2,
     calculate_attendance t1 s d = Ok (c1, m1) /\
     calculate_attendance t2 s d = Ok (c2, m2) /\
     m2 <= m1).
Proof.
  intros Hv Hd Hy Hmo Hda Hle.
  destruct (valid_start_time_shape s Hv) as (h & m & Hs).
  assert (Hcs : class_start_instant t1 h m = class_start_instant t2 h m).
  { unfold class_start_instant. rewrite Hy, Hmo, Hda. reflexivity. }
  destruct (class_end_in_range_dec t2 h m d) as [Hr2|Hr2].
  2:{ left. split; apply (calculate_attendance_overflow _ s d h m Hs); [|exact Hr2].
      unfold class_end_in_range in *. rewrite Hcs. exact Hr2. }
  assert (Hr1 : class_end_in_range t1 h m d).
  { unfold class_end_in_range in *. rewrite Hcs. exact Hr2. }
  right.
  rewrite (calculate_attendance_unfold t1 s d h m Hs Hr1).
  rewrite (calculate_attendance_unfold t2 s d h m Hs Hr2).
  rewrite Hcs. set (cs := class_start_instant t2 h m) in *.
  unfold micros_per_minute in *.
  assert (Hdiv : forall t, cs < instant t -> instant t < cs + d * (60 * 1000000) ->
                 0 <= (instant t - cs) / (60 * 1000000) < d).
  { intros t H1 H2. split; [apply Z.div_pos; lia | apply Z.div_lt_upper_bound; lia]. }
  destruct (Z.leb_spec (instant t1) cs), (Z.leb_spec (instant t2) cs); try lia.
  - eexists _, _, _, _. repeat split; lia.
  - destruct (Z.leb_spec (cs + d * (60 * 1000000)) (instant t2)).
    + eexists _, _, _, _. repeat split; lia.
    + eexists _, _, _, _. split; [reflexivity|]. split; [reflexivity|].
      pose proof (Hdiv t2 ltac:(lia) ltac:(lia)). lia.
  - destruct (Z.leb_spec (cs + d * (60 * 1000000)) (instant t1)),
             (Z.leb_spec (cs + d * (60 * 1000000)) (instant t2)); try lia.
    + eexists _, _, _, _. repeat split; lia.
    + eexists _, _, _, _. split; [reflexivity|]. split; [reflexivity|].
      pose proof (Hdiv t1 ltac:(lia) ltac:(lia)). lia.
    + eexists _, _, _, _. split; [reflexivity|]. split; [reflexivity|].
      assert ((instant t1 - cs) / (60 * 1000000) <= (instant t2 - cs) / (60 * 1000000))
        by (apply Z.div_le_mono; lia).
      lia.
Qed.

Lemma calculate_attendance_monotone_witness :
  exists c1 m1 c2 m2,
    calculate_attendance (mk_datetime 2024 11 26 13 15 0 0) "13:00" 180 = Ok (c1, m1) /\
    calculate_attendance (mk_datetime 2024 11 26 14 40 10 0) "13:00" 180 = Ok (c2, m2) /\
    m2 <= m1.
Proof.
  destruct (calculate_attendance_monotone
              (mk_datetime 2024 11 26 13 15 0 0) (mk_datetime 2024 11 26 14 40 10 0)
              "13:00" 180 eq_refl ltac:(lia) eq_refl eq_refl eq_refl
              ltac:(vm_compute; discriminate)) as [[H _] | H].
  - vm_compute in H. discriminate H.
  - exact H.
Defined.

(** ** File names *)

Lemma py_endswith_unfold (s suffix : string) :
  py_endswith s suffix
  = String.eqb s suffix
    || match s with
       | String _ r => py_endswith r suffix
       | EmptyString => false
       end.
Proof. destruct s; reflexivity. Qed.

Lemma py_endswith_app (pre suffix : string) :
  py_endswith (pre +:+ suffix) suffix = true.
Proof.
  induction pre as [|c r IH].
  - change (EmptyString +:+ suffix) with suffix.
    rewrite py_endswith_unfold, String.eqb_refl. reflexivity.
  - rewrite string_app_cons, py_endswith_unfold, IH. apply orb_true_r.
Qed.

Lemma py_endswith_inv (s suffix : string) :
  py_endswith s suffix = true -> exists pre, s = pre +:+ suffix.
Proof.
  induction s as [|c r IH]; rewrite py_endswith_unfold; intros H;
    apply orb_true_iff in H as [H|H].
  - apply String.eqb_eq in H. subst. exists EmptyString. reflexivity.
  - discriminate H.
  - apply String.eqb_eq in H. exists EmptyString. rewrite H. reflexivity.
  - destruct (IH H) as [pre ->]. exists (String c pre). reflexivity.
Qed.

Lemma last_char_app_cons (pre : string) (c : ascii) (r : string) :
  last_char (pre +:+ String c r) = last_char (String c r).
Proof.
  induction pre as [|x pre IH]; [reflexivity|].
  rewrite string_app_cons.
  destruct (pre +:+ String c r) as [|y t] eqn:E.
  - destruct pre; discriminate E.
  - change (last_char (String x (String y t))) with (last_char (String y t)).
    exact IH.
Qed.

Lemma xls_is_not_xlsx (f : string) :
  py_endswith f ".xls" = true -> py_endswith f ".xlsx" = false.
Proof.
  intros H. destruct (py_endswith f ".xlsx") eqn:E; [|reflexivity].
  apply py_endswith_inv in H as [p1 H1]. apply py_endswith_inv in E as [p2 H2].
  assert (L1 : last_char f = Some "s"%char) by (rewrite H1; apply last_char_app_cons).
  assert (L2 : last_char f = Some "x"%char) by (rewrite H2; apply last_char_app_cons).
  rewrite L1 in L2. discriminate L2.
Qed.

Lemma filter_first {A} (p : A -> bool) (l : list A) (f : A) (rest : list A) :
  List.filter p l = f :: rest ->
  exists pre post,
    l = (pre ++ f :: post)%list /\ p f = true /\
    (forall x, x ∈ pre -> p x = false) /\ rest = List.filter p post.
Proof.
  induction l as [|x l IH]; simpl; [discriminate|].
  destruct (p x) eqn:Ex.
  - intros [= -> <-]. exists [], l. repeat split; auto.
    intros y Hy. inversion Hy.
  - intros H. destruct (IH H) as (pre & post & -> & Hf & Hpre & Hrest).
    exists (x :: pre), post. repeat split; auto.
    intros y Hy. apply elem_of_cons in Hy as [->|Hy]; auto.
Qed.

Lemma filter_nil_none {A} (p : A -> bool) (l : list A) :
  List.filter p l = [] <-> forall x, x ∈ l -> p x = false.
Proof.
  induction l as [|x l IH]; simpl.
  - split; [intros _ y Hy; inversion Hy | reflexivity].
  - destruct (p x) eqn:Ex; split.
    + discriminate.
    + intros H. specialize (H x ltac:(left)). congruence.
    + intros H y Hy. apply elem_of_cons in Hy as [->|Hy]; [exact Ex|].
      apply IH; assumption.
    + intros H. apply IH. intros y Hy. apply H. right. exact Hy.
Qed.

(** X4: the template search returns nothing exactly when no listed name
    ends in [.xls]; otherwise it returns the first listed name that ends in
    [.xls] (the exclusion of [.xlsx] never removes a name), and it warns
    exactly when a later name ends in [.xls] too. *)
Theorem find_template_file_first (listing : list string) :
  ((find_template_file listing).2 = None <->
   forall f, f ∈ listing -> py_endswith f ".xls" = false) /\
  (forall f,
     (find_template_file listing).2 = Some f ->
     exists pre post,
       listing = (pre ++ f :: post)%list /\
       py_endswith f ".xls" = true /\
       (forall x, x ∈ pre -> py_endswith x ".xls" = false) /\
       ((find_template_file listing).1 = []
          <-> forall x, x ∈ post -> py_endswith x ".xls" = false) /\
       ((find_template_file listing).1 = [] \/
        (find_template_file listing).1 = [MultipleFilesFound ".xls" f])).
Proof.
  assert (Hp : forall x,
             py_endswith x ".xls" && negb (py_endswith x ".xlsx")
             = py_endswith x ".xls").
  { intros x. destruct (py_endswith x ".xls") eqn:E; [|reflexivity].
    rewrite (xls_is_not_xlsx x E). reflexivity. }
  unfold find_template_file.
  destruct (List.filter _ listing) as [|f0 rest] eqn:Ef.
  - split.
    + split; [|reflexivity]. intros _ f Hf.
      rewrite <- Hp. revert f Hf. apply filter_nil_none, Ef.
    + intros f H. discriminate H.
  - split.
    + split.
      * destruct rest; discriminate.
      * intros H. apply filter_first in Ef as (pre & post & -> & Hf & _).
        rewrite Hp in Hf. rewrite H in Hf; [discriminate|].
        apply elem_of_app. right. left.
    + intros f H.
      assert (f = f0) by (destruct rest; simpl in H; congruence). subst f0.
      apply filter_first in Ef as (pre & post & -> & Hf & Hpre & Hrest).
      exists pre, post. rewrite Hp in Hf.
      split; [reflexivity|]. split; [exact Hf|]. split.
      { intros x Hx. rewrite <- Hp. apply Hpre, Hx. }
      split.
      * destruct rest as [|g rest'].
        -- split; [|reflexivity]. intros _ x Hx. rewrite <- Hp.
           revert x Hx. apply filter_nil_none. symmetry. exact Hrest.
        -- split; [discriminate|]. intros Hnone. exfalso.
           symmetry in Hrest. apply filter_first in Hrest as (p1 & p2 & -> & Hg & _).
           rewrite Hp in Hg. rewrite Hnone in Hg; [discriminate|].
           apply elem_of_app. right. left.
      * destruct rest; [left | right]; reflexivity.
Qed.

(** X5: the two searches never pick the same file: what the forms search
    returns is a listed name ending in [.xlsx], what the template search
    returns is a listed name ending in [.xls], and the two differ. *)
Theorem discovered_files_differ (listing : list string) (forms template : string) :
  (find_forms_file listing).2 = Some forms ->
  (find_template_file listing).2 = Some template ->
  forms ∈ listing /\ template ∈ listing /\
  py_endswith forms ".xlsx" = true /\ py_endswith template ".xls" = true /\
  forms <> template.
Proof.
  unfold find_forms_file, find_template_file.
  destruct (List.filter (fun f => py_endswith f ".xlsx") listing) as [|a ra] eqn:Ea;
    [discriminate|].
  destruct (List.filter (fun f => py_endswith f ".xls" && _) listing)
    as [|b rb] eqn:Eb; [discriminate|].
  intros Hf Ht.
  assert (a = forms) by (destruct ra; simpl in Hf; congruence). subst a.
  assert (b = template) by (destruct rb; simpl in Ht; congruence). subst b.
  apply filter_first in Ea as (p1 & q1 & E1 & Hfa & _).
  apply filter_first in Eb as (p2 & q2 & E2 & Hfb & _).
  apply andb_true_iff in Hfb as [Hxls Hnot].
  split; [rewrite E1; apply elem_of_app; right; left|].
  split; [rewrite E2; apply elem_of_app; right; left|].
  split; [exact Hfa|]. split; [exact Hxls|].
  intros ->. rewrite Hfa in Hnot. discriminate Hnot.
Qed.

Lemma discovered_files_differ_witness :
  "responses.xlsx" ∈ ["notes.txt"; "responses.xlsx"; "roster.xls"] /\
  "roster.xls" ∈ ["notes.txt"; "responses.xlsx"; "roster.xls"] /\
  py_endswith "responses.xlsx" ".xlsx" = true /\
  py_endswith "roster.xls" ".xls" = true /\
  "responses.xlsx" <> "roster.xls".
Proof.
  apply (discovered_files_differ ["notes.txt"; "responses.xlsx"; "roster.xls"]);
    reflexivity.
Defined.

Lemma string_take_drop (n : nat) (s : string) :
  string_take n s +:+ string_drop n s = s.
Proof.
  revert s. induction n as [|n IH]; intros s; [destruct s; reflexivity|].
  destruct s as [|c r]; [reflexivity|].
  simpl. rewrite string_app_cons, IH. reflexivity.
Qed.

Lemma rfind_from_none (c : ascii) (s : string) (i best : Z) :
  contains_char c s = false -> rfind_from c s i best = best.
Proof.
  revert i best. induction s as [|x r IH]; intros i best H; [reflexivity|].
  simpl in *. apply orb_false_iff in H as [Hx Hr]. rewrite Hx. apply IH, Hr.
Qed.

Lemma rfind_from_spec (c : ascii) (s : string) :
  forall i best,
    (rfind_from c s i best = best /\ contains_char c s = false) \/
    (exists k r,
       rfind_from c s i best = i + Z.of_nat k /\
       string_drop k s = String c r /\ contains_char c r = false).
Proof.
  induction s as [|x s IH]; intros i best; [left; split; reflexivity|].
  simpl. destruct (IH (i + 1) (if Ascii.eqb x c then i else best))
    as [[Hb Hn] | (k & r & Hk & Hd & Hn)].
  - destruct (Ascii.eqb_spec x c) as [->|Hne].
    + right. exists 0%nat, s. rewrite Hb. split; [lia|]. split; [reflexivity | exact Hn].
    + left. rewrite Hb. split; [reflexivity | exact Hn].
  - right. exists (S k), r. rewrite Hk. split; [lia|]. split; [exact Hd | exact Hn].
Qed.

Lemma rfind_from_app (c : ascii) (s1 r : string) :
  contains_char c r = false ->
  forall i best,
    rfind_from c (s1 +:+ String c r) i best = i + Z.of_nat (String.length s1).
Proof.
  intros Hr. induction s1 as [|x s1 IH]; intros i best.
  - change (EmptyString +:+ String c r) with (String c r). simpl.
    rewrite Ascii.eqb_refl, (rfind_from_none _ _ _ _ Hr). lia.
  - rewrite string_app_cons. simpl rfind_from. rewrite IH. simpl String.length. lia.
Qed.

Lemma splitext_parts (p : string) :
  (splitext p).1 +:+ (splitext p).2 = p /\
  ((splitext p).2 = EmptyString \/
   exists r, (splitext p).2 = String "." r /\ contains_char "." r = false).
Proof.
  unfold splitext.
  destruct ((rfind "/" p <? rfind "." p) && _) eqn:E; simpl.
  2:{ split; [apply string_app_empty_r | left; reflexivity]. }
  split; [apply string_take_drop|]. right.
  apply andb_true_iff in E as [Hlt _]. apply Z.ltb_lt in Hlt.
  unfold rfind in *.
  destruct (rfind_from_spec "/" p 0 (-1)) as [[Hs _] | (ks & rs & Hs & _)];
    destruct (rfind_from_spec "." p 0 (-1)) as [[Hd _] | (k & r & Hd & Hdrop & Hn)];
    try lia;
    rewrite Hd; replace (Z.to_nat (0 + Z.of_nat k)) with k by lia; eauto.
Qed.

Lemma string_take_app (s r : string) :
  string_take (String.length s) (s +:+ r) = s.
Proof.
  induction s as [|c s IH]; [destruct r; reflexivity|].
  rewrite string_app_cons. simpl. rewrite IH. reflexivity.
Qed.

Lemma has_non_dot_app (s r : string) :
  has_non_dot (String.length s) (s +:+ r)
  = negb (string_forall (fun c => Ascii.eqb c ".") s).
Proof.
  induction s as [|c s IH]; [destruct r; reflexivity|].
  rewrite string_app_cons. simpl. rewrite IH.
  destruct (Ascii.eqb c "."); reflexivity.
Qed.

Lemma output_filename_parts (p : string) :
  output_filename p <> p /\ py_endswith (output_filename p) ".xls" = true.
Proof.
  destruct (splitext_parts p) as [Hp He]. split.
  - unfold output_filename. intros H. rewrite <- Hp in H at 2.
    apply (inj (String.app (splitext p).1)) in H.
    destruct He as [E | (r & E & _)]; rewrite E in H; discriminate H.
  - unfold output_filename.
    change "_updated.xls" with ("_updated" +:+ ".xls").
    assert (Hassoc : forall a b c : string, a +:+ (b +:+ c) = (a +:+ b) +:+ c).
    { intros a b c. induction a as [|x a IH]; [reflexivity|].
      rewrite !string_app_cons, IH. reflexivity. }
    rewrite Hassoc. apply py_endswith_app.
Qed.

(** X6: the output name is never the name of the original file, whatever
    that name is, and it ends in [.xls]; the two parts [splitext] returns
    make up the name again; and for a name [stem.xls] whose stem has no
    slash and is not made of dots alone the output name is
    [stem_updated.xls]. *)
Theorem output_filename_fresh :
  (forall p,
     output_filename p <> p /\
     py_endswith (output_filename p) ".xls" = true /\
     (splitext p).1 +:+ (splitext p).2 = p) /\
  (forall stem,
     contains_char "/" stem = false ->
     string_forall (fun c => Ascii.eqb c ".") stem = false ->
     output_filename (stem +:+ ".xls") = stem +:+ "_updated.xls").
Proof.
  split.
  - intros p. destruct (output_filename_parts p) as [Hne Hend].
    split; [exact Hne|]. split; [exact Hend | apply splitext_parts].
  - intros stem Hsep Hdots. unfold output_filename, splitext, rfind.
    rewrite (rfind_from_none "/" (stem +:+ ".xls")).
    2:{ rewrite contains_char_app, Hsep. reflexivity. }
    change ".xls" with (String "." "xls").
    rewrite (rfind_from_app "." stem "xls" eq_refl).
    replace (Z.to_nat (0 + Z.of_nat (String.length stem) - (-1 + 1)))
      with (String.length stem) by lia.
    replace (Z.to_nat (-1 + 1)) with 0%nat by lia.
    replace (Z.to_nat (0 + Z.of_nat (String.length stem)))
      with (String.length stem) by lia.
    replace (string_drop 0 (stem +:+ String "." "xls")) with (stem +:+ String "." "xls")
      by (destruct (stem +:+ String "." "xls"); reflexivity).
    rewrite has_non_dot_app, Hdots.
    replace (-1 <? 0 + Z.of_nat (String.length stem)) with true
      by (symmetry; apply Z.ltb_lt; lia).
    simpl. rewrite string_take_app. reflexivity.
Qed.

Example output_filename_examples :
  output_filename "roster.xls" = "roster_updated.xls"
  /\ output_filename "class.2024.xls" = "class.2024_updated.xls"
  /\ output_filename ".xls" = ".xls_updated.xls"
  /\ output_filename "roster" = "roster_updated.xls".
Proof. repeat split; vm_compute; reflexivity. Qed.

Lemma filter_two {A} (p : A -> bool) (l : list A) (a b : A) :
  a ∈ l -> b ∈ l -> a <> b -> p a = true -> p b = true ->
  exists x y rest, List.filter p l = x :: y :: rest.
Proof.
  intros Ha Hb Hne Hpa Hpb.
  assert (Hin : forall x, x ∈ l -> p x = true -> In x (List.filter p l)).
  { intros x Hx Hpx. apply filter_In. split; [apply list_elem_of_In, Hx | exact Hpx]. }
  pose proof (Hin a Ha Hpa) as Ia. pose proof (Hin b Hb Hpb) as Ib.
  destruct (List.filter p l) as [|x [|y rest]].
  - destruct Ia.
  - exfalso. apply Hne. destruct Ia as [<-|[]], Ib as [<-|[]]. reflexivity.
  - eauto.
Qed.

(** X7: after a run the directory is no longer fit for a second one: when
    a listing holds a template name ending in [.xls] and the output name
    made from it, the template search warns about multiple files, and the
    file it picks is a listed name, the first one in listing order that
    ends in [.xls]: the original or the output of the earlier run,
    whichever the listing shows first, unless another such name precedes
    both. *)
Theorem find_template_file_after_run (listing : list string) (original : string) :
  original ∈ listing -> py_endswith original ".xls" = true ->
  output_filename original ∈ listing ->
  exists used pre post,
    find_template_file listing = ([MultipleFilesFound ".xls" used], Some used) /\
    listing = (pre ++ used :: post)%list /\
    py_endswith used ".xls" = true /\
    (forall x, x ∈ pre -> py_endswith x ".xls" = false) /\
    (original ∉ pre) /\ (output_filename original ∉ pre) /\
    (original ∈ post \/ output_filename original ∈ post).
Proof.
  intros Ho Hxls Hout.
  destruct (output_filename_parts original) as (Hne & Hend).
  assert (Hq : forall x,
             py_endswith x ".xls" && negb (py_endswith x ".xlsx")
             = py_endswith x ".xls").
  { intros x. destruct (py_endswith x ".xls") eqn:E; [|reflexivity].
    rewrite (xls_is_not_xlsx x E). reflexivity. }
  assert (Hp : forall x, py_endswith x ".xls" = true ->
             py_endswith x ".xls" && negb (py_endswith x ".xlsx") = true).
  { intros x Hx. rewrite Hq. exact Hx. }
  destruct (filter_two
              (fun f => py_endswith f ".xls" && negb (py_endswith f ".xlsx"))
              listing original (output_filename original)
              Ho Hout (fun E => Hne (eq_sym E)) (Hp _ Hxls) (Hp _ Hend))
    as (x & y & rest & Hf).
  exists x. unfold find_template_file. rewrite Hf.
  apply filter_first in Hf as (pre & post & -> & Hx & Hpre & _).
  rewrite Hq in Hx.
  assert (Hpre' : forall z, z ∈ pre -> py_endswith z ".xls" = false).
  { intros z Hz. rewrite <- Hq. apply Hpre, Hz. }
  assert (Ho' : original ∉ pre) by (intros Hin; rewrite (Hpre' _ Hin) in Hxls; discriminate).
  assert (Hout' : output_filename original ∉ pre)
    by (intros Hin; rewrite (Hpre' _ Hin) in Hend; discriminate).
  exists pre, post. split; [reflexivity|]. split; [reflexivity|].
  split; [exact Hx|]. split; [exact Hpre'|]. split; [exact Ho'|].
  split; [exact Hout'|].
  apply elem_of_app in Ho as [Ho|Ho]; [contradiction|].
  apply elem_of_app in Hout as [Hout|Hout]; [contradiction|].
  apply elem_of_cons in Ho as [Ho|Ho]; [|left; exact Ho].
  apply elem_of_cons in Hout as [Hout|Hout]; [|right; exact Hout].
  exfalso. apply Hne. congruence.
Qed.

(** ** Form records *)

Lemma extract_student_id_isdigit (v : value) (sid : string) :
  (extract_student_id v).2 = Some sid -> py_isdigit sid = true.
Proof.
  destruct v as [|e| | |]; simpl; try discriminate.
  match goal with |- context [py_isdigit ?x] => destruct (py_isdigit x) eqn:E end;
    simpl; [intros [= <-]; exact E | discriminate].
Qed.

Lemma convert_date_format_has_slash (t : datetime) :
  contains_char "/" (convert_date_format t) = true.
Proof.
  unfold convert_date_format. rewrite contains_char_app.
  change ("/" +:+ pretty (month t)) with (String "/" (pretty (month t))).
  simpl. apply orb_true_r.
Qed.

Lemma read_forms_data_records (rows : list FormRow) :
  (read_forms_data rows).2 = omap form_record_of rows.
Proof.
  induction rows as [|row rest IH]; [reflexivity|].
  simpl. unfold form_record_of at 1.
  destruct (extract_student_id (Email row)) as [l1 sid].
  destruct (read_forms_data rest) as [l2 recs]. simpl in *.
  destruct sid; simpl; rewrite IH; reflexivity.
Qed.

Lemma read_forms_data_log (rows : list FormRow) :
  (read_forms_data rows).1
  = rows ≫= (fun row => (extract_student_id (Email row)).1).
Proof.
  induction rows as [|row rest IH]; [reflexivity|].
  simpl. destruct (extract_student_id (Email row)) as [l1 sid].
  destruct (read_forms_data rest) as [l2 recs]. simpl in *.
  destruct sid; simpl; rewrite IH; reflexivity.
Qed.

(** X8: the records read from the form export are exactly the rows whose
    e-mail normalizes, each with the normalized identifier, the date label
    of its start time and its completion time, in the order of the export,
    and the warnings are those of the rows in the same order; so there are
    never more records than rows, every record comes from a row, its
    student id is a non-empty digit string, its date label holds a slash,
    so the roster indexer would take it as a date label, and every row
    whose e-mail normalizes has its record. *)
Theorem read_forms_data_invariant (rows : list FormRow) :
  (read_forms_data rows).2 = omap form_record_of rows /\
  (read_forms_data rows).1
    = rows ≫= (fun row => (extract_student_id (Email row)).1) /\
  (forall rows1 rows2,
     rows = (rows1 ++ rows2)%list ->
     (read_forms_data rows).2
     = ((read_forms_data rows1).2 ++ (read_forms_data rows2).2)%list) /\
  (length (read_forms_data rows).2 <= length rows)%nat /\
  (forall f, f ∈ (read_forms_data rows).2 ->
     py_isdigit (student_id f) = true /\
     date_label (VStr (date f)) = Some (date f) /\
     exists row, row ∈ rows /\
       (extract_student_id (Email row)).2 = Some (student_id f) /\
       date f = convert_date_format (Start_time row) /\
       completion_time f = Completion_time row) /\
  (forall row sid, row ∈ rows ->
     (extract_student_id (Email row)).2 = Some sid ->
     mk_form_record sid (convert_date_format (Start_time row)) (Completion_time row)
       ∈ (read_forms_data rows).2).
Proof.
  split; [apply read_forms_data_records|].
  split; [apply read_forms_data_log|].
  split.
  { intros rows1 rows2 ->. rewrite !read_forms_data_records.
    apply omap_app. }
  rewrite read_forms_data_records. split; [|split].
  - induction rows as [|row rest IH]; [simpl; lia|].
    change (omap form_record_of (row :: rest))
      with (match form_record_of row with
            | Some y => y :: omap form_record_of rest
            | None => omap form_record_of rest
            end).
    destruct (form_record_of row); simpl length; lia.
  - intros f Hf. apply list_elem_of_omap in Hf as (row & Hrow & Hrec).
    unfold form_record_of in Hrec.
    destruct (extract_student_id (Email row)).2 as [sid|] eqn:E; [|discriminate].
    injection Hrec as <-. simpl.
    split; [eapply extract_student_id_isdigit, E|]. split.
    + rewrite convert_date_format_has_slash. reflexivity.
    + exists row. auto.
  - intros row sid Hrow E. apply list_elem_of_omap. exists row.
    split; [exact Hrow|]. unfold form_record_of. rewrite E. reflexivity.
Qed.

Example read_forms_data_sample :
  read_forms_data sample_form_rows
  = ([WarnNonNumericId "abc@x.com"],
     [ mk_form_record "4186054" "26/11" (mk_datetime 2024 11 26 13 15 0 0);
       mk_form_record "5550000" "26/11" (mk_datetime 2024 11 26 13 2 0 0);
       mk_form_record "4019025" "3/12" (mk_datetime 2024 12 3 13 2 0 0) ]).
Proof. vm_compute. reflexivity. Qed.

Lemma isdigit_char_facts (c : ascii) :
  py_isdigit_char c = true ->
  py_isspace c = false /\ Ascii.eqb c "@" = false /\
  (code c =? 83) || (code c =? 115) || (code c =? 223) = false.
Proof.
  unfold py_isdigit_char, is_ascii_digit, py_isspace. rewrite ascii_eqb_code.
  change (code "@") with 64. intros H.
  assert (Hc : 48 <= code c <= 57 \/ code c = 178 \/ code c = 179 \/ code c = 185).
  { repeat (apply orb_true_iff in H as [H|H]);
      [apply andb_true_iff in H as [H1 H2]; apply Z.leb_le in H1, H2; lia | | |];
      apply Z.eqb_eq in H; lia. }
  repeat match goal with
         | |- context [?a <=? ?b] => destruct (Z.leb_spec a b); try lia
         | |- context [?a =? ?b] => destruct (Z.eqb_spec a b); try lia
         end; auto.
Qed.

Lemma isdigit_string_facts (s : string) :
  string_forall py_isdigit_char s = true ->
  contains_char "@" s = false /\
  (s <> EmptyString -> exists l, last_char s = Some l /\ py_isspace l = false).
Proof.
  induction s as [|c r IH]; [split; [reflexivity | congruence]|].
  intros H. simpl in H. apply andb_true_iff in H as [Hc Hr].
  destruct (isdigit_char_facts c Hc) as (Hsp & Hat & _).
  destruct (IH Hr) as [Hno Hlast]. split.
  - simpl. rewrite Hat, Hno. reflexivity.
  - intros _. destruct r as [|c' r'].
    + exists c. split; [reflexivity | exact Hsp].
    + change (last_char (String c (String c' r'))) with (last_char (String c' r')).
      apply Hlast. discriminate.
Qed.

(** X9: normalization is idempotent: an identifier the normalizer returned
    is returned unchanged, without a warning, when it is normalized
    again. *)
Theorem extract_student_id_idempotent (v : value) (sid : string) :
  (extract_student_id v).2 = Some sid ->
  extract_student_id (VStr sid) = ([], Some sid).
Proof.
  intros H. apply extract_student_id_isdigit in H.
  assert (Hall : string_forall py_isdigit_char sid = true /\ sid <> EmptyString).
  { unfold py_isdigit in H. destruct sid; [discriminate|]. split; [exact H | discriminate]. }
  destruct Hall as [Hall Hne].
  destruct (isdigit_string_facts sid Hall) as [Hat Hlast].
  unfold extract_student_id.
  rewrite (py_split_no_sep "@" sid Hat). simpl hd.
  assert (Hstrip : py_strip sid = sid).
  { destruct sid as [|c r]; [congruence|].
    pose proof Hall as Hc. simpl in Hc. apply andb_true_iff in Hc as [Hc _].
    destruct (isdigit_char_facts c Hc) as (Hsp & _).
    pose proof (py_strip_padded EmptyString (String c r) EmptyString eq_refl eq_refl)
      as Hpad.
    change (EmptyString +:+ String c r +:+ EmptyString)
      with (String c r +:+ EmptyString) in Hpad.
    rewrite string_app_empty_r in Hpad. apply Hpad.
    split; [exact Hsp | apply Hlast; discriminate]. }
  rewrite Hstrip.
  destruct sid as [|c r]; [congruence|].
  pose proof Hall as Hc. simpl in Hc. apply andb_true_iff in Hc as [Hc _].
  destruct (isdigit_char_facts c Hc) as (_ & _ & HS).
  unfold upper_startswith_S. rewrite HS, H. reflexivity.
Qed.

Lemma extract_student_id_idempotent_witness :
  extract_student_id (VStr "4186054") = ([], Some "4186054").
Proof.
  apply (extract_student_id_idempotent (VStr " S4186054 @rmit.edu.vn")).
  reflexivity.
Defined.

(** ** Date labels *)

Lemma calendar_labels_distinct :
  forallb (fun a =>
    forallb (fun b =>
      implb (String.eqb (day_month_label a) (day_month_label b))
            ((a.1 =? b.1) && (a.2 =? b.2)))
      calendar_days)
    calendar_days = true.
Proof. vm_compute. reflexivity. Qed.

Lemma elem_of_calendar_days (d m : Z) :
  1 <= d <= 31 -> 1 <= m <= 12 -> (d, m) ∈ calendar_days.
Proof.
  intros Hd Hm. unfold calendar_days.
  apply list_elem_of_bind. exists d. split; [|apply elem_of_seqZ; lia].
  apply list_elem_of_bind. exists m. split; [|apply elem_of_seqZ; lia].
  apply list_elem_of_singleton. reflexivity.
Qed.

(** X10: the date label is the join key it is meant to be: for two
    datetimes with days from 1 to 31 and months from 1 to 12, equal labels
    mean the same day and the same month; and a label always holds a slash,
    as the roster indexer requires of a date header. *)
Theorem convert_date_format_injective (t1 t2 : datetime) :
  1 <= day t1 <= 31 -> 1 <= month t1 <= 12 ->
  1 <= day t2 <= 31 -> 1 <= month t2 <= 12 ->
  (convert_date_format t1 = convert_date_format t2 ->
   day t1 = day t2 /\ month t1 = month t2) /\
  date_label (VStr (convert_date_format t1)) = Some (convert_date_format t1).
Proof.
  intros Hd1 Hm1 Hd2 Hm2. split.
  - intros E.
    pose proof calendar_labels_distinct as H.
    rewrite forallb_forall in H.
    specialize (H (day t1, month t1)
                  (proj1 (list_elem_of_In _ _) (elem_of_calendar_days _ _ Hd1 Hm1))).
    rewrite forallb_forall in H.
    specialize (H (day t2, month t2)
                  (proj1 (list_elem_of_In _ _) (elem_of_calendar_days _ _ Hd2 Hm2))).
    unfold day_month_label in H. simpl in H.
    unfold convert_date_format in E. rewrite E, String.eqb_refl in H. simpl in H.
    apply andb_true_iff in H as [H1 H2].
    apply Z.eqb_eq in H1, H2. auto.
  - simpl. rewrite convert_date_format_has_slash. reflexivity.
Qed.

Lemma convert_date_format_injective_witness :
  (convert_date_format (mk_datetime 2024 12 3 9 0 0 0)
   = convert_date_format (mk_datetime 2025 12 3 17 30 0 0) ->
   3 = 3 /\ 12 = 12) /\
  date_label (VStr (convert_date_format (mk_datetime 2024 12 3 9 0 0 0)))
  = Some (convert_date_format (mk_datetime 2024 12 3 9 0 0 0)).
Proof.
  apply (convert_date_format_injective
           (mk_datetime 2024 12 3 9 0 0 0) (mk_datetime 2025 12 3 17 30 0 0));
    simpl; lia.
Defined.

Example convert_date_format_examples :
  convert_date_format (mk_datetime 2024 11 26 0 0 0 0) = "26/11"
  /\ convert_date_format (mk_datetime 2024 12 3 0 0 0 0) = "3/12".
Proof. split; vm_compute; reflexivity. Qed.

(** ** What the reconciler leaves alone *)

Section WriteInvariant.

Variable date_columns : gmap string date_cols.
Variable Inv : DataFrame -> Prop.

Hypothesis Inv_set : forall df df' r c v d cols,
  Inv df -> date_columns !! d = Some cols -> (5 <= r)%nat ->
  c = code_col cols \/ c = minutes_col cols ->
  iloc_set df r c v = Ok df' -> Inv df'.

Lemma find_student_invariant (rows : list nat) (sid date : string) (cols : date_cols)
    (t : datetime) (start : string) (d : Z) :
  date_columns !! date = Some cols ->
  (forall r, r ∈ rows -> (5 <= r)%nat) ->
  forall df, Inv df ->
    post (find_student rows df sid date cols t start d) (fun res => Inv res.1).
Proof.
  intros Hd. induction rows as [|r rows IH]; intros Hrows df HInv; simpl.
  - apply post_ret, HInv.
  - pbind; [apply post_trivial|]. intros cell _.
    pbind; [apply post_trivial|]. intros tsid _.
    destruct (decide (tsid = Some sid)).
    2:{ apply IH; [|exact HInv]. intros r' Hr'. apply Hrows. right. exact Hr'. }
    pbind; [apply post_trivial|]. intros [c m] _.
    pbind; [apply post_lift; intros a Ha; exact Ha|].
    intros df1 H1. simpl in H1.
    pbind; [apply post_lift; intros a Ha; exact Ha|].
    intros df2 H2. simpl in H2.
    pbind; [apply post_trivial|]. intros _ _.
    apply post_ret. simpl.
    assert (Hr : (5 <= r)%nat) by (apply Hrows; left).
    eapply Inv_set; [|exact Hd|exact Hr| |exact H2]; [|right; reflexivity].
    eapply Inv_set; [exact HInv|exact Hd|exact Hr| |exact H1]. left; reflexivity.
Qed.

Lemma apply_responses_invariant (start : string) (d : Z) (forms : list FormRecord) :
  forall df, Inv df -> post (apply_responses date_columns start d forms df) Inv.
Proof.
  induction forms as [|f forms IH]; intros df HInv; simpl.
  - apply post_ret, HInv.
  - pbind; [|intros df1 H1; apply IH, H1].
    unfold apply_response.
    pbind; [apply post_trivial|]. intros sid _.
    destruct (date_columns !! date f) as [cols|] eqn:Ed.
    + pbind.
      * apply (find_student_invariant _ _ _ _ _ _ _ Ed); [|exact HInv].
        intros r Hr. apply elem_of_student_rows in Hr. lia.
      * intros [df' found] H'. simpl in H'. destruct found.
        -- apply post_ret, H'.
        -- pbind; [apply post_trivial|]. intros _ _. apply post_ret, H'.
    + pbind; [apply post_trivial|]. intros _ _. apply post_ret, HInv.
Qed.

Lemma mark_absent_rows_invariant (rows : list nat) (date : string) (cols : date_cols) :
  date_columns !! date = Some cols ->
  (forall r, r ∈ rows -> (5 <= r)%nat) ->
  forall df, Inv df -> post (mark_absent_rows rows date cols df) Inv.
Proof.
  intros Hd. induction rows as [|r rows IH]; intros Hrows df HInv; simpl.
  - apply post_ret, HInv.
  - assert (Hrest : forall r', r' ∈ rows -> (5 <= r')%nat)
      by (intros r' Hr'; apply Hrows; right; exact Hr').
    pbind; [apply post_trivial|]. intros cur _.
    destruct (eq_str cur "--"); [|apply IH; assumption].
    pbind; [apply post_lift; intros a Ha; exact Ha|].
    intros df1 H1. simpl in H1.
    pbind; [apply post_lift; intros a Ha; exact Ha|].
    intros df2 H2. simpl in H2.
    pbind; [apply post_trivial|]. intros st _.
    pbind; [apply post_trivial|]. intros _ _.
    apply IH; [exact Hrest|].
    assert (Hr : (5 <= r)%nat) by (apply Hrows; left).
    eapply Inv_set; [|exact Hd|exact Hr| |exact H2]; [|right; reflexivity].
    eapply Inv_set; [exact HInv|exact Hd|exact Hr| |exact H1]. left; reflexivity.
Qed.

Lemma mark_absent_invariant (dates : list string) :
  forall df, Inv df -> post (mark_absent dates date_columns df) Inv.
Proof.
  induction dates as [|d dates IH]; intros df HInv; simpl.
  - apply post_ret, HInv.
  - destruct (date_columns !! d) as [cols|] eqn:Ed; [|apply IH, HInv].
    pbind; [|intros df1 H1; apply IH, H1].
    apply (mark_absent_rows_invariant _ _ _ Ed); [|exact HInv].
    intros r Hr. apply elem_of_student_rows in Hr. lia.
Qed.

Lemma update_attendance_data_invariant (forms : list FormRecord) (df : DataFrame)
    (start : string) (d : Z) :
  Inv df -> post (update_attendance_data forms df date_columns start d) Inv.
Proof.
  intros HInv. unfold update_attendance_data.
  pbind; [apply apply_responses_invariant, HInv|].
  intros df1 H1. apply mark_absent_invariant, H1.
Qed.

End WriteInvariant.

Lemma only_attendance_cells_set (date_columns : gmap string date_cols)
    (df0 df df' : DataFrame) (r c : nat) (v : value) (d : string) (cols : date_cols) :
  only_attendance_cells date_columns df0 df ->
  date_columns !! d = Some cols -> (5 <= r)%nat ->
  c = code_col cols \/ c = minutes_col cols ->
  iloc_set df r c v = Ok df' ->
  only_attendance_cells date_columns df0 df'.
Proof.
  intros HI Hd Hr Hc Hset r' c'.
  rewrite (iloc_get_set _ _ _ _ _ r' c' Hset).
  destruct (decide (r' = r /\ c' = c)) as [[-> ->]|_]; [|apply HI].
  right. split; [exact Hr|]. exists d, cols. auto.
Qed.

Lemma update_attendance_data_only_attendance_cells
    (forms : list FormRecord) (template : DataFrame)
    (date_columns : gmap string date_cols) (start : string) (d : Z) :
  post (update_attendance_data forms template date_columns start d)
       (only_attendance_cells date_columns template).
Proof.
  apply (update_attendance_data_invariant date_columns
           (only_attendance_cells date_columns template)).
  - intros df df' r c v d0 cols. apply only_attendance_cells_set.
  - intros r c. left. reflexivity.
Qed.

(** X11: the reconciler only touches attendance cells: when it returns,
    the frame has the shape of the template, the five header rows are as
    they were, every column that is not the code or minutes column of a
    date of the map is as it was, and any cell that differs lies in a
    student row and in such a column. *)
Theorem update_attendance_data_frame
    (forms : list FormRecord) (template : DataFrame)
    (date_columns : gmap string date_cols) (start : string) (d : Z)
    (l : list event) (df' : DataFrame) :
  update_attendance_data forms template date_columns start d = (l, Ok df') ->
  ncols df' = ncols template /\ nrows df' = nrows template /\
  (forall r c, (r < 5)%nat -> iloc_get df' r c = iloc_get template r c) /\
  (forall r c, ~ pair_column date_columns c ->
     iloc_get df' r c = iloc_get template r c) /\
  (forall r c, iloc_get df' r c <> iloc_get template r c ->
     (5 <= r < nrows template)%nat /\ pair_column date_columns c).
Proof.
  intros H.
  pose proof (update_attendance_data_only_attendance_cells _ _ _ _ _ _ _ H) as HI.
  destruct (update_attendance_data_evolves _ _ _ _ _ _ _ H) as [He _].
  split; [apply He|]. split; [apply evolves_nrows, He|].
  split; [|split].
  - intros r c Hr. destruct (HI r c) as [E|[Hge _]]; [exact E | lia].
  - intros r c Hn. destruct (HI r c) as [E|[_ Hp]]; [exact E | contradiction].
  - intros r c Hne. destruct (HI r c) as [E|[Hge Hp]]; [contradiction|].
    split; [|exact Hp]. split; [exact Hge|].
    destruct (decide (r < nrows template)%nat) as [Hlt|Hnlt]; [exact Hlt|].
    exfalso. apply Hne. unfold iloc_get.
    rewrite (lookup_ge_None_2 (data template) r) by (unfold nrows in Hnlt; lia).
    rewrite (lookup_ge_None_2 (data df') r); [reflexivity|].
    pose proof (evolves_nrows _ _ He) as Hn. unfold nrows in *. lia.
Qed.

Lemma update_attendance_data_frame_witness :
  exists l df',
    update_attendance_data sample_forms sample_template sample_date_columns
      "13:00" 180 = (l, Ok df') /\
    ncols df' = ncols sample_template /\ nrows df' = nrows sample_template /\
    (forall r c, (r < 5)%nat -> iloc_get df' r c = iloc_get sample_template r c) /\
    (forall r c, ~ pair_column sample_date_columns c ->
       iloc_get df' r c = iloc_get sample_template r c) /\
    (forall r c, iloc_get df' r c <> iloc_get sample_template r c ->
       (5 <= r < nrows sample_template)%nat /\ pair_column sample_date_columns c).
Proof.
  eexists _, _. split; [vm_compute; reflexivity|].
  eapply (update_attendance_data_frame sample_forms sample_template
            sample_date_columns "13:00" 180).
  vm_compute. reflexivity.
Defined.

(** ** First match wins *)

Lemma find_student_no_match (rows : list nat) (df : DataFrame) (sid date : string)
    (cols : date_cols) (t : datetime) (start : string) (d : Z)
    (l : list event) (df' : DataFrame) :
  find_student rows df sid date cols t start d = (l, Ok (df', false)) ->
  l = [] /\ df' = df /\ forall r, r ∈ rows -> ~ row_matches df sid r.
Proof.
  revert l. induction rows as [|r rows IH]; intros l; simpl.
  - intros [= <- <-]. repeat split. intros r Hr. inversion Hr.
  - intros H.
    apply bind_Ok_inv in H as (l1 & cell & l2 & Hcell & H & ->).
    injection Hcell as <- Hcell.
    apply bind_Ok_inv in H as (l3 & tsid & l4 & Ht & H & ->).
    injection Ht as <- Ht.
    destruct (decide (tsid = Some sid)) as [->|Hne].
    + exfalso.
      apply bind_Ok_inv in H as (? & [c m] & ? & _ & H & _).
      apply bind_Ok_inv in H as (? & df1 & ? & _ & H & _).
      apply bind_Ok_inv in H as (? & df2 & ? & _ & H & _).
      apply bind_Ok_inv in H as (? & [] & ? & _ & H & _).
      injection H as _ _ Hf. discriminate Hf.
    + destruct (IH _ H) as (-> & -> & Hrest).
      repeat split. intros r' Hr' (v & Hv & Hm).
      apply elem_of_cons in Hr' as [->|Hr']; [|apply (Hrest r' Hr'); exists v; auto].
      rewrite Hcell in Hv. injection Hv as <-. rewrite Ht in Hm.
      injection Hm as ->. apply Hne. reflexivity.
Qed.

Lemma find_student_match (rows : list nat) (df : DataFrame) (sid date : string)
    (cols : date_cols) (t : datetime) (start : string) (d : Z)
    (l : list event) (df' : DataFrame) :
  find_student rows df sid date cols t start d = (l, Ok (df', true)) ->
  exists pre r post c m df1,
    rows = (pre ++ r :: post)%list /\
    (forall r', r' ∈ pre -> ~ row_matches df sid r') /\
    row_matches df sid r /\
    calculate_attendance t start d = Ok (c, m) /\
    iloc_set df r (code_col cols) (VStr c) = Ok df1 /\
    iloc_set df1 r (minutes_col cols) (VInt m) = Ok df' /\
    l = [Updated sid date c m].
Proof.
  revert l. induction rows as [|r rows IH]; intros l; simpl.
  - intros [= _ _ Hf]. 
  - intros H.
    apply bind_Ok_inv in H as (l1 & cell & l2 & Hcell & H & ->).
    injection Hcell as <- Hcell.
    apply bind_Ok_inv in H as (l3 & tsid & l4 & Ht & H & ->).
    injection Ht as <- Ht.
    destruct (decide (tsid = Some sid)) as [->|Hne].
    + apply bind_Ok_inv in H as (l5 & [c m] & l6 & Hc & H & ->).
      injection Hc as <- Hc.
      apply bind_Ok_inv in H as (l7 & df1 & l8 & H1 & H & ->).
      injection H1 as <- H1.
      apply bind_Ok_inv in H as (l9 & df2 & l10 & H2 & H & ->).
      injection H2 as <- H2.
      apply bind_Ok_inv in H as (l11 & [] & l12 & Hp & H & ->).
      injection Hp as <-. injection H as <- <-.
      exists [], r, rows, c, m, df1. repeat split; auto.
      * intros r' Hr'. inversion Hr'.
      * exists cell. auto.
    + destruct (IH _ H) as (pre & r0 & post & c & m & df1 & -> & Hpre & Hm & Hc & H1 & H2 & ->).
      exists (r :: pre), r0, post, c, m, df1. repeat split; auto.
      intros r' Hr' (v & Hv & Hmv).
      apply elem_of_cons in Hr' as [->|Hr']; [|apply (Hpre r' Hr'); exists v; auto].
      rewrite Hcell in Hv. injection Hv as <-. rewrite Ht in Hmv.
      injection Hmv as ->. apply Hne. reflexivity.
Qed.

(** X12: the scan for a student stops at the first roster row whose
    identifier matches.  When it reports no match nothing is printed and
    the frame is unchanged, and no scanned row matches.  When it reports a
    match, it is the first matching row of the scan that gets the computed
    code and minutes; every other row, a later row with the same identifier
    included, is left as it was, and one update is printed. *)
Theorem find_student_first_match (rows : list nat) (df : DataFrame)
    (sid date : string) (cols : date_cols) (t : datetime) (start : string) (d : Z)
    (l : list event) (df' : DataFrame) (found : bool) :
  find_student rows df sid date cols t start d = (l, Ok (df', found)) ->
  (found = false /\ l = [] /\ df' = df /\
   forall r, r ∈ rows -> ~ row_matches df sid r)
  \/
  (found = true /\
   exists pre r post c m,
     rows = (pre ++ r :: post)%list /\
     (forall r', r' ∈ pre -> ~ row_matches df sid r') /\
     row_matches df sid r /\
     calculate_attendance t start d = Ok (c, m) /\
     l = [Updated sid date c m] /\
     iloc_get df' r (minutes_col cols) = Ok (VInt m) /\
     (code_col cols <> minutes_col cols ->
      iloc_get df' r (code_col cols) = Ok (VStr c)) /\
     (forall r' c', r' <> r -> iloc_get df' r' c' = iloc_get df r' c') /\
     (forall c', c' <> code_col cols -> c' <> minutes_col cols ->
        iloc_get df' r c' = iloc_get df r c')).
Proof.
  intros H. destruct found.
  - right. split; [reflexivity|].
    apply find_student_match in H
      as (pre & r & post & c & m & df1 & -> & Hpre & Hm & Hc & H1 & H2 & ->).
    exists pre, r, post, c, m. repeat split; auto.
    + rewrite (iloc_get_set _ _ _ _ _ _ _ H2), decide_True by auto. reflexivity.
    + intros Hne. rewrite (iloc_get_set _ _ _ _ _ _ _ H2).
      rewrite decide_False by (intros [_ E]; congruence).
      rewrite (iloc_get_set _ _ _ _ _ _ _ H1), decide_True by auto. reflexivity.
    + intros r' c' Hne. rewrite (iloc_get_set _ _ _ _ _ _ _ H2).
      rewrite decide_False by tauto.
      rewrite (iloc_get_set _ _ _ _ _ _ _ H1), decide_False by tauto. reflexivity.
    + intros c' Hc1 Hc2. rewrite (iloc_get_set _ _ _ _ _ _ _ H2).
      rewrite decide_False by tauto.
      rewrite (iloc_get_set _ _ _ _ _ _ _ H1), decide_False by tauto. reflexivity.
  - left. split; [reflexivity|]. apply find_student_no_match in H. exact H.
Qed.

Lemma find_student_first_match_witness :
  exists l df',
    find_student [5; 6; 7]%nat duplicate_template "4186054" "26/11"
      (mk_date_cols 5 6) (mk_datetime 2024 11 26 13 15 0 0) "13:00" 180
    = (l, Ok (df', true)) /\
    l = [Updated "4186054" "26/11" "Y" 165] /\
    iloc_get df' 6 5 = Ok (VStr "Y") /\ iloc_get df' 6 6 = Ok (VInt 165) /\
    iloc_get df' 7 5 = Ok (VStr "--") /\ iloc_get df' 7 6 = Ok (VStr "--").
Proof.
  eexists _, _. split; [vm_compute; reflexivity|].
  destruct (find_student_first_match [5; 6; 7]%nat duplicate_template "4186054"
              "26/11" (mk_date_cols 5 6) (mk_datetime 2024 11 26 13 15 0 0)
              "13:00" 180 _ _ true eq_refl) as [[Hf _] | _]; [discriminate Hf|].
  repeat split; vm_compute; reflexivity.
Defined.

(** ** Dates the roster does not have *)

Lemma apply_responses_unmatched_dates (date_columns : gmap string date_cols)
    (start : string) (d : Z) (forms : list FormRecord) (df : DataFrame) :
  (forall f, f ∈ forms ->
     date_columns !! date f = None /\
     exists n, int_of_float_of_id (student_id f) = Ok n) ->
  exists l,
    apply_responses date_columns start d forms df = (l, Ok df) /\
    Forall2 (fun f ev =>
               exists n, int_of_float_of_id (student_id f) = Ok n /\
                         ev = WarnDateNotFound (date f) (pretty n)) forms l.
Proof.
  induction forms as [|f forms IH]; intros H.
  - exists []. split; [reflexivity | constructor].
  - destruct (H f ltac:(left)) as [Hd (n & Hn)].
    destruct IH as (l & Hl & HF).
    { intros f' Hf'. apply H. right. exact Hf'. }
    exists (WarnDateNotFound (date f) (pretty n) :: l). split.
    + simpl. rewrite (apply_response_unmatched_date _ _ _ _ _ _ Hn Hd).
      unfold mbind, M_bind. rewrite Hl. reflexivity.
    + constructor; [eauto | exact HF].
Qed.

Lemma mark_absent_unmatched_dates (date_columns : gmap string date_cols)
    (dates : list string) (df : DataFrame) :
  (forall d, d ∈ dates -> date_columns !! d = None) ->
  mark_absent dates date_columns df = ([], Ok df).
Proof.
  induction dates as [|d dates IH]; intros H; simpl; [reflexivity|].
  rewrite (H d) by left. apply IH. intros d' Hd'. apply H. right. exact Hd'.
Qed.

(** X13: form dates the roster does not track change nothing: when no
    form record's date is a key of the map (in particular when the map is
    empty) and every form id converts, the reconciler returns the template
    itself and prints exactly one date warning per record, in order; no
    student is marked absent. *)
Theorem update_attendance_data_unmatched_dates
    (forms : list FormRecord) (template : DataFrame)
    (date_columns : gmap string date_cols) (start : string) (d : Z) :
  (forall f, f ∈ forms ->
     date_columns !! date f = None /\
     exists n, int_of_float_of_id (student_id f) = Ok n) ->
  exists l,
    update_attendance_data forms template date_columns start d = (l, Ok template) /\
    Forall2 (fun f ev =>
               exists n, int_of_float_of_id (student_id f) = Ok n /\
                         ev = WarnDateNotFound (date f) (pretty n)) forms l.
Proof.
  intros H.
  destruct (apply_responses_unmatched_dates date_columns start d forms template H)
    as (l & Hl & HF).
  exists l. split; [|exact HF].
  unfold update_attendance_data, mbind, M_bind. rewrite Hl.
  rewrite mark_absent_unmatched_dates.
  - rewrite app_nil_r. reflexivity.
  - intros d0 Hd0. apply elem_of_dates_in_forms in Hd0 as (f & Hf & <-).
    apply H, Hf.
Qed.

Lemma update_attendance_data_unmatched_dates_witness :
  exists l,
    update_attendance_data sample_forms sample_template ∅ "13:00" 180
    = (l, Ok sample_template) /\
    Forall2 (fun f ev =>
               exists n, int_of_float_of_id (student_id f) = Ok n /\
                         ev = WarnDateNotFound (date f) (pretty n)) sample_forms l.
Proof.
  apply (update_attendance_data_unmatched_dates sample_forms sample_template ∅
           "13:00" 180).
  intros f Hf. split; [apply lookup_empty|].
  unfold sample_forms in Hf. vm_compute in Hf.
  repeat (apply elem_of_cons in Hf as [->|Hf]); [| | |inversion Hf];
    eexists; vm_compute; reflexivity.
Defined.

(** ** A date label in the last header column *)

Lemma iloc_set_out_of_frame (df : DataFrame) (r c : nat) (v : value) :
  wf_df df -> (ncols df <= c)%nat -> iloc_set df r c v = Raise IndexError.
Proof.
  intros Hwf Hc. unfold iloc_set.
  destruct (data df !! r) as [row|] eqn:Er; [|reflexivity].
  rewrite (lookup_ge_None_2 row c); [reflexivity|].
  rewrite (proj1 (Forall_lookup _ _) Hwf _ _ Er). exact Hc.
Qed.

Lemma wf_df_set (df df' : DataFrame) (r c : nat) (v : value) :
  wf_df df -> iloc_set df r c v = Ok df' -> wf_df df' /\ ncols df' = ncols df.
Proof.
  intros Hwf H. apply iloc_set_Ok in H as (row & Hrow & Hc & ->).
  split; [|reflexivity]. unfold wf_df in *. simpl.
  apply Forall_insert; [exact Hwf|].
  rewrite length_insert. apply (proj1 (Forall_lookup _ _) Hwf _ _ Hrow).
Qed.

Lemma mark_absent_rows_out_of_frame (rows : list nat) (date : string)
    (cols : date_cols) (df : DataFrame) :
  wf_df df -> (ncols df <= minutes_col cols)%nat ->
  (forall r, r ∈ rows -> exists v, iloc_get df r (code_col cols) = Ok v) ->
  (exists r, r ∈ rows /\ iloc_get df r (code_col cols) = Ok (VStr "--")) ->
  mark_absent_rows rows date cols df = ([], Raise IndexError).
Proof.
  intros Hwf Hmc. induction rows as [|r rows IH]; intros Hdef (r0 & Hr0 & Hs).
  - inversion Hr0.
  - simpl. destruct (Hdef r ltac:(left)) as [v Hv].
    rewrite Hv, M_bind_nil_Ok.
    destruct (eq_str v "--") eqn:Ev.
    + destruct (iloc_set_defined df r (code_col cols) (VStr "N")) as [df1 H1]; [eauto|].
      rewrite H1, M_bind_nil_Ok.
      destruct (wf_df_set _ _ _ _ _ Hwf H1) as [Hwf1 Hn1].
      rewrite (iloc_set_out_of_frame df1 r (minutes_col cols) (VInt 0) Hwf1)
        by (rewrite Hn1; exact Hmc).
      reflexivity.
    + apply IH.
      * intros r' Hr'. apply Hdef. right. exact Hr'.
      * exists r0. split; [|exact Hs].
        apply elem_of_cons in Hr0 as [->|Hr0]; [|exact Hr0].
        rewrite Hv in Hs. injection Hs as ->. discriminate Ev.
Qed.

(** X14: a date label in the last header column cannot be written.  The
    indexer gives such a label the last column as code column and the
    column after it, which the frame does not have, as minutes column; and
    Phase B for a pair whose minutes column lies outside the frame raises
    [IndexError] at the first row that holds the sentinel, having printed
    nothing. *)
Theorem last_column_label_raises :
  (forall df date_row label,
     wf_df df -> data df !! 3%nat = Some date_row ->
     last date_row = Some (VStr label) -> contains_char "/" label = true ->
     index_dates 0 date_row ∅ !! label
     = Some (mk_date_cols (ncols df - 1) (ncols df))) /\
  (forall rows date cols df,
     wf_df df -> (ncols df <= minutes_col cols)%nat ->
     (forall r, r ∈ rows -> exists v, iloc_get df r (code_col cols) = Ok v) ->
     (exists r, r ∈ rows /\ iloc_get df r (code_col cols) = Ok (VStr "--")) ->
     mark_absent_rows rows date cols df = ([], Raise IndexError)).
Proof.
  split; [|exact mark_absent_rows_out_of_frame].
  intros df date_row label Hwf H3 Hlast Hc.
  assert (Hlen : length date_row = ncols df)
    by (eapply (proj1 (Forall_lookup _ _) Hwf), H3).
  rewrite last_lookup in Hlast.
  assert (Hpos : (0 < length date_row)%nat).
  { destruct date_row; [discriminate Hlast | simpl; lia]. }
  apply index_dates_lookup. left. exists (pred (length date_row)).
  split; [|f_equal; lia].
  split; [exact Hlast|]. split; [exact Hc|].
  intros j Hj. rewrite lookup_ge_None_2 by lia. discriminate.
Qed.

Example last_column_label_sample :
  read_template_file narrow_template
    = ([], Ok (narrow_template, {[ "26/11" := mk_date_cols 2 3 ]}))
  /\ update_attendance_data
       [mk_form_record "5550000" "26/11" (mk_datetime 2024 11 26 13 15 0 0)]
       narrow_template {[ "26/11" := mk_date_cols 2 3 ]} "13:00" 180
     = ([WarnStudentNotFound "5550000"], Raise IndexError).
Proof. split; vm_compute; reflexivity. Qed.

(** ** Phase B, cell by cell *)

Lemma holds_sentinel_set (df df' : DataFrame) (r c : nat) (v : value) (r' c' : nat) :
  iloc_set df r c v = Ok df' ->
  holds_sentinel df' r' c'
  = if decide (r' = r /\ c' = c) then eq_str v "--" else holds_sentinel df r' c'.
Proof.
  intros H. unfold holds_sentinel. rewrite (iloc_get_set _ _ _ _ _ r' c' H).
  destruct (decide _); reflexivity.
Qed.

Lemma mark_absent_rows_cells (rows : list nat) (date : string) (cols : date_cols) :
  forall df l df',
    mark_absent_rows rows date cols df = (l, Ok df') ->
    forall r c, iloc_get df' r c = absent_cell df cols rows r c.
Proof.
  induction rows as [|r0 rows IH]; intros df l df' H r c.
  - injection H as _ <-. reflexivity.
  - simpl in H.
    apply bind_Ok_inv in H as (l1 & cur & l2 & Hcur & H & ->).
    injection Hcur as <- Hcur.
    assert (Hs0 : holds_sentinel df r0 (code_col cols) = eq_str cur "--")
      by (unfold holds_sentinel; rewrite Hcur; reflexivity).
    destruct (eq_str cur "--") eqn:Ecur.
    + apply bind_Ok_inv in H as (l3 & df1 & l4 & H1 & H & ->).
      injection H1 as <- H1.
      apply bind_Ok_inv in H as (l5 & df2 & l6 & H2 & H & ->).
      injection H2 as <- H2.
      apply bind_Ok_inv in H as (l7 & st & l8 & _ & H & ->).
      apply bind_Ok_inv in H as (l9 & [] & l10 & _ & H & ->).
      rewrite (IH _ _ _ H r c). unfold absent_cell.
      rewrite (holds_sentinel_set _ _ _ _ _ r (code_col cols) H2).
      rewrite (holds_sentinel_set _ _ _ _ _ r (code_col cols) H1).
      rewrite (iloc_get_set _ _ _ _ _ r c H2), (iloc_get_set _ _ _ _ _ r c H1).
      destruct (decide (r = r0)) as [->|Hne].
      * assert (Hoff : (if decide (r0 = r0 /\ code_col cols = minutes_col cols)
                        then eq_str (VInt 0) "--"
                        else if decide (r0 = r0 /\ code_col cols = code_col cols)
                             then eq_str (VStr "N") "--"
                             else holds_sentinel df r0 (code_col cols)) = false).
        { destruct (decide _); [reflexivity|].
          rewrite decide_True by auto. reflexivity. }
        rewrite Hoff, andb_false_r, Hs0.
        rewrite (bool_decide_eq_true_2 (r0 ∈ r0 :: rows)) by left. simpl.
        destruct (decide (c = minutes_col cols)) as [->|Hm].
        -- rewrite decide_True by auto. reflexivity.
        -- rewrite (decide_False (P := r0 = r0 /\ c = minutes_col cols)) by tauto.
           destruct (decide (c = code_col cols)) as [->|Hc].
           ++ rewrite decide_True by auto. reflexivity.
           ++ rewrite decide_False by tauto. reflexivity.
      * rewrite !(decide_False (P := r = r0 /\ _)) by tauto.
        assert (Hin : bool_decide (r ∈ r0 :: rows) = bool_decide (r ∈ rows)).
        { apply bool_decide_ext. rewrite elem_of_cons. tauto. }
        rewrite Hin. reflexivity.
    + rewrite (IH _ _ _ H r c). unfold absent_cell.
      destruct (decide (r = r0)) as [->|Hne].
      * rewrite Hs0, !andb_false_r. reflexivity.
      * assert (Hin : bool_decide (r ∈ r0 :: rows) = bool_decide (r ∈ rows)).
        { apply bool_decide_ext. rewrite elem_of_cons. tauto. }
        rewrite Hin. reflexivity.
Qed.

(** X15: Phase B for one date, cell by cell: when the pass over [rows]
    returns, a scanned row that held the sentinel in the code column holds
    minutes 0 and code ['N'] (the minutes written last, should the two
    columns coincide) and is otherwise as before; a row that was not
    scanned, or whose code cell held anything else, is exactly as before,
    code and minutes included. *)
Theorem mark_absent_rows_characterized (rows : list nat) (date : string)
    (cols : date_cols) (df : DataFrame) (l : list event) (df' : DataFrame) :
  mark_absent_rows rows date cols df = (l, Ok df') ->
  (forall r c, iloc_get df' r c = absent_cell df cols rows r c) /\
  (forall r, r ∈ rows -> iloc_get df r (code_col cols) = Ok (VStr "--") ->
     iloc_get df' r (minutes_col cols) = Ok (VInt 0) /\
     (code_col cols <> minutes_col cols ->
      iloc_get df' r (code_col cols) = Ok (VStr "N"))) /\
  (forall r, iloc_get df r (code_col cols) <> Ok (VStr "--") ->
     forall c, iloc_get df' r c = iloc_get df r c).
Proof.
  intros H. pose proof (mark_absent_rows_cells _ _ _ _ _ _ H) as Hcells.
  split; [exact Hcells|]. split.
  - intros r Hr Hs. rewrite !Hcells. unfold absent_cell, holds_sentinel.
    rewrite Hs, (bool_decide_eq_true_2 _ Hr). simpl.
    split; [rewrite decide_True by reflexivity; reflexivity|].
    intros Hne. rewrite decide_False by exact Hne.
    rewrite decide_True by reflexivity. reflexivity.
  - intros r Hns c. rewrite Hcells. unfold absent_cell, holds_sentinel.
    destruct (iloc_get df r (code_col cols)) as [v|e] eqn:Ev;
      [|rewrite andb_false_r; reflexivity].
    destruct (eq_str v "--") eqn:Es; [|rewrite andb_false_r; reflexivity].
    exfalso. apply Hns. f_equal.
    destruct v as [|s| | |]; try discriminate Es.
    simpl in Es. apply String.eqb_eq in Es. subst. reflexivity.
Qed.

Lemma mark_absent_rows_characterized_witness :
  exists l df',
    mark_absent_rows [5; 6; 7]%nat "26/11" (mk_date_cols 5 6) sample_template
    = (l, Ok df') /\
    (forall r c,
       iloc_get df' r c
       = absent_cell sample_template (mk_date_cols 5 6) [5; 6; 7]%nat r c) /\
    (forall r, r ∈ [5; 6; 7]%nat ->
       iloc_get sample_template r 5 = Ok (VStr "--") ->
       iloc_get df' r 6 = Ok (VInt 0) /\
       (5%nat <> 6%nat -> iloc_get df' r 5 = Ok (VStr "N"))) /\
    (forall r, iloc_get sample_template r 5 <> Ok (VStr "--") ->
       forall c, iloc_get df' r c = iloc_get sample_template r c).
Proof.
  eexists _, _. split; [vm_compute; reflexivity|].
  eapply (mark_absent_rows_characterized [5; 6; 7]%nat "26/11" (mk_date_cols 5 6)
            sample_template).
  vm_compute. reflexivity.
Defined.

Lemma last_column_label_raises_witness :
  mark_absent_rows [5]%nat "26/11" (mk_date_cols 2 3) narrow_template
  = ([], Raise IndexError).
Proof.
  apply (proj2 last_column_label_raises [5]%nat "26/11" (mk_date_cols 2 3)
           narrow_template).
  - repeat constructor.
  - simpl. lia.
  - intros r Hr. apply list_elem_of_singleton in Hr as ->. eexists. reflexivity.
  - exists 5%nat. split; [left | reflexivity].
Defined.

(** ** The writer after the reconciler *)

(** X16: the reconciler adds only attendance cells to what the writer
    writes.  Against any sheet, every position written for the reconciled
    roster is either a position that would be written for the untouched
    roster as well (a cell the frame and the sheet already represent
    differently), or it lies in a student row and in the code or minutes
    column of a date of the map and the reconciler changed it. *)
Theorem writes_only_attendance_cells (float_repr : Q -> string)
    (numpy_column numpy_column0 : nat -> bool)
    (forms : list FormRecord) (template rs : DataFrame)
    (date_columns : gmap string date_cols) (start : string) (d : Z)
    (l : list event) (updated : DataFrame) :
  wf_df template -> wf_df rs ->
  update_attendance_data forms template date_columns start d = (l, Ok updated) ->
  exists ws ws0,
    collect_writes float_repr numpy_column updated rs (positions updated) = Ok ws /\
    collect_writes float_repr numpy_column0 template rs (positions template) = Ok ws0 /\
    forall r c v, (r, c, v) ∈ ws ->
      (exists v0, (r, c, v0) ∈ ws0) \/
      ((5 <= r < nrows template)%nat /\ pair_column date_columns c /\
       iloc_get updated r c <> iloc_get template r c /\
       exists u, iloc_get updated r c = Ok u /\
                 v = written_value float_repr numpy_column c u).
Proof.
  intros Hwf Hrs H.
  pose proof (update_attendance_data_only_attendance_cells _ _ _ _ _ _ _ H) as HI.
  destruct (update_attendance_data_evolves _ _ _ _ _ _ _ H) as [He _].
  pose proof (wf_df_evolves _ _ Hwf He) as Hwf'.
  destruct (collect_writes_spec float_repr numpy_column updated rs
              (positions updated) Hrs) as (ws & Hws & Hspec).
  { intros r c Hp. apply elem_of_positions in Hp as [Hr Hc].
    apply (iloc_get_wf updated r c Hwf' Hr Hc). }
  destruct (collect_writes_spec float_repr numpy_column0 template rs
              (positions template) Hrs) as (ws0 & Hws0 & Hspec0).
  { intros r c Hp. apply elem_of_positions in Hp as [Hr Hc].
    apply (iloc_get_wf template r c Hwf Hr Hc). }
  exists ws, ws0. split; [exact Hws|]. split; [exact Hws0|].
  intros r c v Hin. apply Hspec in Hin as (Hp & u & Hu & Hm & ->).
  apply elem_of_positions in Hp as [Hr Hc].
  rewrite (evolves_nrows _ _ He) in Hr.
  assert (Hsame : iloc_get template r c = Ok u ->
            exists v0, (r, c, v0) ∈ ws0).
  { intros Ht. eexists. apply Hspec0. split.
    - apply elem_of_positions. eapply iloc_get_in_bounds; eauto.
    - exists u. eauto. }
  destruct (HI r c) as [E | [Hge Hpc]]; [left; apply Hsame; congruence|].
  destruct (iloc_get template r c) as [u0|e] eqn:Et.
  - destruct (decide (u0 = u)) as [->|Hne]; [left; apply Hsame; reflexivity|].
    right. split; [lia|]. split; [exact Hpc|].
    split; [rewrite Hu; congruence | eauto].
  - right. split; [lia|]. split; [exact Hpc|].
    split; [rewrite Hu; discriminate | eauto].
Qed.

(** On the sample roster, against the sheet of its file: the reconciled
    roster has seven cells written, the untouched roster three. *)
Lemma writes_only_attendance_cells_witness :
  exists l updated ws ws0,
    update_attendance_data sample_forms sample_template sample_date_columns
      "13:00" 180 = (l, Ok updated) /\
    collect_writes whole_float_repr object_columns updated sample_sheet
      (positions updated) = Ok ws /\
    collect_writes whole_float_repr object_columns sample_template sample_sheet
      (positions sample_template) = Ok ws0 /\
    length ws = 7%nat /\ length ws0 = 3%nat /\
    forall r c v, (r, c, v) ∈ ws ->
      (exists v0, (r, c, v0) ∈ ws0) \/
      ((5 <= r < nrows sample_template)%nat /\ pair_column sample_date_columns c /\
       iloc_get updated r c <> iloc_get sample_template r c /\
       exists u, iloc_get updated r c = Ok u /\
                 v = written_value whole_float_repr object_columns c u).
Proof.
  eexists _, _.
  edestruct (writes_only_attendance_cells whole_float_repr
               object_columns object_columns sample_forms
               sample_template sample_sheet sample_date_columns "13:00" 180)
    as (ws & ws0 & Hws & Hws0 & Hall);
    [exact sample_template_wf | exact sample_sheet_wf | vm_compute; reflexivity |].
  exists ws, ws0. split; [reflexivity|].
  split; [exact Hws|]. split; [exact Hws0|].
  split; [vm_compute in Hws; injection Hws as <-; reflexivity|].
  split; [vm_compute in Hws0; injection Hws0 as <-; reflexivity|].
  exact Hall.
Defined.

Lemma find_template_file_after_run_witness :
  exists used pre post,
    find_template_file ["responses.xlsx"; "roster.xls"; "roster_updated.xls"]
    = ([MultipleFilesFound ".xls" used], Some used) /\
    ["responses.xlsx"; "roster.xls"; "roster_updated.xls"]
    = (pre ++ used :: post)%list /\
    py_endswith used ".xls" = true /\
    (forall x, x ∈ pre -> py_endswith x ".xls" = false) /\
    ("roster.xls" ∉ pre) /\ (output_filename "roster.xls" ∉ pre) /\
    ("roster.xls" ∈ post \/ output_filename "roster.xls" ∈ post).
Proof.
  apply (find_template_file_after_run
           ["responses.xlsx"; "roster.xls"; "roster_updated.xls"] "roster.xls").
  - right. left.
  - reflexivity.
  - right. right. left.
Defined.

Lemma output_filename_fresh_witness :
  output_filename ("roster" +:+ ".xls") = "roster" +:+ "_updated.xls".
Proof.
  apply (proj2 output_filename_fresh "roster"); reflexivity.
Defined.

(** ** The last response wins *)

Lemma apply_responses_snoc (date_columns : gmap string date_cols)
    (start : string) (d : Z) (forms : list FormRecord) (f : FormRecord) :
  forall df l df',
    apply_responses date_columns start d (forms ++ [f]) df = (l, Ok df') ->
    exists l1 df1 l2,
      apply_responses date_columns start d forms df = (l1, Ok df1) /\
      apply_response date_columns start d df1 f = (l2, Ok df').
Proof.
  induction forms as [|f0 forms IH]; intros df l df' H.
  - simpl in H. apply bind_Ok_inv in H as (l1 & a & l2 & Ha & Hr & _).
    injection Hr as _ <-. exists [], df, l1. split; [reflexivity | exact Ha].
  - simpl in H. apply bind_Ok_inv in H as (la & dfa & lb & Ha & Hb & _).
    destruct (IH _ _ _ Hb) as (l1 & df1 & l2 & H1 & H2).
    exists (la ++ l1)%list, df1, l2. split; [|exact H2].
    simpl. unfold mbind, M_bind. rewrite Ha, H1. reflexivity.
Qed.

Lemma seq_split_first (a k : nat) (pre : list nat) (x : nat) (post : list nat) :
  seq a k = (pre ++ x :: post)%list ->
  x = (a + length pre)%nat /\ forall y, (a <= y < x)%nat -> y ∈ pre.
Proof.
  intros E.
  assert (Hx : seq a k !! length pre = Some x).
  { rewrite E, lookup_app_r by lia. rewrite Nat.sub_diag. reflexivity. }
  apply lookup_seq in Hx as [Hx Hlt]. split; [lia|].
  intros y Hy.
  assert (Hy' : seq a k !! (y - a)%nat = Some y).
  { apply lookup_seq. split; lia. }
  rewrite E, lookup_app_l in Hy' by lia.
  eapply list_elem_of_lookup_2, Hy'.
Qed.

Lemma mark_absent_keeps_pair (date_columns : gmap string date_cols)
    (dd : string) (cols : date_cols) (r : nat) :
  disjoint_layout date_columns -> date_columns !! dd = Some cols ->
  forall dates df l df',
    holds_sentinel df r (code_col cols) = false ->
    mark_absent dates date_columns df = (l, Ok df') ->
    iloc_get df' r (code_col cols) = iloc_get df r (code_col cols) /\
    iloc_get df' r (minutes_col cols) = iloc_get df r (minutes_col cols).
Proof.
  intros HL Hd. induction dates as [|d0 dates IH]; intros df l df' Hs H.
  - injection H as _ <-. auto.
  - simpl in H. destruct (date_columns !! d0) as [cols0|] eqn:E0; [|eapply IH; eauto].
    apply bind_Ok_inv in H as (la & dfa & lb & Ha & Hb & _).
    pose proof (mark_absent_rows_cells _ _ _ _ _ _ Ha) as Hcells.
    assert (Hsame : iloc_get dfa r (code_col cols) = iloc_get df r (code_col cols) /\
                    iloc_get dfa r (minutes_col cols) = iloc_get df r (minutes_col cols)).
    { rewrite !Hcells. unfold absent_cell.
      destruct (HL _ _ _ _ Hd E0) as [Hcm [<-|[Hcc Hmm]]].
      - rewrite Hs, andb_false_r. auto.
      - destruct (HL _ _ _ _ E0 Hd) as [Hcm' _].
        destruct (_ && _); [|auto].
        rewrite !decide_False by congruence. auto. }
    destruct Hsame as [Hc Hm].
    destruct (IH dfa lb df') as [Hc' Hm']; [|exact Hb|split; congruence].
    unfold holds_sentinel in *. rewrite Hc. exact Hs.
Qed.

(** X17: the last response wins.  When the column pairs of the map do not
    overlap and none is the identifier column, and the reconciler returns
    on a list of form records that ends with [f], then the first roster
    row matching [f] holds at the end the code and minutes computed from
    [f], whatever the earlier records, this student's own earlier
    submissions included, wrote there, and Phase B leaves the two cells
    alone. *)
Theorem last_response_wins
    (forms : list FormRecord) (f : FormRecord) (template : DataFrame)
    (date_columns : gmap string date_cols) (start : string) (d : Z)
    (l : list event) (df' : DataFrame)
    (cols : date_cols) (n : Z) (r : nat) (c : string) (m : Z) :
  disjoint_layout date_columns ->
  (forall d0 cols0, date_columns !! d0 = Some cols0 ->
     code_col cols0 <> 0%nat /\ minutes_col cols0 <> 0%nat) ->
  update_attendance_data (forms ++ [f]) template date_columns start d = (l, Ok df') ->
  date_columns !! date f = Some cols ->
  int_of_float_of_id (student_id f) = Ok n ->
  (5 <= r < nrows template)%nat ->
  row_matches template (pretty n) r ->
  (forall r', (5 <= r' < r)%nat -> ~ row_matches template (pretty n) r') ->
  calculate_attendance (completion_time f) start d = Ok (c, m) ->
  iloc_get df' r (code_col cols) = Ok (VStr c) /\
  iloc_get df' r (minutes_col cols) = Ok (VInt m).
Proof.
  intros HL Hcol0 H Hd Hn Hr Hmatch Hfirst Hcalc.
  unfold update_attendance_data in H.
  apply bind_Ok_inv in H as (lA & dfA & lB & HA & HB & _).
  apply apply_responses_snoc in HA as (l1 & df1 & l2 & H1 & H2).
  (* the frame before the last record: identifiers as in the template *)
  assert (HI : only_attendance_cells date_columns template df1).
  { refine (apply_responses_invariant date_columns
              (only_attendance_cells date_columns template) _ start d forms
              template _ _ _ H1).
    - intros ? ? ? ? ? ? ?. apply only_attendance_cells_set.
    - intros r0 c0. left. reflexivity. }
  pose proof (apply_responses_evolves _ _ _ _ _ _ _ H1) as He1.
  assert (Hid : forall r0, iloc_get df1 r0 0%nat = iloc_get template r0 0%nat).
  { intros r0. destruct (HI r0 0%nat) as [E | [_ (d0 & cols0 & Hd0 & Hc0)]]; [exact E|].
    destruct (Hcol0 _ _ Hd0) as [? ?]. destruct Hc0; congruence. }
  assert (Hrm : forall r0, row_matches df1 (pretty n) r0
                           <-> row_matches template (pretty n) r0).
  { intros r0. unfold row_matches. rewrite Hid. reflexivity. }
  (* the last record *)
  unfold apply_response in H2.
  apply bind_Ok_inv in H2 as (ls & n' & lt & Hn' & H2 & _).
  unfold lift in Hn'. rewrite Hn in Hn'. injection Hn' as _ <-.
  rewrite Hd in H2.
  apply bind_Ok_inv in H2 as (lf & [dfx found] & lg & Hfind & Hrest & _).
  assert (HdfA : dfx = dfA).
  { destruct found.
    - injection Hrest as _ <-. reflexivity.
    - apply bind_Ok_inv in Hrest as (? & [] & ? & _ & Hret & _).
      injection Hret as _ <-. reflexivity. }
  subst dfx.
  assert (Hrows : r ∈ student_rows df1).
  { rewrite (evolves_student_rows _ _ He1). apply elem_of_student_rows. exact Hr. }
  destruct found.
  2:{ exfalso. apply find_student_no_match in Hfind as (_ & _ & Hnone).
      apply (Hnone r Hrows), Hrm, Hmatch. }
  apply find_student_match in Hfind
    as (pre & r0 & post & c0 & m0 & dfs & Hsplit & Hpre & Hm0 & Hc0 & Hs1 & Hs2 & _).
  rewrite Hcalc in Hc0. injection Hc0 as <- <-.
  unfold student_rows in Hsplit.
  destruct (seq_split_first _ _ _ _ _ Hsplit) as [Hr0 Hbefore].
  assert (r0 = r).
  { destruct (Nat.lt_trichotomy r0 r) as [Hlt | [E | Hgt]]; [|exact E|].
    - exfalso. apply (Hfirst r0); [lia | apply Hrm, Hm0].
    - exfalso. apply (Hpre r); [apply Hbefore; lia | apply Hrm, Hmatch]. }
  subst r0.
  destruct (HL _ _ _ _ Hd Hd) as [Hcm _].
  assert (HcA : iloc_get dfA r (code_col cols) = Ok (VStr c)).
  { rewrite (iloc_get_set _ _ _ _ _ _ _ Hs2).
    rewrite decide_False by (intros [_ E]; congruence).
    rewrite (iloc_get_set _ _ _ _ _ _ _ Hs1), decide_True by auto. reflexivity. }
  assert (HmA : iloc_get dfA r (minutes_col cols) = Ok (VInt m)).
  { rewrite (iloc_get_set _ _ _ _ _ _ _ Hs2), decide_True by auto. reflexivity. }
  (* Phase B *)
  destruct (mark_absent_keeps_pair date_columns (date f) cols r HL Hd _ _ _ _
              ltac:(unfold holds_sentinel; rewrite HcA;
                    destruct (calculate_attendance_code _ _ _ _ _ Hcalc) as [->|[-> _]];
                    reflexivity) HB) as [Hc' Hm'].
  split; congruence.
Qed.

Lemma last_response_wins_witness :
  exists l df',
    update_attendance_data
      ([mk_form_record "4186054" "26/11" (mk_datetime 2024 11 26 13 15 0 0)]
       ++ [mk_form_record "4186054" "26/11" (mk_datetime 2024 11 26 13 50 0 0)])
      sample_template sample_date_columns "13:00" 180 = (l, Ok df') /\
    iloc_get df' 5 5 = Ok (VStr "Y") /\ iloc_get df' 5 6 = Ok (VInt 130).
Proof.
  eexists _, _. split; [vm_compute; reflexivity|].
  eapply (last_response_wins
            [mk_form_record "4186054" "26/11" (mk_datetime 2024 11 26 13 15 0 0)]
            (mk_form_record "4186054" "26/11" (mk_datetime 2024 11 26 13 50 0 0))
            sample_template sample_date_columns "13:00" 180 _ _
            (mk_date_cols 5 6) 4186054 5 "Y" 130).
  - exact sample_layout_disjoint.
  - intros d0 cols0 H0. unfold sample_date_columns in H0.
    apply lookup_singleton_Some in H0 as [_ <-]. simpl. split; lia.
  - vm_compute. reflexivity.
  - reflexivity.
  - reflexivity.
  - vm_compute. lia.
  - exists (VInt 4186054). split; reflexivity.
  - intros r' Hr'. lia.
  - reflexivity.
Defined.
